(** * Shaggy Tree River Watch ([app.py]): model and specification

    The script polls the USGS instantaneous-values service and the Open-Meteo
    forecast service, shows the current river and weather conditions, stores
    snapshots in an SQLite table on request and charts the last 24 hours.

    The model is a shallow embedding.  Python values decoded from JSON are a
    tagged union ([pyval]); a raised exception is the [Raise] branch of
    [result]; the network, the clock, the button, the table and the page are
    fields of an explicit [World] threaded through a state-and-exception
    monad [M].  Behaviour of library code that the script only calls
    (parsing a decimal string into a float, rendering a float, SQLite's
    draw of a random rowid, pandas' datetime conversion) is taken as a
    parameter ([Runtime]). *)

From Stdlib Require Import ZArith List String Ascii Bool Lia DecimalString.
From Stdlib Require Import Permutation Sorted.
From Stdlib Require Import Floats.PrimFloat Floats.SpecFloat Floats.FloatOps.
From Stdlib Require Import Uint63.
Import ListNotations.

Set Warnings "-inexact-float,-register-all".
Local Open Scope Z_scope.

(** ** Exceptions and fallible results *)

Inductive exn : Type :=
| KeyError            (* missing dict key *)
| IndexError          (* sequence index out of range *)
| TypeError           (* operation not supported by the operand's type *)
| ValueError          (* float() of a non-numeric string, bad format code *)
| OverflowError       (* int too large for a float / for an SQLite INTEGER *)
| ZeroDivisionError
| ConnectionError     (* requests: no response (network failure, timeout) *)
| HTTPError (status : Z)   (* requests: raise_for_status on 4xx/5xx *)
| JSONDecodeError     (* requests: body is not JSON *)
| ProgrammingError    (* sqlite3: parameter of an unsupported type
                         (class InterfaceError before Python 3.11) *)
| OperationalError    (* sqlite3: no such table; no rowid left *)
| DatabaseError       (* pandas.errors.DatabaseError: the query failed *)
| DateParseError      (* pandas.to_datetime *)
| StopException.      (* streamlit: st.stop() *)

Inductive result (A : Type) : Type :=
| Ok (a : A)
| Raise (e : exn).
Arguments Ok {A} a.
Arguments Raise {A} e.

Definition rbind {A B} (r : result A) (k : A -> result B) : result B :=
  match r with
  | Ok a => k a
  | Raise e => Raise e
  end.

Notation "'let?' x ':=' e 'in' k" := (rbind e (fun x => k))
  (at level 10, x pattern, e at level 100, k at level 200).

Definition is_ok {A} (r : result A) : bool :=
  match r with Ok _ => true | Raise _ => false end.

(** ** Python values

    What [json] decoding produces, plus [None].  A [str] is the sequence of
    its UTF-8 bytes, whose order is the order of the code points; indexing
    and iteration take one byte for one character, which is exact on ASCII
    text.  A [dict] is an association list read at the first binding of a
    key. *)

Inductive pyval : Type :=
| PNone
| PBool (b : bool)
| PInt (z : Z)
| PFloat (f : float)
| PStr (s : string)
| PList (l : list pyval)
| PDict (d : list (string * pyval)).

Fixpoint dict_get (k : string) (d : list (string * pyval)) : option pyval :=
  match d with
  | [] => None
  | (k', v) :: d' => if String.eqb k k' then Some v else dict_get k d'
  end.

Fixpoint dict_keys (seen : list string) (d : list (string * pyval)) : list string :=
  match d with
  | [] => []
  | (k, _) :: d' =>
      if existsb (String.eqb k) seen then dict_keys seen d'
      else k :: dict_keys (k :: seen) d'
  end.

Fixpoint chars (s : string) : list string :=
  match s with
  | EmptyString => []
  | String c s' => String c EmptyString :: chars s'
  end.

(** [v[k]] for a string key. *)
Definition getitem (v : pyval) (k : string) : result pyval :=
  match v with
  | PDict d => match dict_get k d with Some x => Ok x | None => Raise KeyError end
  | _ => Raise TypeError
  end.

(** Index of a sequence of length [n]: negative indices count from the end. *)
Definition norm_index (n : nat) (i : Z) : option nat :=
  let j := if i <? 0 then i + Z.of_nat n else i in
  if (0 <=? j) && (j <? Z.of_nat n) then Some (Z.to_nat j) else None.

(** [v[i]] for an integer index.  The keys of a decoded JSON object are
    strings, so an integer key is never found. *)
Definition getindex (v : pyval) (i : Z) : result pyval :=
  match v with
  | PList l =>
      match norm_index (List.length l) i with
      | Some j => match nth_error l j with Some x => Ok x | None => Raise IndexError end
      | None => Raise IndexError
      end
  | PStr s =>
      match norm_index (String.length s) i with
      | Some j => match nth_error (chars s) j with Some c => Ok (PStr c) | None => Raise IndexError end
      | None => Raise IndexError
      end
  | PDict _ => Raise KeyError
  | _ => Raise TypeError
  end.

(** [for x in v]. *)
Definition py_iter (v : pyval) : result (list pyval) :=
  match v with
  | PList l => Ok l
  | PStr s => Ok (map PStr (chars s))
  | PDict d => Ok (map PStr (dict_keys [] d))
  | _ => Raise TypeError
  end.

(** [v == s] for a string constant [s]. *)
Definition eq_str (v : pyval) (s : string) : bool :=
  match v with
  | PStr s' => String.eqb s' s
  | _ => false
  end.

(** Truth value, as [or] and [if] test it. *)
Definition truthy (v : pyval) : bool :=
  match v with
  | PNone => false
  | PBool b => b
  | PInt z => negb (z =? 0)
  | PFloat f => negb (PrimFloat.eqb f 0%float)
  | PStr s => negb (String.eqb s EmptyString)
  | PList l => match l with [] => false | _ => true end
  | PDict d => match d with [] => false | _ => true end
  end.

(** [a or b]. *)
Definition py_or (a b : pyval) : pyval := if truthy a then a else b.

Definition is_none (v : pyval) : bool :=
  match v with PNone => true | _ => false end.

(** ** Python arithmetic *)

(** [float(z)] for an int: correctly rounded, [OverflowError] beyond the
    binary64 range. *)
Definition float_of_int (z : Z) : result float :=
  let f := SF2Prim (binary_normalize prec emax z 0 false) in
  if PrimFloat.is_infinity f then Raise OverflowError else Ok f.

Definition spec_of_int (z : Z) : spec_float :=
  match z with
  | Z0 => S754_zero false
  | Zpos p => S754_finite false p 0
  | Zneg p => S754_finite true p 0
  end.

(** [a / b] for two ints: the correctly rounded quotient. *)
Definition int_truediv (a b : Z) : result float :=
  if b =? 0 then Raise ZeroDivisionError
  else
    let f := SF2Prim (SFdiv prec emax (spec_of_int a) (spec_of_int b)) in
    if PrimFloat.is_infinity f then Raise OverflowError else Ok f.

(** A number as an operand: [bool] is a subclass of [int]. *)
Inductive number : Type :=
| NInt (z : Z)
| NFloat (f : float).

Definition as_number (v : pyval) : option number :=
  match v with
  | PBool b => Some (NInt (if b then 1 else 0))
  | PInt z => Some (NInt z)
  | PFloat f => Some (NFloat f)
  | _ => None
  end.

Definition to_float (n : number) : result float :=
  match n with
  | NInt z => float_of_int z
  | NFloat f => Ok f
  end.

Fixpoint repeat_str (s : string) (n : nat) : string :=
  match n with
  | O => EmptyString
  | S n' => String.append s (repeat_str s n')
  end.

Fixpoint repeat_list {A} (l : list A) (n : nat) : list A :=
  match n with
  | O => []
  | S n' => l ++ repeat_list l n'
  end.

(** [a * b]. *)
Definition py_mul (a b : pyval) : result pyval :=
  match as_number a, as_number b with
  | Some (NInt x), Some (NInt y) => Ok (PInt (x * y))
  | Some x, Some y =>
      let? fx := to_float x in
      let? fy := to_float y in
      Ok (PFloat (fx * fy)%float)
  | Some (NInt n), None =>
      match b with
      | PStr s => Ok (PStr (repeat_str s (Z.to_nat n)))
      | PList l => Ok (PList (repeat_list l (Z.to_nat n)))
      | _ => Raise TypeError
      end
  | None, Some (NInt n) =>
      match a with
      | PStr s => Ok (PStr (repeat_str s (Z.to_nat n)))
      | PList l => Ok (PList (repeat_list l (Z.to_nat n)))
      | _ => Raise TypeError
      end
  | _, _ => Raise TypeError
  end.

(** [a / b]. *)
Definition py_truediv (a b : pyval) : result pyval :=
  match as_number a, as_number b with
  | Some (NInt x), Some (NInt y) =>
      let? q := int_truediv x y in Ok (PFloat q)
  | Some x, Some y =>
      let? fx := to_float x in
      let? fy := to_float y in
      if PrimFloat.eqb fy 0%float then Raise ZeroDivisionError
      else Ok (PFloat (fx / fy)%float)
  | _, _ => Raise TypeError
  end.

(** [a + b]. *)
Definition py_add (a b : pyval) : result pyval :=
  match as_number a, as_number b with
  | Some (NInt x), Some (NInt y) => Ok (PInt (x + y))
  | Some x, Some y =>
      let? fx := to_float x in
      let? fy := to_float y in
      Ok (PFloat (fx + fy)%float)
  | None, None =>
      match a, b with
      | PStr s, PStr t => Ok (PStr (String.append s t))
      | PList l, PList m => Ok (PList (l ++ m))
      | _, _ => Raise TypeError
      end
  | _, _ => Raise TypeError
  end.

(** ** Library behaviour taken as given

    [float_of_str] is Python's [float] on a [str] ([None]: [ValueError]);
    [format_fixed f d] is [f"{f:.{d}f}"] on a float; [sqlite_real_text] and
    [sqlite_text_real] are SQLite's conversions under TEXT and REAL column
    affinity; [sqlite_random_rowid ids] is the rowid SQLite draws at random
    once the largest one is taken, given the ids in use ([None]: it found
    none); [to_datetime] is [pandas.to_datetime(column, utc=True)]
    ([None]: it raises). *)

Class Runtime : Type := {
  float_of_str : string -> option float;
  format_fixed : float -> nat -> string;
  sqlite_real_text : float -> string;
  sqlite_text_real : string -> option float;
  sqlite_random_rowid : list Z -> option Z;
  Timestamp : Type;
  to_datetime : list (option string) -> option (list Timestamp)
}.

(** ** Configuration (the constants of [app.py]) *)

Definition DEFAULT_SITE : string := "09429100".
Definition USGS_IV_URL : string := "https://waterservices.usgs.gov/nwis/iv/".
Definition OPEN_METEO_URL : string := "https://api.open-meteo.com/v1/forecast".
Definition LAT : float := 33.891584%float.
Definition LON : float := (-114.524107)%float.
Definition PARAM_GAGE_HEIGHT : string := "00065".
Definition PARAM_WATER_TEMP : string := "00010".

(** ** Helpers *)

(** [def c_to_f(c): return (c * 9 / 5) + 32 if c is not None else None] *)
Definition c_to_f (c : pyval) : result pyval :=
  if is_none c then Ok PNone
  else
    let? x := py_mul c (PInt 9) in
    let? y := py_truediv x (PInt 5) in
    py_add y (PInt 32).

(** [def mps_to_mph(mps): return mps * 2.23694 if mps is not None else None] *)
Definition mps_to_mph (mps : pyval) : result pyval :=
  if is_none mps then Ok PNone
  else py_mul mps (PFloat 2.23694%float).

Section Helpers.
Context {rt : Runtime}.

(** [float(v)] *)
Definition py_float (v : pyval) : result float :=
  match v with
  | PStr s => match float_of_str s with Some f => Ok f | None => Raise ValueError end
  | PNone | PList _ | PDict _ => Raise TypeError
  | PBool b => Ok (if b then 1%float else 0%float)
  | PInt z => float_of_int z
  | PFloat f => Ok f
  end.

(** [def fmt(v, d=2): return "N/A" if v is None else f"{v:.{d}f}"] *)
Definition fmt (v : pyval) (d : nat) : result string :=
  match v with
  | PNone => Ok "N/A"%string
  | PStr _ => Raise ValueError
  | PList _ | PDict _ => Raise TypeError
  | PBool b => Ok (format_fixed (if b then 1%float else 0%float) d)
  | PInt z => let? f := float_of_int z in Ok (format_fixed f d)
  | PFloat f => Ok (format_fixed f d)
  end.
End Helpers.

(** ** The clock

    [datetime.now(timezone.utc)] is a count of microseconds since
    1970-01-01T00:00:00 UTC; [isoformat] renders it the way Python does for
    an aware UTC datetime (years 0001 to 9999). *)

Module Clock.

Definition datetime : Type := Z.

Definition us_per_second : Z := 1000000.
Definition us_per_day : Z := 86400 * us_per_second.

(** [dt - timedelta(hours=h)] *)
Definition minus_hours (dt : datetime) (h : Z) : datetime :=
  dt - h * 3600 * us_per_second.

(** Proleptic Gregorian date of a day number (days since 1970-01-01). *)
Definition civil_from_days (z : Z) : Z * Z * Z :=
  let z := z + 719468 in
  let era := z / 146097 in
  let doe := z - era * 146097 in
  let yoe := (doe - doe / 1460 + doe / 36524 - doe / 146096) / 365 in
  let y := yoe + era * 400 in
  let doy := doe - (365 * yoe + yoe / 4 - yoe / 100) in
  let mp := (5 * doy + 2) / 153 in
  let d := doy - (153 * mp + 2) / 5 + 1 in
  let m := if mp <? 10 then mp + 3 else mp - 9 in
  (if m <=? 2 then y + 1 else y, m, d).

Definition digit (n : Z) : ascii := ascii_of_nat (48 + Z.to_nat (n mod 10)).

(** [n] in exactly [k] decimal digits, zero-padded. *)
Fixpoint pad (k : nat) (n : Z) : string :=
  match k with
  | O => EmptyString
  | S k' => String.append (pad k' (n / 10)) (String (digit n) EmptyString)
  end.

Definition isoformat (dt : datetime) : string :=
  let '(y, m, d) := civil_from_days (dt / us_per_day) in
  let r := dt mod us_per_day in
  let us := r mod us_per_second in
  let s := r / us_per_second in
  let fraction := if us =? 0 then EmptyString else String "." (pad 6 us) in
  String.concat EmptyString
    [ pad 4 y; "-"%string; pad 2 m; "-"%string; pad 2 d; "T"%string;
      pad 2 (s / 3600); ":"%string; pad 2 (s / 60 mod 60); ":"%string;
      pad 2 (s mod 60); fraction; "+00:00"%string ].

(** *** The instant an ISO-8601 text denotes

    [YYYY-MM-DDTHH:MM], then optionally [:SS], a fraction, and an offset
    ([Z] or [+HH:MM] or [-HH:MM]); a text without offset is read as UTC.
    The result is in microseconds since 1970-01-01T00:00:00 UTC. *)

Definition days_from_civil (y m d : Z) : Z :=
  let y := if m <=? 2 then y - 1 else y in
  let era := y / 400 in
  let yoe := y - era * 400 in
  let mp := if 2 <? m then m - 3 else m + 9 in
  let doy := (153 * mp + 2) / 5 + d - 1 in
  let doe := yoe * 365 + yoe / 4 - yoe / 100 + doy in
  era * 146097 + doe - 719468.

Definition digit_of (c : ascii) : option Z :=
  let n := Z.of_N (N_of_ascii c) in
  if (48 <=? n) && (n <=? 57) then Some (n - 48) else None.

(** Exactly [k] digits. *)
Fixpoint read_digits (k : nat) (s : string) (acc : Z) : option (Z * string) :=
  match k, s with
  | O, _ => Some (acc, s)
  | S k', String c s' =>
      match digit_of c with
      | Some d => read_digits k' s' (acc * 10 + d)
      | None => None
      end
  | S _, EmptyString => None
  end.

Definition expect (c : ascii) (s : string) : option string :=
  match s with
  | String c' s' => if Ascii.eqb c c' then Some s' else None
  | EmptyString => None
  end.

(** The digits of a fraction, as microseconds: [left] digits still count. *)
Fixpoint read_fraction (s : string) (left : nat) (acc : Z) : Z * string :=
  match s with
  | String c s' =>
      match digit_of c with
      | Some d =>
          match left with
          | O => read_fraction s' O acc
          | S left' => read_fraction s' left' (acc + d * 10 ^ Z.of_nat left')
          end
      | None => (acc, s)
      end
  | EmptyString => (acc, s)
  end.

Definition obind {A B} (o : option A) (k : A -> option B) : option B :=
  match o with Some a => k a | None => None end.

Notation "'let!' x ':=' e 'in' k" := (obind e (fun x => k))
  (at level 10, x pattern, e at level 100, k at level 200).

(** Seconds and fraction, when present: microseconds within the minute. *)
Definition read_seconds (s : string) : option (Z * string) :=
  match expect ":" s with
  | None => Some (0, s)
  | Some s1 =>
      let! (ss, s2) := read_digits 2 s1 0 in
      if 60 <=? ss then None
      else
        match expect "." s2 with
        | None => Some (ss * us_per_second, s2)
        | Some s3 =>
            match s3 with
            | String c _ =>
                match digit_of c with
                | Some _ =>
                    let '(us, s4) := read_fraction s3 6 0 in
                    Some (ss * us_per_second + us, s4)
                | None => None
                end
            | EmptyString => None
            end
        end
  end.

(** The offset from UTC, in minutes, and nothing after it. *)
Definition read_offset (s : string) : option Z :=
  match s with
  | EmptyString => Some 0
  | String c s1 =>
      if Ascii.eqb c "Z" then (match s1 with EmptyString => Some 0 | _ => None end)
      else
        let! sign := (if Ascii.eqb c "+" then Some 1
                      else if Ascii.eqb c "-" then Some (-1) else None) in
        let! (hh, s2) := read_digits 2 s1 0 in
        let! s3 := expect ":" s2 in
        let! (mm, s4) := read_digits 2 s3 0 in
        match s4 with
        | EmptyString => if (hh <? 24) && (mm <? 60) then Some (sign * (hh * 60 + mm)) else None
        | _ => None
        end
  end.

Definition parse_iso (s : string) : option datetime :=
  let! (y, s) := read_digits 4 s 0 in
  let! s := expect "-" s in
  let! (m, s) := read_digits 2 s 0 in
  let! s := expect "-" s in
  let! (d, s) := read_digits 2 s 0 in
  let! s := expect "T" s in
  let! (hh, s) := read_digits 2 s 0 in
  let! s := expect ":" s in
  let! (mm, s) := read_digits 2 s 0 in
  let! (us, s) := read_seconds s in
  let! offset := read_offset s in
  if (1 <=? m) && (m <=? 12) && (1 <=? d) && (d <=? 31) && (hh <? 24) && (mm <? 60)
  then Some (days_from_civil y m d * us_per_day
             + ((hh * 60 + mm - offset) * 60) * us_per_second + us)
  else None.

End Clock.


(** ** The SQLite table [readings] *)

Inductive sqlval : Type :=
| SNull
| SInteger (z : Z)
| SReal (f : float)
| SText (s : string).

(** One row.  Column [ts_utc] has TEXT affinity, so it holds NULL or text;
    the four measurement columns have REAL affinity. *)
Record Row : Type := {
  id : Z;
  ts_utc : option string;
  gage_height_ft : sqlval;
  water_temp_c : sqlval;
  air_temp_c : sqlval;
  wind_mph : sqlval
}.

(** How the [sqlite3] module binds a Python value to a [?] placeholder.
    SQLite stores a NaN as NULL; an int outside 64 bits raises
    [OverflowError], a list or a dict [ProgrammingError]. *)
Definition bind_param (v : pyval) : result sqlval :=
  match v with
  | PNone => Ok SNull
  | PBool b => Ok (SInteger (if b then 1 else 0))
  | PInt z =>
      if (- 2 ^ 63 <=? z) && (z <? 2 ^ 63) then Ok (SInteger z)
      else Raise OverflowError
  | PFloat f => Ok (if PrimFloat.is_nan f then SNull else SReal f)
  | PStr s => Ok (SText s)
  | PList _ | PDict _ => Raise ProgrammingError
  end.

Definition decimal (z : Z) : string :=
  DecimalString.NilZero.string_of_int (Z.to_int z).

Definition sql_is_null (v : sqlval) : bool :=
  match v with SNull => true | _ => false end.

(** [ts_utc >= ?] with a text parameter: NULL compares as unknown, and the
    BINARY collation orders text by its bytes. *)
Definition ts_ge (cutoff : string) (r : Row) : bool :=
  match ts_utc r with
  | None => false
  | Some t => String.leb cutoff t
  end.

(** [ORDER BY ts_utc]: NULL first, then text by its bytes. *)
Definition ts_le (a b : Row) : bool :=
  match ts_utc a, ts_utc b with
  | None, _ => true
  | Some _, None => false
  | Some x, Some y => String.leb x y
  end.

Fixpoint insert_row (r : Row) (l : list Row) : list Row :=
  match l with
  | [] => [r]
  | x :: l' => if ts_le r x then r :: l else x :: insert_row r l'
  end.

Definition order_by_ts (l : list Row) : list Row :=
  fold_right insert_row [] l.

(** [SELECT * FROM readings WHERE ts_utc >= ? ORDER BY ts_utc] *)
Definition select_since (cutoff : string) (rows : list Row) : list Row :=
  order_by_ts (filter (ts_ge cutoff) rows).

(** The largest rowid SQLite can give, and the largest id of a table
    ([None]: the table is empty). *)
Definition MAX_ROWID : Z := 2 ^ 63 - 1.

Definition max_id (rows : list Row) : option Z :=
  match rows with
  | [] => None
  | r :: rows' => Some (fold_right (fun x m => Z.max (id x) m) (id r) rows')
  end.

Definition used_id (rows : list Row) (c : Z) : bool :=
  existsb (fun r => id r =? c) rows.

(** ** The world the script runs in *)

(** What an endpoint answers to a GET: nothing (network failure, timeout),
    or a status and a body ([None]: the body is not JSON). *)
Inductive reply : Type :=
| NoResponse
| Response (status : Z) (body : option pyval).

(** A GET request: the URL and the query parameters. *)
Definition request : Type := string * list (string * pyval).

Inductive widget : Type :=
| PageConfig
| Html (what : string)
| Card (label value units : string)
| ErrorBox (e : exn)
| Caption (ts : pyval)
| SuccessBox
| InfoBox
| Chart (column : string)
| RawData.

Record World : Type := {
  net : string -> reply;        (* the reply of each URL *)
  clock : Clock.datetime;       (* datetime.now(timezone.utc) *)
  button : bool;                (* "Fetch & store latest now" was pressed *)
  requests : list request;      (* requests sent so far, oldest first *)
  db : option (list Row);       (* table readings of levels.sqlite, once created *)
  page : list widget            (* what was drawn so far, oldest first *)
}.

(** ** Computations: state, and exceptions that keep the state *)

Definition M (A : Type) : Type := World -> result A * World.

Definition ret {A} (a : A) : M A := fun w => (Ok a, w).

Definition bind {A B} (m : M A) (k : A -> M B) : M B :=
  fun w =>
    match m w with
    | (Ok a, w') => k a w'
    | (Raise e, w') => (Raise e, w')
    end.

Definition raise {A} (e : exn) : M A := fun w => (Raise e, w).

Definition lift {A} (r : result A) : M A := fun w => (r, w).

Notation "x <- m ;; k" := (bind m (fun x => k))
  (at level 61, m at next level, right associativity).
Notation "' p <- m ;; k" := (bind m (fun x => match x with p => k end))
  (at level 61, p pattern, m at next level, right associativity).
Notation "m ;; k" := (bind m (fun _ => k))
  (at level 61, right associativity).

(** Every class of the model but [StopException] derives from [Exception]. *)
Definition is_Exception (e : exn) : bool :=
  match e with StopException => false | _ => true end.

(** [try: body  except Exception as e: handler(e)] *)
Definition try_except {A} (body : M A) (handler : exn -> M A) : M A :=
  fun w =>
    match body w with
    | (Ok a, w') => (Ok a, w')
    | (Raise e, w') => if is_Exception e then handler e w' else (Raise e, w')
    end.

(** [requests.get(url, params=params, timeout=20)] *)
Definition requests_get (url : string) (params : list (string * pyval))
  : M (Z * option pyval) :=
  fun w =>
    let w' := {| net := net w; clock := clock w; button := button w;
                 requests := requests w ++ [(url, params)];
                 db := db w; page := page w |} in
    match net w url with
    | NoResponse => (Raise ConnectionError, w')
    | Response status body => (Ok (status, body), w')
    end.

(** A client (4xx) or server (5xx) error status. *)
Definition http_error (status : Z) : bool := (400 <=? status) && (status <? 600).

(** [r.raise_for_status()] *)
Definition raise_for_status (r : Z * option pyval) : M unit :=
  let status := fst r in
  if http_error status then raise (HTTPError status) else ret tt.

(** [r.json()] *)
Definition response_json (r : Z * option pyval) : M pyval :=
  match snd r with
  | Some js => ret js
  | None => raise JSONDecodeError
  end.

Definition now_utc : M Clock.datetime := fun w => (Ok (clock w), w).

Definition st_button : M bool := fun w => (Ok (button w), w).

Definition show (x : widget) : M unit :=
  fun w =>
    (Ok tt, {| net := net w; clock := clock w; button := button w;
               requests := requests w; db := db w; page := page w ++ [x] |}).

(** [st.stop()] *)
Definition st_stop {A} : M A := raise StopException.

(** The table as a statement of [sqlite3] finds it: preparing a statement
    on a table that does not exist raises [OperationalError]. *)
Definition open_table : M (list Row) :=
  fun w =>
    match db w with
    | Some rows => (Ok rows, w)
    | None => (Raise OperationalError, w)
    end.

(** The table as [pandas.read_sql_query] finds it: pandas wraps the failure
    of the query in its own [DatabaseError]. *)
Definition read_table : M (list Row) :=
  fun w =>
    match db w with
    | Some rows => (Ok rows, w)
    | None => (Raise DatabaseError, w)
    end.

Definition write_table (rows : list Row) : M unit :=
  fun w =>
    (Ok tt, {| net := net w; clock := clock w; button := button w;
               requests := requests w; db := Some rows; page := page w |}).

(** Nested subscripts, [v[k1][k2]...]: a key is a string or an index. *)
Inductive key : Type :=
| K (name : string)
| I (index : Z).

Fixpoint get_path (v : pyval) (p : list key) : result pyval :=
  match p with
  | [] => Ok v
  | K name :: p' => let? x := getitem v name in get_path x p'
  | I index :: p' => let? x := getindex v index in get_path x p'
  end.

(** A [for] loop whose body updates the loop-carried variables [acc]. *)
Fixpoint for_each {A S} (body : S -> A -> result S) (l : list A) (acc : S) : result S :=
  match l with
  | [] => Ok acc
  | x :: l' => let? acc' := body acc x in for_each body l' acc'
  end.

(** In a series of the hydrology response: the variable code,
    [s["variable"]["variableCode"][0]["value"]], and the latest sample,
    [s["values"][0]["value"][-1]]. *)
Definition code_path : list key :=
  [K "variable"; K "variableCode"; I 0; K "value"]%string.
Definition sample_path : list key :=
  [K "values"; I 0; K "value"; I (-1)]%string.

(** What [load_last_24h] returns: the selected rows, and the [ts_utc]
    column as datetimes (of type [T]) once it has been converted. *)
Record DataFrame (T : Type) : Type := {
  df_rows : list Row;
  df_ts_utc : option (list T)
}.
Arguments df_rows {T} _.
Arguments df_ts_utc {T} _.
Arguments Build_DataFrame {T} _ _.

Definition df_empty {T} (df : DataFrame T) : bool :=
  match df_rows df with [] => true | _ => false end.

(** ** The application *)

Section App.
Context {rt : Runtime}.

Local Open Scope string_scope.

(** *** Database *)

(** TEXT affinity: a number is stored as its text. *)
Definition text_affinity (v : sqlval) : option string :=
  match v with
  | SNull => None
  | SInteger z => Some (decimal z)
  | SReal f => Some (sqlite_real_text f)
  | SText s => Some s
  end.

(** A float as a REAL column gives it back.  SQLite keeps a float that is
    a whole number of 64 bits as that integer and turns it into a float
    again on reading: the value is the same, but a negative zero comes
    back as [0.0]. *)
Definition stored_real (f : float) : float :=
  if PrimFloat.eqb f 0 then 0%float else f.

(** REAL affinity: an integer, or text that reads as a number, is stored
    as a float; other text stays text. *)
Definition real_affinity (v : sqlval) : sqlval :=
  match v with
  | SNull => SNull
  | SInteger z => SReal (SF2Prim (binary_normalize prec emax z 0 false))
  | SReal f => SReal (stored_real f)
  | SText s =>
      match sqlite_text_real s with
      | Some f => SReal (stored_real f)
      | None => SText s
      end
  end.

(** The id SQLite gives a row inserted with a NULL primary key: 1 in an
    empty table, else one more than the largest id; once the largest id is
    [MAX_ROWID], an unused id drawn at random from 1 to 2^62, and the
    insert fails (SQLITE_FULL) when the draw finds none. *)
Definition next_id (rows : list Row) : result Z :=
  match max_id rows with
  | None => Ok 1%Z
  | Some m =>
      if (m <? MAX_ROWID)%Z then Ok (m + 1)%Z
      else
        match sqlite_random_rowid (map id rows) with
        | Some c =>
            if ((1 <=? c) && (c <=? 2 ^ 62))%Z && negb (used_id rows c)
            then Ok c else Raise OperationalError
        | None => Raise OperationalError
        end
  end.

(** [CREATE TABLE IF NOT EXISTS readings (...)] *)
Definition init_db : M unit :=
  fun w =>
    match db w with
    | Some _ => (Ok tt, w)
    | None => write_table [] w
    end.

(** The row that [VALUES (NULL, ?, ?, ?, ?, ?)] makes of the five
    parameters: a fresh id, each parameter bound and stored under the
    affinity of its column. *)
Definition new_row (rows : list Row) (ts gh wt at_ wind : pyval) : result Row :=
  let? c1 := bind_param ts in
  let? c2 := bind_param gh in
  let? c3 := bind_param wt in
  let? c4 := bind_param at_ in
  let? c5 := bind_param wind in
  let? i := next_id rows in
  Ok {| id := i;
        ts_utc := text_affinity c1;
        gage_height_ft := real_affinity c2;
        water_temp_c := real_affinity c3;
        air_temp_c := real_affinity c4;
        wind_mph := real_affinity c5 |}.

(** [con.execute("INSERT INTO readings VALUES (NULL, ?, ?, ?, ?, ?)",
    (ts, gh, wt, at, wind))] *)
Definition store_row (ts gh wt at_ wind : pyval) : M unit :=
  rows <- open_table ;;
  row <- lift (new_row rows ts gh wt at_ wind) ;;
  write_table (rows ++ [row]).

(** [load_last_24h] (lines 56 to 66): the query, then the conversion of the
    [ts_utc] column when the frame is not empty. *)
Definition load_last_24h : M (DataFrame Timestamp) :=
  now <- now_utc ;;
  let since := Clock.minus_hours now 24 in
  rows <- read_table ;;
  let df := {| df_rows := select_since (Clock.isoformat since) rows;
               df_ts_utc := None |} in
  if negb (df_empty df) then
    match to_datetime (map ts_utc (df_rows df)) with
    | Some column => ret {| df_rows := df_rows df; df_ts_utc := Some column |}
    | None => raise DateParseError
    end
  else ret df.

(** *** Data fetch *)

(** The body of the loop of [fetch_usgs], on the variables [ts, gh, wt]. *)
Definition usgs_series (acc : pyval * pyval * pyval) (s : pyval)
  : result (pyval * pyval * pyval) :=
  let '(_, gh, wt) := acc in
  let? code := get_path s code_path in
  let? val := get_path s sample_path in
  let? ts := getitem val "dateTime" in
  let? gh := if eq_str code PARAM_GAGE_HEIGHT
             then let? x := getitem val "value" in
                  let? f := py_float x in Ok (PFloat f)
             else Ok gh in
  let? wt := if eq_str code PARAM_WATER_TEMP
             then let? x := getitem val "value" in
                  let? f := py_float x in Ok (PFloat f)
             else Ok wt in
  Ok (ts, gh, wt).

(** [fetch_usgs] from [js = r.json()] on: returns [(ts, gh, wt)]. *)
Definition usgs_extract (js : pyval) : result (pyval * pyval * pyval) :=
  let? series := get_path js [K "value"; K "timeSeries"] in
  let? l := py_iter series in
  for_each usgs_series l (PNone, PNone, PNone).

Definition usgs_params : list (string * pyval) :=
  [ ("format", PStr "json");
    ("sites", PStr DEFAULT_SITE);
    ("parameterCd", PStr (String.append PARAM_GAGE_HEIGHT
                            (String.append "," PARAM_WATER_TEMP))) ].

Definition fetch_usgs : M (pyval * pyval * pyval) :=
  r <- requests_get USGS_IV_URL usgs_params ;;
  raise_for_status r ;;
  js <- response_json r ;;
  lift (usgs_extract js).

(** [fetch_weather] from [r.json()] on: returns [(time, temperature, wind)]. *)
Definition weather_extract (js : pyval) : result (pyval * pyval * pyval) :=
  let? cur := getitem js "current" in
  let? time := getitem cur "time" in
  let? temperature := getitem cur "temperature_2m" in
  let? speed := getitem cur "wind_speed_10m" in
  let? wind := mps_to_mph speed in
  Ok (time, temperature, wind).

Definition weather_params : list (string * pyval) :=
  [ ("latitude", PFloat LAT);
    ("longitude", PFloat LON);
    ("current", PStr "temperature_2m,wind_speed_10m");
    ("timezone", PStr "UTC") ].

Definition fetch_weather : M (pyval * pyval * pyval) :=
  r <- requests_get OPEN_METEO_URL weather_params ;;
  raise_for_status r ;;
  js <- response_json r ;;
  lift (weather_extract js).

(** *** The script, top to bottom *)

(** A merged reading: [(ts, gh, wt, at, wind)]. *)
Record Reading : Type := {
  timestamp : pyval;
  gage_height : pyval;
  water_temp : pyval;
  air_temp : pyval;
  wind : pyval
}.

(** The body of the [try] (lines 137 to 139). *)
Definition fetch_current : M Reading :=
  '(ts_r, gh, wt) <- fetch_usgs ;;
  '(ts_w, at_, wind) <- fetch_weather ;;
  let ts := py_or ts_r ts_w in
  ret {| timestamp := ts; gage_height := gh; water_temp := wt;
         air_temp := at_; wind := wind |}.

Definition card (label : string) (value : result string) (units : string) : M unit :=
  v <- lift value ;;
  show (Card label v units).

(** [plot(col, label)]: drawn when the column has a value that is not null. *)
Definition plot {T} (df : DataFrame T) (col : Row -> sqlval) (label : string) : M unit :=
  if existsb (fun r => negb (sql_is_null (col r))) (df_rows df)
  then show (Chart label)
  else ret tt.

(** App start, styles and header (lines 107 to 131). *)
Definition header : M unit :=
  show PageConfig ;;
  init_db ;;
  show (Html "style") ;;
  show (Html "title") ;;
  show (Html "subtitle").

(** Fetch live (lines 136 to 142): the [try] and its [except]. *)
Definition fetch_live : M Reading :=
  try_except fetch_current (fun e => show (ErrorBox e) ;; st_stop).

(** Current conditions (lines 147 to 159). *)
Definition current_conditions (r : Reading) : M unit :=
  show (Html "section: Current Conditions") ;;
  card "River Level" (fmt (gage_height r) 2) "ft" ;;
  card "Water Temp" (let? f := c_to_f (water_temp r) in fmt f 1) "F" ;;
  card "Air Temp" (let? f := c_to_f (air_temp r) in fmt f 1) "F" ;;
  card "Wind" (fmt (wind r) 1) "mph" ;;
  show (Caption (timestamp r)).

(** Store snapshot button (lines 164 to 166). *)
Definition store_snapshot_button (r : Reading) : M unit :=
  pressed <- st_button ;;
  if pressed : bool then
    store_row (timestamp r) (gage_height r) (water_temp r) (air_temp r) (wind r) ;;
    show SuccessBox
  else ret tt.

(** Last 24 hours (lines 171 to 191). *)
Definition last_24_hours : M unit :=
  show (Html "section: Last 24 Hours") ;;
  df <- load_last_24h ;;
  if df_empty df then show InfoBox
  else
    plot df gage_height_ft "River Level (ft)" ;;
    plot df water_temp_c "Water Temp (C)" ;;
    plot df air_temp_c "Air Temp (C)" ;;
    plot df wind_mph "Wind (mph)" ;;
    show RawData.

(** One run of the script, top to bottom. *)
Definition script : M unit :=
  header ;;
  r <- fetch_live ;;
  current_conditions r ;;
  store_snapshot_button r ;;
  last_24_hours.

End App.

(** ** The documented shapes of the two responses *)

Module Upstream.
Local Open Scope string_scope.

(** One time series of the hydrology service:
    [variable.variableCode[0].value] and [values[0].value[-1]]. *)
Definition series (code : string) (value dateTime : pyval) : pyval :=
  PDict [ ("variable", PDict [ ("variableCode", PList [ PDict [ ("value", PStr code) ] ]) ]);
          ("values", PList [ PDict [ ("value", PList [ PDict [ ("value", value);
                                                               ("dateTime", dateTime) ] ]) ] ]) ].

Definition usgs_body (l : list pyval) : pyval :=
  PDict [ ("value", PDict [ ("timeSeries", PList l) ]) ].

Definition weather_body (time temperature speed : pyval) : pyval :=
  PDict [ ("current", PDict [ ("time", time);
                              ("temperature_2m", temperature);
                              ("wind_speed_10m", speed) ]) ].
End Upstream.

(** ** A runtime to run the model on examples

    It reads decimal numerals the way Python's [float] and SQLite do
    ([-12], [512.3], [.5], [1e-3]), converts a column of ISO-8601
    timestamps of one format, and renders fixed-point decimals exactly.
    The rendering of a REAL under TEXT affinity is a stand-in: no example
    stores a float in the text column. *)

Module Example.
Local Open Scope string_scope.

(** *** Reading a number

    Python's [float] on a [str] and SQLite's reading of a text as a number:
    blanks around, a sign, digits with a point, an exponent; the value is
    the correctly rounded one.  Python also reads [inf], [infinity] and
    [nan] in any case, and lets single underscores separate digits. *)

Definition is_blank (python : bool) (c : ascii) : bool :=
  let n := N_of_ascii c in
  ((9 <=? n) && (n <=? 13) || (n =? 32) || (python && (28 <=? n) && (n <=? 31)))%N.

Fixpoint lstrip (blank : ascii -> bool) (s : string) : string :=
  match s with
  | String c s' => if blank c then lstrip blank s' else s
  | EmptyString => s
  end.

Fixpoint rstrip (blank : ascii -> bool) (s : string) : string :=
  match s with
  | String c s' =>
      match rstrip blank s' with
      | EmptyString => if blank c then EmptyString else String c EmptyString
      | r => String c r
      end
  | EmptyString => s
  end.

Definition lower (c : ascii) : ascii :=
  let n := N_of_ascii c in
  if ((65 <=? n) && (n <=? 90))%N then ascii_of_N (n + 32) else c.

Fixpoint lowercase (s : string) : string :=
  match s with
  | String c s' => String (lower c) (lowercase s')
  | EmptyString => s
  end.

Definition read_sign (s : string) : bool * string :=
  match s with
  | String "-" s' => (true, s')
  | String "+" s' => (false, s')
  | _ => (false, s)
  end.

(** Leading digits: their value, how many, and the rest.  With
    [underscores], one underscore may stand between two digits. *)
Fixpoint read_number (underscores : bool) (s : string) (acc : Z) (n : nat)
  : Z * nat * string :=
  match s with
  | String c s' =>
      match Clock.digit_of c with
      | Some d => read_number underscores s' (acc * 10 + d)%Z (S n)
      | None =>
          match n, s' with
          | S _, String c' _ =>
              match Clock.digit_of c' with
              | Some _ =>
                  if underscores && Ascii.eqb c "_"
                  then read_number underscores s' acc n
                  else (acc, n, s)
              | None => (acc, n, s)
              end
          | _, _ => (acc, n, s)
          end
      end
  | EmptyString => (acc, n, s)
  end.

Definition signed (negative : bool) (m : Z) : spec_float :=
  match m with
  | Zpos p => S754_finite negative p 0
  | _ => S754_zero negative
  end.

(** The float nearest to [m * 10 ^ e], for [m] of at most [digits]
    digits. *)
Definition decimal_value (negative : bool) (m : Z) (digits : nat) (e : Z) : float :=
  if (m =? 0)%Z then SF2Prim (S754_zero negative)
  else if (400 <? e)%Z then SF2Prim (S754_infinity negative)
  else if (e + Z.of_nat digits <? -400)%Z then SF2Prim (S754_zero negative)
  else if (0 <=? e)%Z
       then SF2Prim (binary_normalize prec emax
                       ((if negative then - m else m) * 10 ^ e)%Z 0 false)
       else SF2Prim (SFdiv prec emax (signed negative m) (signed false (10 ^ (- e))%Z)).

(** The exponent part: nothing, or [e] or [E], a sign and digits. *)
Definition read_exponent (python : bool) (s : string) : option Z :=
  match s with
  | EmptyString => Some 0
  | String c s1 =>
      if Ascii.eqb (lower c) "e" then
        let '(negative, s2) := read_sign s1 in
        match read_number python s2 0 O with
        | (x, S _, EmptyString) => Some (if negative then - x else x)%Z
        | _ => None
        end
      else None
  end.

Definition read_float (python : bool) (s : string) : option float :=
  let s0 := rstrip (is_blank python) (lstrip (is_blank python) s) in
  let '(negative, s1) := read_sign s0 in
  let name := lowercase s1 in
  if python && (String.eqb name "inf" || String.eqb name "infinity")
  then Some (if negative then neg_infinity else infinity)
  else if python && String.eqb name "nan" then Some nan
  else
    let '(ip, a, s2) := read_number python s1 0 O in
    let '(m, b, s3) :=
      match s2 with
      | String "." s' => read_number python s' ip O
      | _ => (ip, O, s2)
      end in
    match (a + b)%nat with
    | O => None
    | S _ =>
        match read_exponent python s3 with
        | Some x => Some (decimal_value negative m (a + b) (x - Z.of_nat b)%Z)
        | None => None
        end
    end.

(** [float(s)] *)
Definition read_decimal (s : string) : option float := read_float true s.

(** The float of a text stored in a REAL column, when it reads as one
    (SQLite's own reader can be one unit in the last place away on a
    numeral of many digits or at the edge of the range). *)
Definition text_real (s : string) : option float := read_float false s.

Definition half_even (num den : Z) : Z :=
  let q := num / den in
  let r := num mod den in
  if ((den <? 2 * r) || ((den =? 2 * r) && Z.odd q))%Z then q + 1 else q.

Definition fixed (f : float) (d : nat) : string :=
  let digits (negative : bool) (n : Z) :=
    String.append (if negative then "-" else "")
      (String.append (decimal (n / 10 ^ Z.of_nat d))
         (match d with
          | O => ""
          | _ => String "." (Clock.pad d (n mod 10 ^ Z.of_nat d))
          end)) in
  match Prim2SF f with
  | S754_nan => "nan"
  | S754_infinity negative => if negative then "-inf" else "inf"
  | S754_zero negative => digits negative 0
  | S754_finite negative m e =>
      let scaled := Zpos m * 10 ^ Z.of_nat d in
      digits negative
        (if (0 <=? e)%Z then scaled * 2 ^ e else half_even scaled (2 ^ (- e)))
  end.

(** *** Converting a column of timestamps

    As pandas 2 does for ISO-8601 texts: the format is that of the first
    text, every other text must have the same layout (seconds, fraction
    and offset present or not), a null converts to no time. *)

Definition layout (t : string) : bool * bool * bool :=
  let rest := list_ascii_of_string
                (String.substring 16 (String.length t - 16) t) in
  let has c := existsb (Ascii.eqb c) rest in
  (match rest with c :: _ => Ascii.eqb c ":" | [] => false end,
   has "."%char,
   has "Z"%char || has "+"%char || has "-"%char).

Definition same_layout (a b : bool * bool * bool) : bool :=
  let '(a1, a2, a3) := a in
  let '(b1, b2, b3) := b in
  Bool.eqb a1 b1 && Bool.eqb a2 b2 && Bool.eqb a3 b3.

Fixpoint first_text (l : list (option string)) : option string :=
  match l with
  | [] => None
  | Some t :: _ => Some t
  | None :: l' => first_text l'
  end.

Fixpoint convert_as (format : bool * bool * bool) (l : list (option string))
  : option (list (option Clock.datetime)) :=
  match l with
  | [] => Some []
  | None :: l' => option_map (cons None) (convert_as format l')
  | Some t :: l' =>
      if same_layout format (layout t) then
        match Clock.parse_iso t, convert_as format l' with
        | Some i, Some r => Some (Some i :: r)
        | _, _ => None
        end
      else None
  end.

Definition convert_all (l : list (option string))
  : option (list (option Clock.datetime)) :=
  match first_text l with
  | Some t => convert_as (layout t) l
  | None => Some (map (fun _ => None) l)
  end.

(** One draw the random search can make: the smallest positive id not in
    use. *)
Definition unused_rowid (ids : list Z) : option Z :=
  find (fun c => negb (existsb (Z.eqb c) ids))
       (map Z.of_nat (seq 1 (S (List.length ids)))).

Definition runtime : Runtime := {|
  float_of_str := read_decimal;
  format_fixed := fixed;
  sqlite_real_text := fun f => fixed f 1;
  sqlite_text_real := text_real;
  sqlite_random_rowid := unused_rowid;
  Timestamp := option Clock.datetime;
  to_datetime := convert_all
|}.

(** A world: the two replies, the clock, the button and the table. *)
Definition world (usgs weather : reply) (now : Clock.datetime) (pressed : bool)
    (table : option (list Row)) : World :=
  {| net := fun url => if String.eqb url USGS_IV_URL then usgs else weather;
     clock := now; button := pressed; requests := []; db := table; page := [] |}.

(** 2026-11-03T09:41:00 UTC *)
Definition now : Clock.datetime := 1793698860000000.

Definition gage_ok : reply :=
  Response 200 (Some (Upstream.usgs_body
    [ Upstream.series PARAM_GAGE_HEIGHT (PStr "512.3") (PStr "2026-11-03T02:15:00.000-07:00");
      Upstream.series PARAM_WATER_TEMP (PStr "18.5") (PStr "2026-11-03T02:30:00.000-07:00") ])).

Definition weather_ok : reply :=
  Response 200 (Some (Upstream.weather_body (PStr "2026-11-03T09:30")
                        (PFloat 30.0) (PFloat 4.0))).

(** A stored row with a timestamp and a river level only. *)
Definition row_at (i : Z) (t : string) (level : float) : Row :=
  {| id := i; ts_utc := Some t; gage_height_ft := SReal level;
     water_temp_c := SNull; air_temp_c := SNull; wind_mph := SNull |}.

(** Three stored rows: two days old, this morning, and last night. *)
Definition three_rows : list Row :=
  [ row_at 1 "2026-11-01T10:00:00+00:00" 511.9;
    row_at 2 "2026-11-03T08:00:00+00:00" 512.3;
    row_at 3 "2026-11-02T22:00:00+00:00" 512.1 ].
End Example.

(** ** Vocabulary of the statements *)

(** The two requests of a run. *)
Definition usgs_request : request := (USGS_IV_URL, usgs_params).
Definition weather_request : request := (OPEN_METEO_URL, weather_params).

(** The world after one more request. *)
Definition logged (r : request) (w : World) : World :=
  {| net := net w; clock := clock w; button := button w;
     requests := requests w ++ [r]; db := db w; page := page w |}.

(** The world after one more widget. *)
Definition drawn (x : widget) (w : World) : World :=
  {| net := net w; clock := clock w; button := button w;
     requests := requests w; db := db w; page := page w ++ [x] |}.

(** What a fetch makes of a reply, given how it reads the decoded body. *)
Definition endpoint {A} (extract : pyval -> result A) (r : reply) : result A :=
  match r with
  | NoResponse => Raise ConnectionError
  | Response status body =>
      if http_error status then Raise (HTTPError status)
      else match body with
           | Some js => extract js
           | None => Raise JSONDecodeError
           end
  end.

(** A transport or HTTP failure: no response, or a 4xx/5xx status. *)
Definition transport_failure (r : reply) : Prop :=
  r = NoResponse \/ exists status body, r = Response status body /\ 400 <= status < 600.

(** The rows stored so far. *)
Definition stored_rows (w : World) : list Row :=
  match db w with Some rows => rows | None => [] end.

(** What [sqlite3] hands back to Python for a stored value. *)
Definition py_of_sql (v : sqlval) : pyval :=
  match v with
  | SNull => PNone
  | SInteger z => PInt z
  | SReal f => PFloat f
  | SText s => PStr s
  end.

(** A measurement as the data model has it: absent, or a float (not NaN). *)
Definition is_measure (v : pyval) : Prop :=
  v = PNone \/ exists f, v = PFloat f /\ PrimFloat.is_nan f = false.

(** A measurement as a query hands it back: the value stored, a float
    zero of either sign being [0.0]. *)
Definition read_back (v : pyval) : pyval :=
  match v with
  | PFloat f => PFloat (if PrimFloat.eqb f 0 then 0%float else f)
  | _ => v
  end.

(** The float of an int of at most 63 bits, by the processor's conversion
    ([PrimFloat.of_uint63]) rather than by [float_of_int]. *)
Definition float_of_small (z : Z) : float :=
  if z <? 0 then (- PrimFloat.of_uint63 (Uint63.of_Z (- z)))%float
  else PrimFloat.of_uint63 (Uint63.of_Z z).

(** In a series, where the timestamp of the latest sample is. *)
Definition timestamp_path : list key := sample_path ++ [K "dateTime"%string].

(** The variable code is one of the two the script asks for. *)
Definition matched (code : pyval) : bool :=
  eq_str code PARAM_GAGE_HEIGHT || eq_str code PARAM_WATER_TEMP.

(** A series the loop reads without error and whose code does not match. *)
Definition unmatched_series (s : pyval) : Prop :=
  exists code ts,
    get_path s code_path = Ok code /\ get_path s timestamp_path = Ok ts
    /\ matched code = false.

(** Claim C1 as worded: the timestamp of the last-iterated series whose
    variable code matched gage height or water temperature. *)
Definition last_matched_timestamp (l : list pyval) : result pyval :=
  for_each (fun ts s =>
              let? code := get_path s code_path in
              let? t := get_path s timestamp_path in
              Ok (if matched code then t else ts))
           l PNone.

(** Claim C3 as worded: the row's timestamp, as an instant, is not before
    [now] minus 24 hours. *)
Definition in_last_24h (now : Clock.datetime) (r : Row) : bool :=
  match ts_utc r with
  | Some t =>
      match Clock.parse_iso t with
      | Some i => Clock.minus_hours now 24 <=? i
      | None => false
      end
  | None => false
  end.

(** A weather response without the field [name] under [current]. *)
Definition lacks (js : pyval) (name : string) : Prop :=
  is_ok (get_path js [K "current"%string; K name]) = false.

(** The exceptions a traversal of decoded JSON raises. *)
Definition lookup_error (e : exn) : Prop :=
  e = KeyError \/ e = IndexError \/ e = TypeError.

(** A computation that sends no request and leaves the network as it is. *)
Definition quiet {A} (m : M A) : Prop :=
  forall w, requests (snd (m w)) = requests w /\ net (snd (m w)) = net w.

(** A computation that leaves the table as it is. *)
Definition readonly {A} (m : M A) : Prop :=
  forall w, db (snd (m w)) = db w.

(** The world when the fetch starts: the table exists, the header is drawn. *)
Definition before_fetch (w : World) : World :=
  {| net := net w; clock := clock w; button := button w;
     requests := requests w; db := Some (stored_rows w);
     page := page w ++ [PageConfig; Html "style"; Html "title"; Html "subtitle"]%string |}.

(** ** Vocabulary of the further properties *)

(** A value that is absent or a float. *)
Definition float_or_none (v : pyval) : Prop :=
  v = PNone \/ exists f, v = PFloat f.

(** A computation that at most draws: it leaves the network, the clock, the
    button, the request log and the table as they are. *)
Definition display_only {A} (m : M A) : Prop :=
  forall w,
    net (snd (m w)) = net w /\ clock (snd (m w)) = clock w
    /\ button (snd (m w)) = button w /\ requests (snd (m w)) = requests w
    /\ db (snd (m w)) = db w.

(** The series carries the variable code [code]. *)
Definition has_code (code : string) (s : pyval) : bool :=
  match get_path s code_path with
  | Ok c => eq_str c code
  | Raise _ => false
  end.

(** The last series of [l], in iteration order, that carries [code]. *)
Fixpoint last_with_code (code : string) (l : list pyval) : option pyval :=
  match l with
  | [] => None
  | s :: l' =>
      match last_with_code code l' with
      | Some x => Some x
      | None => if has_code code s then Some s else None
      end
  end.

(** The value of the latest sample of a series, [s["values"][0]["value"][-1]["value"]]. *)
Definition value_path : list key := sample_path ++ [K "value"%string].

(** The world after more widgets. *)
Definition drawn_all (l : list widget) (w : World) : World :=
  {| net := net w; clock := clock w; button := button w;
     requests := requests w; db := db w; page := page w ++ l |}.

(** The text of the water and air temperature cards: [fmt(c_to_f(v), 1)]. *)
Definition fahrenheit_text {rt : Runtime} (v : pyval) : result string :=
  let? f := c_to_f v in fmt f 1.

(** The ids of the table are 1, 2, ..., in the order of insertion. *)
Definition ids_from_one (rows : list Row) : Prop :=
  map id rows = map Z.of_nat (seq 1 (List.length rows)).

(** ** Vocabulary of the clock *)

(** The datetimes Python has: 0001-01-01T00:00:00 to
    9999-12-31T23:59:59.999999, in microseconds since 1970. *)
Definition datetime_min : Clock.datetime := -62135596800000000.
Definition datetime_max : Clock.datetime := 253402300799999999.

(** Within a 400-year era: the year of the era, the month and the day of
    the day number [doe] (the inner part of [Clock.civil_from_days]). *)
Definition date_in_era (doe : Z) : Z * Z * Z :=
  let yoe := (doe - doe / 1460 + doe / 36524 - doe / 146096) / 365 in
  let doy := doe - (365 * yoe + yoe / 4 - yoe / 100) in
  let mp := (5 * doy + 2) / 153 in
  let d := doy - (153 * mp + 2) / 5 + 1 in
  let m := if mp <? 10 then mp + 3 else mp - 9 in
  (if m <=? 2 then yoe + 1 else yoe, m, d).

(** A date as one number, in the order of dates. *)
Definition date_key (date : Z * Z * Z) : Z :=
  let '(y, m, d) := date in (y * 13 + m) * 32 + d.

Definition date_ok (date : Z * Z * Z) : bool :=
  let '(y, m, d) := date in
  (0 <=? y) && (y <=? 400) && (1 <=? m) && (m <=? 12) && (1 <=? d) && (d <=? 31).

(** Day [doe] of an era has a date, and the next day a later one. *)
Definition era_step_ok (doe : Z) : bool :=
  date_ok (date_in_era doe)
  && ((doe =? 146096) || (date_key (date_in_era doe) <? date_key (date_in_era (doe + 1)))).

(** [p] holds of the [n] integers from [start] on. *)
Fixpoint all_from (p : Z -> bool) (start : Z) (n : nat) : bool :=
  match n with
  | O => true
  | S n' => p start && all_from p (start + 1) n'
  end.

(** The text of a date and a time of day, field by field. *)
Definition iso_text (y m d hh mi ss us : Z) : string :=
  String.concat EmptyString
    [ Clock.pad 4 y; "-"%string; Clock.pad 2 m; "-"%string; Clock.pad 2 d; "T"%string;
      Clock.pad 2 hh; ":"%string; Clock.pad 2 mi; ":"%string; Clock.pad 2 ss;
      if us =? 0 then EmptyString else String "." (Clock.pad 6 us);
      "+00:00"%string ].

(** A time of day as one number: its microseconds. *)
Definition time_key (hh mi ss us : Z) : Z := ((hh * 60 + mi) * 60 + ss) * 1000000 + us.

Definition fields_ok (y m d hh mi ss us : Z) : Prop :=
  0 <= y < 10000 /\ 0 <= m < 100 /\ 0 <= d < 100 /\ 0 <= hh < 100
  /\ 0 <= mi < 60 /\ 0 <= ss < 60 /\ 0 <= us < 1000000.

(** * Verification *)

(** ** The clock *)

Example isoformat_epoch : Clock.isoformat 0 = "1970-01-01T00:00:00+00:00"%string.
Proof. reflexivity. Qed.

Example isoformat_leap_day :
  Clock.isoformat 1709210096123456 = "2024-02-29T12:34:56.123456+00:00"%string.
Proof. vm_compute. reflexivity. Qed.

Example parse_iso_offset :
  option_map Clock.isoformat (Clock.parse_iso "2026-11-02T08:00:00.000-07:00")
  = Some "2026-11-02T15:00:00+00:00"%string.
Proof. vm_compute. reflexivity. Qed.

(** *** The text order of [isoformat]

    The query compares timestamps as texts.  For the texts [isoformat]
    writes this is the order of the datetimes: a date is a later date on
    each day of a 400-year era (checked day by day), and zero-padded
    numbers compare as texts the way they compare as numbers. *)

Lemma civil_from_days_era (z : Z) :
  Clock.civil_from_days z =
  let era := (z + 719468) / 146097 in
  let '(y, m, d) := date_in_era ((z + 719468) - era * 146097) in
  (y + era * 400, m, d).
Proof.
  unfold Clock.civil_from_days, date_in_era.
  set (z' := z + 719468). cbv zeta.
  set (era := z' / 146097). set (doe := z' - era * 146097).
  set (yoe := (doe - doe / 1460 + doe / 36524 - doe / 146096) / 365).
  set (doy := doe - (365 * yoe + yoe / 4 - yoe / 100)).
  set (mp := (5 * doy + 2) / 153).
  set (m := if mp <? 10 then mp + 3 else mp - 9).
  destruct (m <=? 2);
    (apply (f_equal2 pair); [apply (f_equal2 pair); [ring | reflexivity] | reflexivity]).
Qed.

Lemma all_from_spec (p : Z -> bool) (n : nat) :
  forall start, all_from p start n = true ->
  forall z, start <= z < start + Z.of_nat n -> p z = true.
Proof.
  induction n as [|n IH]; intros start H z Hz; [lia|].
  cbn [all_from] in H. apply andb_true_iff in H as [H0 H].
  destruct (Z.eq_dec z start) as [->|Hne]; [exact H0|].
  apply (IH (start + 1) H). lia.
Qed.

Lemma era_steps : all_from era_step_ok 0 (Z.to_nat 146097) = true.
Proof. vm_cast_no_check (eq_refl true). Qed.

Lemma era_step (doe : Z) : 0 <= doe < 146097 -> era_step_ok doe = true.
Proof.
  intros H. apply (all_from_spec _ _ 0 era_steps). lia.
Qed.

Lemma date_in_era_ok (doe : Z) :
  0 <= doe < 146097 ->
  let '(y, m, d) := date_in_era doe in
  0 <= y <= 400 /\ 1 <= m <= 12 /\ 1 <= d <= 31.
Proof.
  intros H. apply era_step in H. unfold era_step_ok in H.
  apply andb_true_iff in H as [H _]. unfold date_ok in H.
  destruct (date_in_era doe) as [[y m] d].
  repeat (apply andb_true_iff in H as [H ?]). lia.
Qed.

Lemma date_key_step (doe : Z) :
  0 <= doe < 146096 -> date_key (date_in_era doe) < date_key (date_in_era (doe + 1)).
Proof.
  intros H. assert (H' : 0 <= doe < 146097) by lia.
  apply era_step in H'. unfold era_step_ok in H'.
  apply andb_true_iff in H' as [_ H']. apply orb_true_iff in H' as [H'|H']; lia.
Qed.

Lemma date_key_mono (a b : Z) :
  0 <= a -> a <= b -> b < 146097 ->
  date_key (date_in_era a) <= date_key (date_in_era b).
Proof.
  intros Ha Hab Hb. replace b with (a + Z.of_nat (Z.to_nat (b - a))) in * by lia.
  induction (Z.to_nat (b - a)) as [|n IH]; [rewrite Z.add_0_r; lia|].
  rewrite Nat2Z.inj_succ in *.
  pose proof (date_key_step (a + Z.of_nat n)).
  replace (a + Z.succ (Z.of_nat n)) with (a + Z.of_nat n + 1) in * by lia.
  lia.
Qed.

Lemma date_key_strict (a b : Z) :
  0 <= a -> a < b -> b < 146097 ->
  date_key (date_in_era a) < date_key (date_in_era b).
Proof.
  intros Ha Hab Hb. pose proof (date_key_step a).
  pose proof (date_key_mono (a + 1) b). lia.
Qed.

Lemma date_key_first_last :
  date_key (date_in_era 146096) < date_key (date_in_era 0) + 400 * 13 * 32.
Proof. vm_compute. reflexivity. Qed.

(** The date of a later day is a later date. *)
Lemma civil_from_days_increasing (z1 z2 : Z) :
  z1 < z2 ->
  date_key (Clock.civil_from_days z1) < date_key (Clock.civil_from_days z2).
Proof.
  intros H. rewrite !civil_from_days_era. cbv zeta.
  set (e1 := (z1 + 719468) / 146097). set (e2 := (z2 + 719468) / 146097).
  set (d1 := z1 + 719468 - e1 * 146097). set (d2 := z2 + 719468 - e2 * 146097).
  assert (H1 : 0 <= d1 < 146097) by (subst d1 e1; Z.div_mod_to_equations; lia).
  assert (H2 : 0 <= d2 < 146097) by (subst d2 e2; Z.div_mod_to_equations; lia).
  assert (Hle : e1 <= e2) by (apply Z.div_le_mono; lia).
  assert (He : e1 < e2 \/ (e1 = e2 /\ d1 < d2)).
  { destruct (Z.eq_dec e1 e2) as [Heq|Hne]; [right | left; lia].
    split; [exact Heq|]. subst d1 d2. rewrite Heq. lia. }
  pose proof (date_in_era_ok d1 H1) as B1. pose proof (date_in_era_ok d2 H2) as B2.
  pose proof (date_key_mono d1 146096) as M1. pose proof (date_key_mono 0 d2) as M2.
  pose proof date_key_first_last as FL.
  destruct He as [He|[He Hd]].
  - destruct (date_in_era d1) as [[y1 m1] dd1], (date_in_era d2) as [[y2 m2] dd2].
    destruct (date_in_era 146096) as [[yl ml] dl], (date_in_era 0) as [[yf mf] df].
    unfold date_key in *. lia.
  - pose proof (date_key_strict d1 d2). rewrite He.
    destruct (date_in_era d1) as [[y1 m1] dd1], (date_in_era d2) as [[y2 m2] dd2].
    unfold date_key in *. lia.
Qed.


(** *** Comparing the texts *)

Lemma append_assoc (a b c : string) :
  String.append (String.append a b) c = String.append a (String.append b c).
Proof. induction a as [|x a IH]; cbn; [reflexivity | now rewrite IH]. Qed.

Lemma compare_same_head (c : ascii) (s t : string) :
  String.compare (String c s) (String c t) = String.compare s t.
Proof.
  cbn [String.compare]. unfold Ascii.compare. now rewrite N.compare_refl.
Qed.

Lemma digit_compare (x y : Z) :
  0 <= x < 10 -> 0 <= y < 10 ->
  Ascii.compare (Clock.digit x) (Clock.digit y) = (x ?= y).
Proof.
  intros Hx Hy.
  assert (Ex : x = 0 \/ x = 1 \/ x = 2 \/ x = 3 \/ x = 4 \/ x = 5 \/ x = 6
               \/ x = 7 \/ x = 8 \/ x = 9) by lia.
  assert (Ey : y = 0 \/ y = 1 \/ y = 2 \/ y = 3 \/ y = 4 \/ y = 5 \/ y = 6
               \/ y = 7 \/ y = 8 \/ y = 9) by lia.
  repeat (destruct Ex as [->|Ex]); try subst x;
    repeat (destruct Ey as [->|Ey]); try subst y; reflexivity.
Qed.

(** Two numbers in [k] digits compare as texts the way they compare as
    numbers. *)
Lemma pad_compare (k : nat) :
  forall (x y : Z) (s t : string),
    0 <= x < 10 ^ Z.of_nat k -> 0 <= y < 10 ^ Z.of_nat k ->
    String.compare (String.append (Clock.pad k x) s) (String.append (Clock.pad k y) t)
    = match x ?= y with Eq => String.compare s t | c => c end.
Proof.
  induction k as [|k IH]; intros x y s t Hx Hy.
  - cbn in Hx, Hy. assert (x = 0) by lia. assert (y = 0) by lia. subst. reflexivity.
  - rewrite Nat2Z.inj_succ, Z.pow_succ_r in Hx, Hy by lia.
    cbn [Clock.pad]. rewrite !append_assoc. cbn [String.append].
    rewrite IH by (Z.div_mod_to_equations; lia).
    assert (Hd : Clock.digit x = Clock.digit (x mod 10)
                 /\ Clock.digit y = Clock.digit (y mod 10)).
    { unfold Clock.digit. now rewrite !Z.mod_mod by lia. }
    destruct Hd as [-> ->].
    destruct (Z.compare_spec (x / 10) (y / 10)) as [Hq|Hq|Hq].
    + cbn [String.compare].
      rewrite digit_compare by (apply Z.mod_pos_bound; lia).
      destruct (Z.compare_spec (x mod 10) (y mod 10)) as [Hr|Hr|Hr];
        destruct (Z.compare_spec x y) as [Hc|Hc|Hc];
        try reflexivity; exfalso; Z.div_mod_to_equations; lia.
    + destruct (Z.compare_spec x y) as [Hc|Hc|Hc];
        try reflexivity; exfalso; Z.div_mod_to_equations; lia.
    + destruct (Z.compare_spec x y) as [Hc|Hc|Hc];
        try reflexivity; exfalso; Z.div_mod_to_equations; lia.
Qed.

Ltac compare_field x y :=
  rewrite pad_compare by (cbn; lia);
  destruct (Z.compare_spec x y); [subst | reflexivity | exfalso; lia].

Lemma iso_text_le (y1 m1 d1 h1 i1 s1 u1 y2 m2 d2 h2 i2 s2 u2 : Z) :
  fields_ok y1 m1 d1 h1 i1 s1 u1 -> fields_ok y2 m2 d2 h2 i2 s2 u2 ->
  1 <= m1 <= 12 -> 1 <= d1 <= 31 -> 1 <= m2 <= 12 -> 1 <= d2 <= 31 ->
  date_key (y1, m1, d1) < date_key (y2, m2, d2)
  \/ (y1 = y2 /\ m1 = m2 /\ d1 = d2
      /\ time_key h1 i1 s1 u1 <= time_key h2 i2 s2 u2) ->
  String.leb (iso_text y1 m1 d1 h1 i1 s1 u1) (iso_text y2 m2 d2 h2 i2 s2 u2) = true.
Proof.
  unfold fields_ok, date_key, time_key, String.leb, iso_text.
  intros B1 B2 M1 D1 M2 D2 Hle.
  cbn [String.concat String.append].
  compare_field y1 y2. rewrite compare_same_head.
  compare_field m1 m2. rewrite compare_same_head.
  compare_field d1 d2. rewrite compare_same_head.
  compare_field h1 h2. rewrite compare_same_head.
  compare_field i1 i2. rewrite compare_same_head.
  compare_field s1 s2.
  destruct (Z.eqb_spec u1 0) as [U1|U1], (Z.eqb_spec u2 0) as [U2|U2];
    cbn [String.append]; try reflexivity; [exfalso; lia|].
  rewrite compare_same_head.
  compare_field u1 u2. reflexivity.
Qed.

Lemma civil_from_days_ok (z : Z) :
  let '(y, m, d) := Clock.civil_from_days z in 1 <= m <= 12 /\ 1 <= d <= 31.
Proof.
  rewrite civil_from_days_era. cbv zeta.
  set (e := (z + 719468) / 146097).
  assert (H : 0 <= z + 719468 - e * 146097 < 146097)
    by (subst e; Z.div_mod_to_equations; lia).
  apply date_in_era_ok in H.
  destruct (date_in_era _) as [[y m] d]. lia.
Qed.

Lemma isoformat_fields (dt : Clock.datetime) :
  let '(y, m, d) := Clock.civil_from_days (dt / Clock.us_per_day) in
  let r := dt mod Clock.us_per_day in
  let s := r / Clock.us_per_second in
  Clock.isoformat dt
  = iso_text y m d (s / 3600) (s / 60 mod 60) (s mod 60) (r mod Clock.us_per_second).
Proof.
  unfold Clock.isoformat, iso_text.
  destruct (Clock.civil_from_days _) as [[y m] d]. reflexivity.
Qed.

(** [isoformat] keeps the order: a later datetime has a later text.  The
    datetimes are those of Python, from year 1 to year 9999. *)
Lemma isoformat_increasing (a b : Clock.datetime) :
  datetime_min <= a -> a <= b -> b <= datetime_max ->
  String.leb (Clock.isoformat a) (Clock.isoformat b) = true.
Proof.
  unfold datetime_min, datetime_max. intros Hmin Hab Hmax.
  pose proof (isoformat_fields a) as Fa. pose proof (isoformat_fields b) as Fb.
  pose proof (civil_from_days_ok (a / Clock.us_per_day)) as Oa.
  pose proof (civil_from_days_ok (b / Clock.us_per_day)) as Ob.
  assert (Kmin : date_key (1, 1, 1) <= date_key (Clock.civil_from_days (a / Clock.us_per_day))).
  { change (1, 1, 1) with (Clock.civil_from_days (-62135596800000000 / Clock.us_per_day)).
    destruct (Z.eq_dec (-62135596800000000 / Clock.us_per_day) (a / Clock.us_per_day))
      as [->|Hne]; [lia|].
    apply Z.lt_le_incl, civil_from_days_increasing.
    unfold Clock.us_per_day, Clock.us_per_second in *. Z.div_mod_to_equations. lia. }
  assert (Kmax : date_key (Clock.civil_from_days (b / Clock.us_per_day))
                 <= date_key (9999, 12, 31)).
  { change (9999, 12, 31) with (Clock.civil_from_days (253402300799999999 / Clock.us_per_day)).
    destruct (Z.eq_dec (b / Clock.us_per_day) (253402300799999999 / Clock.us_per_day))
      as [->|Hne]; [lia|].
    apply Z.lt_le_incl, civil_from_days_increasing.
    unfold Clock.us_per_day, Clock.us_per_second in *. Z.div_mod_to_equations. lia. }
  assert (Kab : date_key (Clock.civil_from_days (a / Clock.us_per_day))
                < date_key (Clock.civil_from_days (b / Clock.us_per_day))
                \/ (a / Clock.us_per_day = b / Clock.us_per_day
                    /\ a mod Clock.us_per_day <= b mod Clock.us_per_day)).
  { destruct (Z.eq_dec (a / Clock.us_per_day) (b / Clock.us_per_day)) as [Heq|Hne].
    - right. split; [exact Heq|].
      unfold Clock.us_per_day, Clock.us_per_second in *. Z.div_mod_to_equations. lia.
    - left. apply civil_from_days_increasing.
      unfold Clock.us_per_day, Clock.us_per_second in *. Z.div_mod_to_equations. lia. }
  assert (Ra : 0 <= a mod Clock.us_per_day < 86400000000)
    by (apply Z.mod_pos_bound; reflexivity).
  assert (Rb : 0 <= b mod Clock.us_per_day < 86400000000)
    by (apply Z.mod_pos_bound; reflexivity).
  set (ra := a mod Clock.us_per_day) in *. set (rb := b mod Clock.us_per_day) in *.
  destruct Kab as [Kab|[Kday Kr]].
  - destruct (Clock.civil_from_days (a / Clock.us_per_day)) as [[y1 m1] d1].
    destruct (Clock.civil_from_days (b / Clock.us_per_day)) as [[y2 m2] d2].
    cbv zeta in Fa, Fb. rewrite Fa, Fb.
    assert (Kab' := Kab). unfold date_key in Kmin, Kmax, Kab'.
    cbv beta iota in Oa, Ob.
    apply iso_text_le;
      [ unfold fields_ok, Clock.us_per_second in *; Z.div_mod_to_equations; lia
      | unfold fields_ok, Clock.us_per_second in *; Z.div_mod_to_equations; lia
      | lia | lia | lia | lia | left; exact Kab ].
  - rewrite <- Kday in *.
    destruct (Clock.civil_from_days (a / Clock.us_per_day)) as [[y1 m1] d1].
    cbv zeta in Fa, Fb. rewrite Fa, Fb. unfold date_key in Kmin, Kmax.
    cbv beta iota in Oa, Ob.
    apply iso_text_le;
      [ unfold fields_ok, Clock.us_per_second in *; Z.div_mod_to_equations; lia
      | unfold fields_ok, Clock.us_per_second in *; Z.div_mod_to_equations; lia
      | lia | lia | lia | lia | right ].
    split; [reflexivity|]. split; [reflexivity|]. split; [reflexivity|].
    unfold time_key, Clock.us_per_second in *. Z.div_mod_to_equations. lia.
Qed.

(** ** Results and exceptions *)

Lemma rbind_ok {A B} (r : result A) (k : A -> result B) (b : B) :
  rbind r k = Ok b -> exists a, r = Ok a /\ k a = Ok b.
Proof. destruct r as [a|e]; cbn; intros H; [eauto | discriminate]. Qed.

Lemma rbind_raise {A B} (r : result A) (k : A -> result B) (e : exn) :
  rbind r k = Raise e -> r = Raise e \/ exists a, r = Ok a /\ k a = Raise e.
Proof. destruct r as [a|e']; cbn; intros H; [right; eauto | left; congruence]. Qed.

Lemma is_ok_false {A} (r : result A) : is_ok r = false -> exists e, r = Raise e.
Proof. destruct r; cbn; intros H; [discriminate | eauto]. Qed.

Lemma getitem_raise v k e : getitem v k = Raise e -> e = KeyError \/ e = TypeError.
Proof.
  destruct v; cbn; try (intros [= <-]; auto).
  destruct (dict_get k d); intros [= <-]; auto.
Qed.

Lemma getindex_raise v i e : getindex v i = Raise e -> lookup_error e.
Proof.
  unfold lookup_error.
  destruct v; cbn; try (intros [= <-]; auto).
  - destruct (norm_index _ i); [destruct (nth_error _ _)|]; intros [= <-]; auto.
  - destruct (norm_index _ i); [destruct (nth_error _ _)|]; intros [= <-]; auto.
Qed.

Lemma get_path_raise p : forall v e, get_path v p = Raise e -> lookup_error e.
Proof.
  induction p as [|[name|index] p IH]; intros v e; cbn.
  - discriminate.
  - intros H. apply rbind_raise in H as [H|(x & _ & H)]; [|eauto].
    apply getitem_raise in H. unfold lookup_error. tauto.
  - intros H. apply rbind_raise in H as [H|(x & _ & H)]; [|eauto].
    now apply getindex_raise in H.
Qed.

Lemma get_path_app v p q :
  get_path v (p ++ q) = let? x := get_path v p in get_path x q.
Proof.
  revert v. induction p as [|[name|index] p IH]; intros v; cbn; [reflexivity| |].
  - destruct (getitem v name); cbn; [apply IH | reflexivity].
  - destruct (getindex v index); cbn; [apply IH | reflexivity].
Qed.

(** ** C8: the Celsius to Fahrenheit converter *)

Lemma float_of_small_int :
  float_of_int 9 = Ok 9%float /\ float_of_int 5 = Ok 5%float
  /\ float_of_int 32 = Ok 32%float.
Proof. repeat split; vm_compute; reflexivity. Qed.

Lemma c_to_f_float (c : float) :
  c_to_f (PFloat c) = Ok (PFloat (c * 9 / 5 + 32)%float).
Proof.
  destruct float_of_small_int as (H9 & H5 & H32).
  unfold c_to_f, py_mul, py_truediv, py_add, as_number, to_float; cbn [is_none rbind].
  rewrite H9; cbn [rbind]. rewrite H5; cbn [rbind].
  replace (PrimFloat.eqb 5 0) with false by (vm_compute; reflexivity).
  rewrite H32. reflexivity.
Qed.

Lemma c_to_f_int (z : Z) :
  c_to_f (PInt z) = let? q := int_truediv (z * 9) 5 in Ok (PFloat (q + 32)%float).
Proof.
  destruct float_of_small_int as (_ & _ & H32).
  unfold c_to_f, py_mul, py_truediv, py_add, as_number; cbn [is_none rbind].
  destruct (int_truediv (z * 9) 5) as [q|e]; cbn [rbind to_float]; [|reflexivity].
  rewrite H32. reflexivity.
Qed.

Lemma range_one (Q : Z -> Prop) (a : Z) :
  Q a -> forall z, a <= z < a + 1 -> Q z.
Proof. intros H z Hz. replace z with a by lia. exact H. Qed.

Lemma range_split (Q : Z -> Prop) (a m b : Z) :
  (forall z, a <= z < m -> Q z) -> (forall z, m <= z < b -> Q z) ->
  forall z, a <= z < b -> Q z.
Proof.
  intros H1 H2 z Hz. destruct (Z_lt_ge_dec z m); [apply H1 | apply H2]; lia.
Qed.

(** [forall z, a <= z < a + n -> Q z], by halving the range and computing
    [Q] at each of its [n] points. *)
Ltac each_in_range a n :=
  lazymatch n with
  | 1%positive => apply (range_one _ a); vm_compute; reflexivity
  | _ =>
      let h := eval vm_compute in (Pos.div2 n) in
      let m := eval vm_compute in (a + Zpos h) in
      let r := eval vm_compute in (Pos.sub n h) in
      apply (range_split _ a m); [each_in_range a h | each_in_range m r]
  end.

(** On an int the converter divides two ints; between -1000 and 1000 the
    result is that of the float formula on the int's float. *)
Lemma c_to_f_small_int (z : Z) :
  -1000 <= z < 1001 ->
  c_to_f (PInt z) = Ok (PFloat (float_of_small z * 9 / 5 + 32)%float).
Proof. revert z. each_in_range (-1000) 2001%positive. Qed.

(** C8.  [c_to_f] returns the value of [c * 9 / 5 + 32] itself, in Python's
    arithmetic and with no rounding to a number of decimals, when [c] is
    present, and [None] when [c] is [None]: for every float, and for every
    int between -1000 and 1000, where it is the same float as for the
    float of that int.  It sends 0 (the int and the float) to 32, 37 to
    98.6, -40 to -40 and a value such as 0.12345 to all the digits of the
    result; on an int too large for a float the division raises. *)
Theorem c_to_f_formula :
  c_to_f PNone = Ok PNone
  /\ (forall c : float, c_to_f (PFloat c) = Ok (PFloat (c * 9 / 5 + 32)%float))
  /\ (forall z : Z,
        -1000 <= z <= 1000 ->
        c_to_f (PInt z) = Ok (PFloat (float_of_small z * 9 / 5 + 32)%float)
        /\ c_to_f (PInt z) = c_to_f (PFloat (float_of_small z)))
  /\ c_to_f (PInt 0) = Ok (PFloat 32%float)
  /\ c_to_f (PInt 37) = Ok (PFloat 98.6%float)
  /\ c_to_f (PInt (-40)) = Ok (PFloat (-40)%float)
  /\ c_to_f (PInt (2 ^ 53 + 1)) = Ok (PFloat 1.621295865853382e16%float)
  /\ c_to_f (PInt (10 ^ 400)) = Raise OverflowError
  /\ c_to_f (PFloat 0%float) = Ok (PFloat 32%float)
  /\ c_to_f (PFloat 0.12345%float) = Ok (PFloat 32.22221%float).
Proof.
  split; [reflexivity|].
  split; [exact c_to_f_float|].
  split.
  { intros z Hz. rewrite c_to_f_float.
    split; apply c_to_f_small_int; lia. }
  repeat split; vm_compute; reflexivity.
Qed.

(** ** The two fetches, as functions of the reply *)

Section Fetch.
Context {rt : Runtime}.

Lemma fetch_usgs_run (w : World) :
  fetch_usgs w = (endpoint usgs_extract (net w USGS_IV_URL), logged usgs_request w).
Proof.
  unfold fetch_usgs, bind, requests_get, raise_for_status, response_json, lift,
    endpoint, logged, raise, ret.
  destruct (net w USGS_IV_URL) as [|status body]; [reflexivity|].
  cbn [fst snd].
  destruct (http_error status); [reflexivity|].
  destruct body; reflexivity.
Qed.

Lemma fetch_weather_run (w : World) :
  fetch_weather w
  = (endpoint weather_extract (net w OPEN_METEO_URL), logged weather_request w).
Proof.
  unfold fetch_weather, bind, requests_get, raise_for_status, response_json, lift,
    endpoint, logged, raise, ret.
  destruct (net w OPEN_METEO_URL) as [|status body]; [reflexivity|].
  cbn [fst snd].
  destruct (http_error status); [reflexivity|].
  destruct body; reflexivity.
Qed.

Lemma fetch_current_run (w : World) :
  fetch_current w =
  match endpoint usgs_extract (net w USGS_IV_URL) with
  | Raise e => (Raise e, logged usgs_request w)
  | Ok (ts_r, gh, wt) =>
      match endpoint weather_extract (net w OPEN_METEO_URL) with
      | Raise e => (Raise e, logged weather_request (logged usgs_request w))
      | Ok (ts_w, at_, wind) =>
          (Ok {| timestamp := py_or ts_r ts_w; gage_height := gh; water_temp := wt;
                 air_temp := at_; wind := wind |},
           logged weather_request (logged usgs_request w))
      end
  end.
Proof.
  unfold fetch_current, bind. rewrite fetch_usgs_run.
  destruct (endpoint usgs_extract (net w USGS_IV_URL)) as [[[ts_r gh] wt]|e];
    [|reflexivity].
  rewrite fetch_weather_run. cbn [net logged].
  destruct (endpoint weather_extract (net w OPEN_METEO_URL)) as [[[ts_w at_] wind]|e];
    reflexivity.
Qed.

Lemma endpoint_transport_failure {A} (extract : pyval -> result A) (r : reply) :
  transport_failure r ->
  exists e, endpoint extract r = Raise e /\ is_Exception e = true
            /\ (e = ConnectionError \/ exists status, e = HTTPError status).
Proof.
  intros [->|(status & body & -> & Hlo & Hhi)]; cbn.
  - exists ConnectionError. auto.
  - replace (http_error status) with true by
      (symmetry; apply andb_true_iff; split; [apply Z.leb_le | apply Z.ltb_lt]; lia).
    exists (HTTPError status). eauto.
Qed.

(** *** What the extraction can raise *)

Lemma float_of_int_raise z e : float_of_int z = Raise e -> e = OverflowError.
Proof.
  unfold float_of_int.
  destruct (PrimFloat.is_infinity _); intros [= <-]; reflexivity.
Qed.

Lemma py_float_raise v e : py_float v = Raise e -> is_Exception e = true.
Proof.
  destruct v as [|b|z|f|s|l|d]; cbn; try (intros [= <-]; reflexivity).
  - intros H. apply float_of_int_raise in H as ->. reflexivity.
  - destruct (float_of_str s); intros [= <-]; reflexivity.
Qed.

Lemma lookup_error_Exception e : lookup_error e -> is_Exception e = true.
Proof. intros [->|[->| ->]]; reflexivity. Qed.

Lemma py_mul_raise a b e : py_mul a b = Raise e -> is_Exception e = true.
Proof.
  unfold py_mul.
  destruct (as_number a) as [[x|x]|] eqn:Ha, (as_number b) as [[y|y]|] eqn:Hb; cbn;
    try discriminate; try (intros [= <-]; reflexivity).
  - destruct (float_of_int x) eqn:Hx; cbn; [discriminate|].
    intros [= <-]. apply float_of_int_raise in Hx as ->. reflexivity.
  - destruct b; intros [= <-]; reflexivity.
  - destruct (float_of_int y) eqn:Hy; cbn; [discriminate|].
    intros [= <-]. apply float_of_int_raise in Hy as ->. reflexivity.
  - destruct a; intros [= <-]; reflexivity.
Qed.

Lemma mps_to_mph_raise v e : mps_to_mph v = Raise e -> is_Exception e = true.
Proof.
  unfold mps_to_mph. destruct (is_none v); [discriminate | apply py_mul_raise].
Qed.

Ltac split_bind H :=
  apply rbind_raise in H as [H|(? & ? & H)].

Lemma usgs_series_raise acc s e :
  usgs_series acc s = Raise e -> is_Exception e = true.
Proof.
  destruct acc as [[ts gh] wt]. unfold usgs_series. intros H.
  split_bind H; [now apply get_path_raise, lookup_error_Exception in H|].
  split_bind H; [now apply get_path_raise, lookup_error_Exception in H|].
  split_bind H; [apply getitem_raise in H as [->| ->]; reflexivity|].
  split_bind H.
  { destruct (eq_str _ PARAM_GAGE_HEIGHT); [|discriminate H].
    split_bind H; [apply getitem_raise in H as [->| ->]; reflexivity|].
    split_bind H; [now apply py_float_raise in H | discriminate H]. }
  split_bind H; [|discriminate H].
  destruct (eq_str _ PARAM_WATER_TEMP); [|discriminate H].
  split_bind H; [apply getitem_raise in H as [->| ->]; reflexivity|].
  split_bind H; [now apply py_float_raise in H | discriminate H].
Qed.

Lemma for_each_raise {A S} (body : S -> A -> result S) (l : list A) :
  (forall acc x e, body acc x = Raise e -> is_Exception e = true) ->
  forall acc e, for_each body l acc = Raise e -> is_Exception e = true.
Proof.
  intros Hbody. induction l as [|x l IH]; intros acc e; cbn; [discriminate|].
  intros H. split_bind H; eauto.
Qed.

Lemma usgs_extract_raise js e : usgs_extract js = Raise e -> is_Exception e = true.
Proof.
  unfold usgs_extract. intros H.
  split_bind H; [now apply get_path_raise, lookup_error_Exception in H|].
  split_bind H.
  { destruct x; cbn in H; try discriminate H; injection H as <-; reflexivity. }
  eapply for_each_raise; [|exact H]. intros; eapply usgs_series_raise; eassumption.
Qed.

Lemma weather_extract_raise js e :
  weather_extract js = Raise e -> is_Exception e = true.
Proof.
  unfold weather_extract. intros H.
  split_bind H; [apply getitem_raise in H as [->| ->]; reflexivity|].
  split_bind H; [apply getitem_raise in H as [->| ->]; reflexivity|].
  split_bind H; [apply getitem_raise in H as [->| ->]; reflexivity|].
  split_bind H; [apply getitem_raise in H as [->| ->]; reflexivity|].
  split_bind H; [now apply mps_to_mph_raise in H | discriminate H].
Qed.

Lemma endpoint_raise {A} (extract : pyval -> result A) (r : reply) e :
  (forall js e, extract js = Raise e -> is_Exception e = true) ->
  endpoint extract r = Raise e -> is_Exception e = true.
Proof.
  intros Hx. destruct r as [|status body]; cbn.
  - intros [= <-]. reflexivity.
  - destruct (http_error status); [intros [= <-]; reflexivity|].
    destruct body; [apply Hx | intros [= <-]; reflexivity].
Qed.

(** Whatever the fetch step raises is caught by [except Exception]. *)
Lemma fetch_current_raise (w : World) e :
  fst (fetch_current w) = Raise e -> is_Exception e = true.
Proof.
  rewrite fetch_current_run.
  destruct (endpoint usgs_extract _) as [[[ts_r gh] wt]|e1] eqn:H1.
  - destruct (endpoint weather_extract _) as [[[ts_w at_] wind]|e2] eqn:H2; cbn.
    + discriminate.
    + intros [= <-]. eapply endpoint_raise; [|exact H2]. apply weather_extract_raise.
  - cbn. intros [= <-]. eapply endpoint_raise; [|exact H1]. apply usgs_extract_raise.
Qed.

End Fetch.

(** ** C7: a weather response without one of its three fields *)

(** C7.  When the weather service answers with JSON in which [current.time],
    [current.temperature_2m] or [current.wind_speed_10m] cannot be read,
    [fetch_weather] raises (a [KeyError] or [TypeError] from the subscript,
    unless the status already made it an [HTTPError]); it returns no result
    with the field taken as absent. *)
Theorem weather_missing_field_is_fatal
    (w : World) (status : Z) (js : pyval) (name : string) :
  net w OPEN_METEO_URL = Response status (Some js) ->
  In name ["time"; "temperature_2m"; "wind_speed_10m"]%string ->
  lacks js name ->
  exists e, fst (fetch_weather w) = Raise e
            /\ (e = KeyError \/ e = TypeError \/ e = HTTPError status).
Proof.
  intros Hnet Hname Hlacks.
  rewrite fetch_weather_run, Hnet. cbn [fst endpoint].
  destruct (http_error status); [eauto|].
  unfold lacks in Hlacks. cbn [get_path] in Hlacks.
  unfold weather_extract.
  destruct (getitem js "current") as [cur|e0] eqn:Hcur; cbn [rbind] in *.
  { assert (Hfield : exists e, getitem cur name = Raise e /\ (e = KeyError \/ e = TypeError)).
    { destruct (getitem cur name) as [x|e1] eqn:Hx; [discriminate Hlacks|].
      exists e1. split; [reflexivity | now apply getitem_raise in Hx]. }
    destruct Hfield as (e1 & Hraise & He1).
    destruct (getitem cur "time") as [t|e2] eqn:Ht; cbn [rbind].
    2:{ exists e2. split; [reflexivity|]. apply getitem_raise in Ht. tauto. }
    destruct (getitem cur "temperature_2m") as [temp|e3] eqn:Htemp; cbn [rbind].
    2:{ exists e3. split; [reflexivity|]. apply getitem_raise in Htemp. tauto. }
    destruct (getitem cur "wind_speed_10m") as [speed|e4] eqn:Hspeed; cbn [rbind].
    2:{ exists e4. split; [reflexivity|]. apply getitem_raise in Hspeed. tauto. }
    exfalso. cbn in Hname.
    destruct Hname as [<-|[<-|[<-|[]]]]; congruence. }
  exists e0. split; [reflexivity|]. apply getitem_raise in Hcur. tauto.
Qed.

(** A response that carries [current] but no [current.wind_speed_10m]. *)
Lemma weather_missing_field_is_fatal_witness :
  exists e,
    fst (fetch_weather
           (Example.world Example.gage_ok
              (Response 200 (Some (PDict [("current", PDict [("time", PStr "2026-11-03T09:30");
                                                             ("temperature_2m", PFloat 30.0)])]%string)))
              Example.now false None)) = Raise e
    /\ (e = KeyError \/ e = TypeError \/ e = HTTPError 200).
Proof.
  eapply weather_missing_field_is_fatal with (name := "wind_speed_10m"%string).
  - reflexivity.
  - cbn. tauto.
  - reflexivity.
Defined.

(** ** Computations that send no request *)

Create HintDb quiet.

Lemma quiet_ret {A} (a : A) : quiet (ret a).
Proof. intros w. split; reflexivity. Qed.

Lemma quiet_raise {A} (e : exn) : quiet (@raise A e).
Proof. intros w. split; reflexivity. Qed.

Lemma quiet_lift {A} (r : result A) : quiet (lift r).
Proof. intros w. split; reflexivity. Qed.

Lemma quiet_show (x : widget) : quiet (show x).
Proof. intros w. split; reflexivity. Qed.

Lemma quiet_st_button : quiet st_button.
Proof. intros w. split; reflexivity. Qed.

Lemma quiet_now_utc : quiet now_utc.
Proof. intros w. split; reflexivity. Qed.

Lemma quiet_read_table : quiet read_table.
Proof. intros w. unfold read_table. destruct (db w); split; reflexivity. Qed.

Lemma quiet_open_table : quiet open_table.
Proof. intros w. unfold open_table. destruct (db w); split; reflexivity. Qed.

Lemma quiet_write_table (rows : list Row) : quiet (write_table rows).
Proof. intros w. split; reflexivity. Qed.

Lemma quiet_bind {A B} (m : M A) (k : A -> M B) :
  quiet m -> (forall a, quiet (k a)) -> quiet (bind m k).
Proof.
  intros Hm Hk w. unfold bind.
  destruct (Hm w) as [Hr Hn]. destruct (m w) as [[a|e] w']; cbn [snd] in *.
  - destruct (Hk a w') as [Hr' Hn']. split; congruence.
  - split; assumption.
Qed.

#[local] Hint Resolve quiet_ret quiet_raise quiet_lift quiet_show quiet_st_button
  quiet_now_utc quiet_read_table quiet_open_table quiet_write_table quiet_bind
  : quiet.

Section Script.
Context {rt : Runtime}.

Lemma quiet_init_db : quiet init_db.
Proof. intros w. unfold init_db. destruct (db w); split; reflexivity. Qed.

Lemma quiet_store_row ts gh wt at_ wind : quiet (store_row ts gh wt at_ wind).
Proof. unfold store_row. auto with quiet. Qed.

Lemma quiet_load_last_24h : quiet load_last_24h.
Proof.
  unfold load_last_24h. apply quiet_bind; [auto with quiet|]. intros now.
  apply quiet_bind; [auto with quiet|]. intros rows.
  destruct (negb _); [|auto with quiet].
  destruct (to_datetime _); auto with quiet.
Qed.

Lemma quiet_card label value units : quiet (card label value units).
Proof. unfold card. auto with quiet. Qed.

Lemma quiet_plot {T} (df : DataFrame T) col label : quiet (plot df col label).
Proof. unfold plot. destruct (existsb _ _); auto with quiet. Qed.

Hint Resolve quiet_init_db quiet_store_row quiet_load_last_24h quiet_card
  quiet_plot : quiet.

Lemma quiet_current_conditions r : quiet (current_conditions r).
Proof. unfold current_conditions. auto 10 with quiet. Qed.

Lemma quiet_store_snapshot_button r : quiet (store_snapshot_button r).
Proof.
  unfold store_snapshot_button. apply quiet_bind; [auto with quiet|].
  intros [|]; auto with quiet.
Qed.

Lemma quiet_last_24_hours : quiet last_24_hours.
Proof.
  unfold last_24_hours. apply quiet_bind; [auto with quiet|]. intros _.
  apply quiet_bind; [auto with quiet|]. intros df.
  destruct (df_empty df); auto 10 with quiet.
Qed.

(** *** The script up to the fetch *)

Lemma header_run (w : World) : header w = (Ok tt, before_fetch w).
Proof.
  unfold header, before_fetch, stored_rows, bind, show, init_db, write_table.
  destruct (db w); cbn; rewrite <- !app_assoc; reflexivity.
Qed.

Lemma fetch_live_run (w : World) :
  fetch_live w =
  match fetch_current w with
  | (Ok r, w') => (Ok r, w')
  | (Raise e, w') => (Raise StopException, drawn (ErrorBox e) w')
  end.
Proof.
  unfold fetch_live, try_except.
  pose proof (fetch_current_raise w) as Hexn.
  destruct (fetch_current w) as [[r|e] w']; [reflexivity|].
  rewrite (Hexn e eq_refl). reflexivity.
Qed.

Lemma script_run (w : World) :
  script w =
  match fetch_current (before_fetch w) with
  | (Ok r, w') =>
      (current_conditions r ;; store_snapshot_button r ;; last_24_hours) w'
  | (Raise e, w') => (Raise StopException, drawn (ErrorBox e) w')
  end.
Proof.
  unfold script. unfold bind at 1. rewrite header_run.
  unfold bind at 1. rewrite fetch_live_run.
  destruct (fetch_current (before_fetch w)) as [[r|e] w']; reflexivity.
Qed.

Lemma quiet_after_fetch r :
  quiet (current_conditions r ;; store_snapshot_button r ;; last_24_hours).
Proof.
  apply quiet_bind; [apply quiet_current_conditions|]. intros _.
  apply quiet_bind; [apply quiet_store_snapshot_button|]. intros _.
  apply quiet_last_24_hours.
Qed.

End Script.

(** ** C10 and C4: the order of the fetches, and a failed fetch *)

Section Cycle.
Context {rt : Runtime}.

(** C10.  In a run of the script the gage service is requested first, and
    the weather service is requested after it exactly when [fetch_usgs]
    returned: when [fetch_usgs] raises, the run sends no weather request.
    The same holds of the fetch step alone. *)
Theorem weather_requested_after_gage_success (w : World) :
  let sent := usgs_request ::
              (if is_ok (fst (fetch_usgs w)) then [weather_request] else []) in
  requests (snd (fetch_current w)) = requests w ++ sent
  /\ requests (snd (script w)) = requests w ++ sent.
Proof.
  cbn zeta. rewrite fetch_usgs_run. cbn [fst]. split.
  - rewrite fetch_current_run.
    destruct (endpoint usgs_extract (net w USGS_IV_URL)) as [[[ts_r gh] wt]|e];
      [|reflexivity].
    destruct (endpoint weather_extract (net w OPEN_METEO_URL)) as [[[ts_w at_] wind]|e];
      cbn; rewrite <- app_assoc; reflexivity.
  - rewrite script_run, fetch_current_run. cbn [net before_fetch].
    destruct (endpoint usgs_extract (net w USGS_IV_URL)) as [[[ts_r gh] wt]|e];
      [|reflexivity].
    destruct (endpoint weather_extract (net w OPEN_METEO_URL)) as [[[ts_w at_] wind]|e].
    + match goal with |- context [bind ?m ?k ?w0] =>
        destruct (quiet_after_fetch
                    {| timestamp := py_or ts_r ts_w; gage_height := gh;
                       water_temp := wt; air_temp := at_; wind := wind |} w0) as [Hr _]
      end.
      rewrite Hr. cbn. rewrite <- app_assoc. reflexivity.
    + cbn. rewrite <- app_assoc. reflexivity.
Qed.

(** C4.  When either service fails in transport (no response) or answers
    with a 4xx/5xx status, the fetch step raises and yields no reading; the
    run shows the error and stops there, so nothing is appended: the table
    holds the rows it held before. *)
Theorem failed_fetch_stores_nothing (w : World) :
  transport_failure (net w USGS_IV_URL) \/ transport_failure (net w OPEN_METEO_URL) ->
  exists e,
    fst (fetch_current w) = Raise e
    /\ fst (script w) = Raise StopException
    /\ db (snd (script w)) = Some (stored_rows w)
    /\ page (snd (script w)) = page (before_fetch w) ++ [ErrorBox e].
Proof.
  intros Hfail.
  assert (Hraise : exists e, fst (fetch_current w) = Raise e).
  { rewrite fetch_current_run.
    destruct Hfail as [Hu|Hw].
    - destruct (endpoint_transport_failure usgs_extract _ Hu) as (e & -> & _).
      cbn. eauto.
    - destruct (endpoint usgs_extract _) as [[[ts_r gh] wt]|e]; [|cbn; eauto].
      destruct (endpoint_transport_failure weather_extract _ Hw) as (e & -> & _).
      cbn. eauto. }
  destruct Hraise as (e & He). exists e. split; [exact He|].
  rewrite script_run.
  rewrite fetch_current_run in He. rewrite fetch_current_run. cbn [net before_fetch].
  destruct (endpoint usgs_extract (net w USGS_IV_URL)) as [[[ts_r gh] wt]|e1].
  - destruct (endpoint weather_extract (net w OPEN_METEO_URL)) as [[[ts_w at_] wind]|e2];
      [discriminate He|].
    injection He as ->. repeat split.
  - injection He as ->. repeat split.
Qed.

End Cycle.

(** The weather service times out and the button is pressed: one stored row
    stays one stored row. *)
Lemma failed_fetch_stores_nothing_witness :
  let w := Example.world Example.gage_ok NoResponse Example.now true
             (Some [ {| id := 1; ts_utc := Some "2026-11-03T01:15:00.000-07:00"%string;
                        gage_height_ft := SReal 512.3; water_temp_c := SNull;
                        air_temp_c := SReal 29.5; wind_mph := SReal 3.0 |} ]) in
  exists e,
    fst (@fetch_current Example.runtime w) = Raise e
    /\ fst (@script Example.runtime w) = Raise StopException
    /\ db (snd (@script Example.runtime w)) = Some (stored_rows w)
    /\ page (snd (@script Example.runtime w)) = page (before_fetch w) ++ [ErrorBox e].
Proof.
  apply (@failed_fetch_stores_nothing Example.runtime).
  right. left. reflexivity.
Defined.

(** ** C5: the merged reading *)

Section Merge.
Context {rt : Runtime}.

(** C5, amended.  When both fetches return, the merged reading takes its
    timestamp from the gage fetch when that timestamp is truthy (present
    and, for a string, not empty) and from the weather fetch otherwise;
    the other four fields are those of the two fetch results, unchanged. *)
Theorem merged_reading_fields
    (w w1 w2 : World) (ts_r gh wt ts_w at_ wind_ : pyval) :
  fetch_usgs w = (Ok (ts_r, gh, wt), w1) ->
  fetch_weather w1 = (Ok (ts_w, at_, wind_), w2) ->
  exists r,
    fetch_current w = (Ok r, w2)
    /\ timestamp r = (if truthy ts_r then ts_r else ts_w)
    /\ (forall s, ts_r = PStr s -> s <> EmptyString -> timestamp r = ts_r)
    /\ (ts_r = PNone -> timestamp r = ts_w)
    /\ gage_height r = gh /\ water_temp r = wt
    /\ air_temp r = at_ /\ wind r = wind_.
Proof.
  intros Hu Hw. unfold fetch_current, bind. rewrite Hu, Hw.
  eexists. split; [reflexivity|]. cbn. unfold py_or.
  split; [reflexivity|]. split; [|split].
  - intros s -> Hs. cbn. apply String.eqb_neq in Hs. rewrite Hs. reflexivity.
  - intros ->. reflexivity.
  - repeat split.
Qed.

End Merge.

(** Both services answer; the gage reports 512.3 ft and 18.5 C. *)
Lemma merged_reading_fields_witness :
  let w := Example.world Example.gage_ok Example.weather_ok Example.now false None in
  let ts_r := PStr "2026-11-03T02:30:00.000-07:00" in
  let ts_w := PStr "2026-11-03T09:30" in
  exists r,
    @fetch_current Example.runtime w
    = (Ok r, logged weather_request (logged usgs_request w))
    /\ timestamp r = (if truthy ts_r then ts_r else ts_w)
    /\ (forall s, ts_r = PStr s -> s <> EmptyString -> timestamp r = ts_r)
    /\ (ts_r = PNone -> timestamp r = ts_w)
    /\ gage_height r = PFloat 512.3 /\ water_temp r = PFloat 18.5
    /\ air_temp r = PFloat 30.0 /\ wind r = PFloat 8.94776.
Proof.
  cbn zeta.
  apply (@merged_reading_fields Example.runtime _
           (logged usgs_request
              (Example.world Example.gage_ok Example.weather_ok Example.now false None))).
  - vm_compute. reflexivity.
  - vm_compute. reflexivity.
Defined.

(** C5 as worded fails: a gage timestamp that is present but empty gives way
    to the weather timestamp. *)
Lemma merged_timestamp_counterexample :
  let w := Example.world
             (Response 200 (Some (Upstream.usgs_body
                [ Upstream.series PARAM_GAGE_HEIGHT (PStr "512.3") (PStr "") ])))
             Example.weather_ok Example.now false None in
  fst (@fetch_usgs Example.runtime w) = Ok (PStr "", PFloat 512.3, PNone)
  /\ is_none (PStr "") = false
  /\ exists r, fst (@fetch_current Example.runtime w) = Ok r
               /\ timestamp r = PStr "2026-11-03T09:30"
               /\ timestamp r <> PStr "".
Proof.
  cbn zeta. split; [vm_compute; reflexivity|]. split; [reflexivity|].
  eexists. split; [vm_compute; reflexivity|]. cbn. split; [reflexivity | discriminate].
Qed.

(** ** C1 and C2: what the gage fetch returns *)

Lemma for_each_app {A S} (body : S -> A -> result S) (l m : list A) (acc : S) :
  for_each body (l ++ m) acc = let? a := for_each body l acc in for_each body m a.
Proof.
  revert acc. induction l as [|x l IH]; intros acc; cbn; [reflexivity|].
  destruct (body acc x); cbn; [apply IH | reflexivity].
Qed.

Lemma timestamp_path_eq (s : pyval) :
  get_path s timestamp_path
  = let? val := get_path s sample_path in getitem val "dateTime".
Proof.
  unfold timestamp_path. rewrite get_path_app.
  destruct (get_path s sample_path) as [val|e]; cbn; [|reflexivity].
  destruct (getitem val "dateTime"); reflexivity.
Qed.

Section Gage.
Context {rt : Runtime}.

(** The timestamp a successful pass of the loop body assigns is the
    [dateTime] of the series' latest sample, whatever its code; and
    whether the pass succeeds does not depend on the values carried in. *)
Lemma usgs_series_timestamp (acc acc' : pyval * pyval * pyval) (s : pyval) :
  is_ok (usgs_series acc s) = true ->
  exists ts gh wt,
    usgs_series acc' s = Ok (ts, gh, wt) /\ get_path s timestamp_path = Ok ts.
Proof.
  destruct acc as [[ts0 gh0] wt0], acc' as [[ts1 gh1] wt1].
  rewrite timestamp_path_eq. unfold usgs_series.
  destruct (get_path s code_path) as [code|]; cbn [rbind]; [|discriminate].
  destruct (get_path s sample_path) as [val|]; cbn [rbind]; [|discriminate].
  destruct (getitem val "dateTime") as [ts|]; cbn [rbind]; [|discriminate].
  destruct (eq_str code PARAM_GAGE_HEIGHT), (eq_str code PARAM_WATER_TEMP);
    destruct (getitem val "value") as [x|]; cbn [rbind]; try discriminate;
    try (destruct (py_float x); cbn [rbind]; try discriminate);
    eauto.
Qed.

Lemma usgs_series_unmatched (ts0 : pyval) (s : pyval) :
  unmatched_series s ->
  exists ts, usgs_series (ts0, PNone, PNone) s = Ok (ts, PNone, PNone)
             /\ get_path s timestamp_path = Ok ts.
Proof.
  intros (code & ts & Hcode & Hts & Hm).
  apply orb_false_iff in Hm as [Hgh Hwt].
  exists ts. split; [|exact Hts].
  rewrite timestamp_path_eq in Hts. unfold usgs_series. rewrite Hcode. cbn [rbind].
  destruct (get_path s sample_path) as [val|]; cbn [rbind] in *; [|discriminate].
  rewrite Hts, Hgh, Hwt. reflexivity.
Qed.

Lemma usgs_loop_returns (l : list pyval) :
  Forall (fun x => is_ok (usgs_series (PNone, PNone, PNone) x) = true) l ->
  forall acc, exists acc', for_each usgs_series l acc = Ok acc'.
Proof.
  induction 1 as [|x l Hx _ IH]; intros acc; cbn [for_each]; [eauto|].
  destruct (usgs_series_timestamp _ acc x Hx) as (ts & gh & wt & -> & _).
  cbn [rbind]. apply IH.
Qed.

Lemma usgs_loop_unmatched (l : list pyval) :
  Forall unmatched_series l ->
  forall ts0, exists ts,
    for_each usgs_series l (ts0, PNone, PNone) = Ok (ts, PNone, PNone)
    /\ (l = [] -> ts = ts0)
    /\ (forall l' s, l = l' ++ [s] -> get_path s timestamp_path = Ok ts).
Proof.
  induction 1 as [|x l Hx _ IH]; intros ts0; cbn [for_each].
  - exists ts0. split; [reflexivity|]. split; [reflexivity|].
    intros [|] ? ?; discriminate.
  - destruct (usgs_series_unmatched ts0 x Hx) as (ts1 & -> & Hts1). cbn [rbind].
    destruct (IH ts1) as (ts & Hloop & Hnil & Hlast).
    exists ts. split; [exact Hloop|]. split; [discriminate|].
    intros l' s Heq. destruct l' as [|y l'].
    + injection Heq as -> ->. rewrite (Hnil eq_refl). exact Hts1.
    + injection Heq as _ ->. eapply Hlast. reflexivity.
Qed.

Lemma fetch_usgs_on (w : World) (status : Z) (js : pyval) :
  http_error status = false ->
  net w USGS_IV_URL = Response status (Some js) ->
  fst (fetch_usgs w) = usgs_extract js.
Proof.
  intros Hs Hnet. rewrite fetch_usgs_run, Hnet. cbn. rewrite Hs. reflexivity.
Qed.

(** C2, amended.  When the gage response decodes, its time series are read
    without error and none has a matching variable code, [fetch_usgs]
    raises nothing and returns the gage height and the water temperature
    absent.  The timestamp it returns is absent when there is no series at
    all, and is otherwise the [dateTime] value of the latest sample of the
    last series, whatever that value is: it is absent exactly when there is
    no series or that value is null. *)
Theorem unmatched_series_give_no_values
    (w : World) (status : Z) (js : pyval) (l : list pyval) :
  http_error status = false ->
  net w USGS_IV_URL = Response status (Some js) ->
  get_path js [K "value"; K "timeSeries"]%string = Ok (PList l) ->
  Forall unmatched_series l ->
  exists ts,
    fst (fetch_usgs w) = Ok (ts, PNone, PNone)
    /\ (l = [] -> ts = PNone)
    /\ (forall l' s, l = l' ++ [s] -> get_path s timestamp_path = Ok ts)
    /\ (ts = PNone
        <-> l = [] \/ exists l' s, l = l' ++ [s]
                                  /\ get_path s timestamp_path = Ok PNone).
Proof.
  intros Hs Hnet Hpath Hl.
  rewrite (fetch_usgs_on w status js Hs Hnet).
  unfold usgs_extract. rewrite Hpath. cbn [rbind py_iter].
  destruct (usgs_loop_unmatched l Hl PNone) as (ts & Hrun & Hnil & Hlast).
  exists ts. split; [exact Hrun|]. split; [exact Hnil|]. split; [exact Hlast|].
  split.
  - intros ->. destruct l as [|x l0]; [left; reflexivity|].
    destruct (exists_last (l := x :: l0)) as (l' & s & Heq); [discriminate|].
    right. exists l', s. split; [exact Heq | exact (Hlast l' s Heq)].
  - intros [Hempty|(l' & s & Heq & Hts)]; [exact (Hnil Hempty)|].
    specialize (Hlast l' s Heq). congruence.
Qed.

(** C1, amended.  On the two-series response of the example the fetch step
    returns timestamp [T2], 512.3, 18.5, 30.0 and a wind of
    [4.0 * 2.23694], which lies between 8.94 and 8.96.  In general the
    timestamp [fetch_usgs] returns is that of the last-iterated series of
    the response, whether or not its variable code matched. *)
Theorem gage_timestamp_is_last_series :
  (forall (w : World) (T1 T2 T3 : string),
      float_of_str "512.3" = Some 512.3%float ->
      float_of_str "18.5" = Some 18.5%float ->
      String.ltb T1 T2 = true ->
      net w USGS_IV_URL
      = Response 200 (Some (Upstream.usgs_body
          [ Upstream.series PARAM_GAGE_HEIGHT (PStr "512.3") (PStr T1);
            Upstream.series PARAM_WATER_TEMP (PStr "18.5") (PStr T2) ])) ->
      net w OPEN_METEO_URL
      = Response 200 (Some (Upstream.weather_body (PStr T3)
                              (PFloat 30.0) (PFloat 4.0))) ->
      fst (fetch_current w)
      = Ok {| timestamp := PStr T2; gage_height := PFloat 512.3;
              water_temp := PFloat 18.5; air_temp := PFloat 30.0;
              wind := PFloat (4.0 * 2.23694) |}
      /\ PrimFloat.ltb 8.94 (4.0 * 2.23694) = true
      /\ PrimFloat.ltb (4.0 * 2.23694) 8.96 = true)
  /\ (forall (w : World) (status : Z) (js : pyval) (l : list pyval) (s : pyval),
        http_error status = false ->
        net w USGS_IV_URL = Response status (Some js) ->
        get_path js [K "value"; K "timeSeries"]%string = Ok (PList (l ++ [s])) ->
        Forall (fun x => is_ok (usgs_series (PNone, PNone, PNone) x) = true) (l ++ [s]) ->
        exists ts gh wt,
          fst (fetch_usgs w) = Ok (ts, gh, wt)
          /\ get_path s timestamp_path = Ok ts).
Proof.
  split.
  - intros w T1 T2 T3 H1 H2 Hlt Hu Hw.
    assert (HT2 : String.eqb T2 EmptyString = false).
    { destruct T2; [|reflexivity]. destruct T1; discriminate Hlt. }
    rewrite fetch_current_run, Hu, Hw.
    cbn -[PrimFloat.mul PrimFloat.ltb]. rewrite H1.
    cbn -[PrimFloat.mul PrimFloat.ltb]. rewrite H2.
    cbn -[PrimFloat.mul PrimFloat.ltb].
    unfold py_or. cbn -[PrimFloat.mul PrimFloat.ltb]. rewrite HT2.
    repeat split.
  - intros w status js l s Hs Hnet Hpath Hall.
    rewrite (fetch_usgs_on w status js Hs Hnet).
    unfold usgs_extract. rewrite Hpath. cbn [rbind py_iter].
    rewrite for_each_app.
    apply Forall_app in Hall as [Hl Hlast].
    destruct (usgs_loop_returns l Hl (PNone, PNone, PNone)) as (acc & ->).
    cbn [rbind for_each].
    inversion Hlast as [|? ? Hs' _]; subst.
    destruct (usgs_series_timestamp _ acc s Hs') as (ts & gh & wt & -> & Hts).
    cbn. eauto.
Qed.

End Gage.

(** The example of the claim at 02:15 and 02:30 local time, and a response
    whose second series is a discharge series (code 00060). *)
Lemma gage_timestamp_is_last_series_witness :
  let w := Example.world Example.gage_ok Example.weather_ok Example.now false None in
  let discharge := Upstream.series "00060" (PStr "1200")
                     (PStr "2026-11-03T02:30:00.000-07:00") in
  let w' := Example.world
              (Response 200 (Some (Upstream.usgs_body
                 [ Upstream.series PARAM_GAGE_HEIGHT (PStr "512.3")
                     (PStr "2026-11-03T02:15:00.000-07:00");
                   discharge ])))
              Example.weather_ok Example.now false None in
  (fst (@fetch_current Example.runtime w)
   = Ok {| timestamp := PStr "2026-11-03T02:30:00.000-07:00";
           gage_height := PFloat 512.3; water_temp := PFloat 18.5;
           air_temp := PFloat 30.0; wind := PFloat (4.0 * 2.23694) |}
   /\ PrimFloat.ltb 8.94 (4.0 * 2.23694) = true
   /\ PrimFloat.ltb (4.0 * 2.23694) 8.96 = true)
  /\ exists ts gh wt,
       fst (@fetch_usgs Example.runtime w') = Ok (ts, gh, wt)
       /\ get_path discharge timestamp_path = Ok ts.
Proof.
  cbn zeta. split.
  - eapply (proj1 (@gage_timestamp_is_last_series Example.runtime)
             _ "2026-11-03T02:15:00.000-07:00"%string _ "2026-11-03T09:30"%string);
      vm_compute; reflexivity.
  - eapply (proj2 (@gage_timestamp_is_last_series Example.runtime) _ 200 _
             [ Upstream.series PARAM_GAGE_HEIGHT (PStr "512.3")
                 (PStr "2026-11-03T02:15:00.000-07:00") ]).
    + reflexivity.
    + reflexivity.
    + reflexivity.
    + repeat constructor.
Defined.

(** C1 as worded fails: after a gage-height series at 02:15 comes a series
    with another code at 02:30; the fetch returns 02:30, while the last
    series whose code matched is the one at 02:15. *)
Lemma gage_timestamp_counterexample :
  let l := [ Upstream.series PARAM_GAGE_HEIGHT (PStr "512.3")
               (PStr "2026-11-03T02:15:00.000-07:00");
             Upstream.series "00060" (PStr "1200")
               (PStr "2026-11-03T02:30:00.000-07:00") ] in
  let w := Example.world (Response 200 (Some (Upstream.usgs_body l)))
             Example.weather_ok Example.now false None in
  fst (@fetch_usgs Example.runtime w)
  = Ok (PStr "2026-11-03T02:30:00.000-07:00", PFloat 512.3, PNone)
  /\ last_matched_timestamp l = Ok (PStr "2026-11-03T02:15:00.000-07:00").
Proof. cbn zeta. split; vm_compute; reflexivity. Qed.

(** A response with a single discharge series. *)
Lemma unmatched_series_give_no_values_witness :
  let l := [ Upstream.series "00060" (PStr "1200")
               (PStr "2026-11-03T02:30:00.000-07:00") ] in
  let w := Example.world (Response 200 (Some (Upstream.usgs_body l)))
             Example.weather_ok Example.now false None in
  exists ts,
    fst (@fetch_usgs Example.runtime w) = Ok (ts, PNone, PNone)
    /\ (l = [] -> ts = PNone)
    /\ (forall l' s, l = l' ++ [s] -> get_path s timestamp_path = Ok ts)
    /\ (ts = PNone
        <-> l = [] \/ exists l' s, l = l' ++ [s]
                                  /\ get_path s timestamp_path = Ok PNone).
Proof.
  cbn zeta.
  apply (@unmatched_series_give_no_values Example.runtime _ 200
           (Upstream.usgs_body
              [ Upstream.series "00060" (PStr "1200")
                  (PStr "2026-11-03T02:30:00.000-07:00") ])).
  - reflexivity.
  - reflexivity.
  - reflexivity.
  - constructor; [|constructor].
    exists (PStr "00060"), (PStr "2026-11-03T02:30:00.000-07:00").
    repeat split.
Defined.

(** C2 as worded fails: the response decodes and no series has a matching
    code, yet the timestamp that comes back is present. *)
Lemma unmatched_series_counterexample :
  let l := [ Upstream.series "00060" (PStr "1200")
               (PStr "2026-11-03T02:30:00.000-07:00") ] in
  let w := Example.world (Response 200 (Some (Upstream.usgs_body l)))
             Example.weather_ok Example.now false None in
  Forall unmatched_series l
  /\ fst (@fetch_usgs Example.runtime w)
     = Ok (PStr "2026-11-03T02:30:00.000-07:00", PNone, PNone)
  /\ is_none (PStr "2026-11-03T02:30:00.000-07:00") = false.
Proof.
  cbn zeta. split; [|split; [vm_compute; reflexivity | reflexivity]].
  constructor; [|constructor].
  exists (PStr "00060"), (PStr "2026-11-03T02:30:00.000-07:00").
  repeat split.
Qed.

(** ** The order of timestamps *)

Lemma string_leb_trans (a b c : string) :
  String.leb a b = true -> String.leb b c = true -> String.leb a c = true.
Proof.
  unfold String.leb. revert b c.
  induction a as [|x a IH]; intros [|y b] [|z c]; cbn; try congruence.
  unfold Ascii.compare.
  destruct (N.compare_spec (N_of_ascii x) (N_of_ascii y)) as [Hxy|Hxy|Hxy];
    destruct (N.compare_spec (N_of_ascii y) (N_of_ascii z)) as [Hyz|Hyz|Hyz];
    destruct (N.compare_spec (N_of_ascii x) (N_of_ascii z)) as [Hxz|Hxz|Hxz];
    try congruence; try lia; try apply IH.
Qed.

Lemma ts_le_total (a b : Row) : ts_le a b = false -> ts_le b a = true.
Proof.
  unfold ts_le. destruct (ts_utc a) as [x|], (ts_utc b) as [y|]; try congruence.
  intros H. destruct (String.leb_total x y); congruence.
Qed.

Lemma ts_le_trans (a b c : Row) :
  ts_le a b = true -> ts_le b c = true -> ts_le a c = true.
Proof.
  unfold ts_le.
  destruct (ts_utc a) as [x|], (ts_utc b) as [y|], (ts_utc c) as [z|];
    try congruence. apply string_leb_trans.
Qed.

Lemma insert_row_perm (r : Row) (l : list Row) : Permutation (r :: l) (insert_row r l).
Proof.
  induction l as [|x l IH]; cbn; [reflexivity|].
  destruct (ts_le r x); [reflexivity|].
  rewrite perm_swap. apply perm_skip, IH.
Qed.

Lemma order_by_ts_perm (l : list Row) : Permutation l (order_by_ts l).
Proof.
  induction l as [|x l IH]; cbn; [reflexivity|].
  rewrite <- insert_row_perm. apply perm_skip, IH.
Qed.

Lemma insert_row_sorted (r : Row) (l : list Row) :
  StronglySorted (fun a b => ts_le a b = true) l ->
  StronglySorted (fun a b => ts_le a b = true) (insert_row r l).
Proof.
  induction 1 as [|x l Hl IH Hx]; cbn.
  - constructor; constructor.
  - destruct (ts_le r x) eqn:Hrx.
    + constructor; [constructor; assumption|].
      constructor; [exact Hrx|].
      eapply Forall_impl; [|exact Hx]. intros y Hy. eapply ts_le_trans; eassumption.
    + constructor; [exact IH|].
      eapply Permutation_Forall; [apply insert_row_perm|].
      constructor; [now apply ts_le_total | exact Hx].
Qed.

Lemma order_by_ts_sorted (l : list Row) :
  StronglySorted (fun a b => ts_le a b = true) (order_by_ts l).
Proof.
  induction l as [|x l IH]; cbn; [constructor | now apply insert_row_sorted].
Qed.

Lemma select_since_perm (cutoff : string) (rows : list Row) :
  Permutation (select_since cutoff rows) (filter (ts_ge cutoff) rows).
Proof. symmetry. apply order_by_ts_perm. Qed.

Lemma select_since_in (cutoff : string) (rows : list Row) (r : Row) :
  In r (select_since cutoff rows)
  <-> In r rows /\ exists t, ts_utc r = Some t /\ String.leb cutoff t = true.
Proof.
  split.
  - intros H. eapply Permutation_in in H; [|apply select_since_perm].
    apply filter_In in H as [Hin Hge]. split; [exact Hin|].
    unfold ts_ge in Hge. destruct (ts_utc r) as [t|]; [eauto | discriminate].
  - intros [Hin (t & Ht & Hge)].
    eapply Permutation_in; [symmetry; apply select_since_perm|].
    apply filter_In. split; [exact Hin|]. unfold ts_ge. rewrite Ht. exact Hge.
Qed.

Lemma select_since_not_null (cutoff : string) (rows : list Row) (r : Row) :
  In r (select_since cutoff rows) -> ts_utc r <> None.
Proof.
  intros H. apply select_since_in in H as [_ (t & Ht & _)]. congruence.
Qed.

(** ** The store, as functions of the table *)

Section Store.
Context {rt : Runtime}.

Lemma store_row_run (w : World) (ts gh wt at_ wind_ : pyval) :
  store_row ts gh wt at_ wind_ w =
  match db w with
  | None => (Raise OperationalError, w)
  | Some rows =>
      match new_row rows ts gh wt at_ wind_ with
      | Ok row => write_table (rows ++ [row]) w
      | Raise e => (Raise e, w)
      end
  end.
Proof.
  unfold store_row, bind, open_table, lift.
  destruct (db w) as [rows|]; [|reflexivity].
  destruct (new_row rows ts gh wt at_ wind_); reflexivity.
Qed.

Lemma load_last_24h_run (w : World) :
  load_last_24h w =
  match db w with
  | None => (Raise DatabaseError, w)
  | Some rows =>
      let sel := select_since (Clock.isoformat (Clock.minus_hours (clock w) 24)) rows in
      match sel with
      | [] => (Ok {| df_rows := []; df_ts_utc := None |}, w)
      | _ :: _ =>
          match to_datetime (map ts_utc sel) with
          | Some column => (Ok {| df_rows := sel; df_ts_utc := Some column |}, w)
          | None => (Raise DateParseError, w)
          end
      end
  end.
Proof.
  unfold load_last_24h, bind, now_utc, read_table.
  destruct (db w) as [rows|]; [|reflexivity].
  cbn zeta. unfold df_empty. cbn [df_rows].
  destruct (select_since _ rows) as [|r sel]; cbn [negb]; [reflexivity|].
  destruct (to_datetime _); reflexivity.
Qed.

Lemma load_last_24h_rows (w w' : World) (df : DataFrame Timestamp) :
  load_last_24h w = (Ok df, w') ->
  exists rows,
    db w = Some rows
    /\ df_rows df = select_since (Clock.isoformat (Clock.minus_hours (clock w) 24)) rows.
Proof.
  rewrite load_last_24h_run. destruct (db w) as [rows|]; [|discriminate].
  cbn zeta. intros H. exists rows. split; [reflexivity|].
  destruct (select_since _ rows) as [|r sel].
  - injection H as <- _. reflexivity.
  - destruct (to_datetime _); [|discriminate]. injection H as <- _. reflexivity.
Qed.

End Store.

(** ** C3, C6 and C9: the last 24 hours *)

Section Window.
Context {rt : Runtime}.

(** A measurement is bound as NULL or as a float, and the REAL column
    gives it back with a zero of either sign as [0.0]. *)
Lemma measure_stored (v : pyval) :
  is_measure v ->
  exists c, bind_param v = Ok c /\ py_of_sql (real_affinity c) = read_back v.
Proof.
  intros [->|(f & -> & Hnan)]; cbn.
  - exists SNull. auto.
  - rewrite Hnan. exists (SReal f). auto.
Qed.

(** What the query computes, as it is written.  It compares the stored
    text with the ISO-8601 text of now minus 24 hours, byte by byte, and
    orders the rows by that text; this is the selection by time only for
    timestamps written as the cutoff is (see
    [last_24h_misses_recent_snapshot] for one that is not).
    [load_last_24h] returns an empty frame without error when the
    selection is empty; otherwise it returns the selected rows when pandas
    converts their timestamp column, and raises when it does not. *)
Lemma last_24h_rows (w : World) (rows : list Row) :
  db w = Some rows ->
  let cutoff := Clock.isoformat (Clock.minus_hours (clock w) 24) in
  let sel := select_since cutoff rows in
  Permutation sel (filter (ts_ge cutoff) rows)
  /\ (forall r, In r sel
                <-> In r rows
                    /\ exists t, ts_utc r = Some t /\ String.leb cutoff t = true)
  /\ StronglySorted (fun a b => ts_le a b = true) sel
  /\ (sel = [] -> load_last_24h w = (Ok {| df_rows := []; df_ts_utc := None |}, w))
  /\ (forall column,
        sel <> [] -> to_datetime (map ts_utc sel) = Some column ->
        load_last_24h w = (Ok {| df_rows := sel; df_ts_utc := Some column |}, w))
  /\ (sel <> [] -> to_datetime (map ts_utc sel) = None ->
      load_last_24h w = (Raise DateParseError, w)).
Proof.
  intros Hdb cutoff sel.
  split; [apply select_since_perm|].
  split; [intros r; apply select_since_in|].
  split; [apply order_by_ts_sorted|].
  rewrite load_last_24h_run, Hdb. cbn zeta. fold cutoff. fold sel.
  repeat split.
  - intros ->. reflexivity.
  - intros column Hsel Hconv. destruct sel; [congruence|]. rewrite Hconv. reflexivity.
  - intros Hsel Hconv. destruct sel; [congruence|]. rewrite Hconv. reflexivity.
Qed.

(** Storing a reading in an empty table and loading the last 24 hours
    at once, for a timestamp text that the query selects. *)
Lemma store_then_load
    (w : World) (t : string) (gh wt at_ wind_ : pyval) (column : list Timestamp) :
  db w = Some [] ->
  String.leb (Clock.isoformat (Clock.minus_hours (clock w) 24)) t = true ->
  is_measure gh -> is_measure wt -> is_measure at_ -> is_measure wind_ ->
  to_datetime [Some t] = Some column ->
  exists row w',
    (store_row (PStr t) gh wt at_ wind_ ;; load_last_24h) w
    = (Ok {| df_rows := [row]; df_ts_utc := Some column |}, w')
    /\ db w' = Some [row]
    /\ id row = 1
    /\ ts_utc row = Some t
    /\ py_of_sql (gage_height_ft row) = read_back gh
    /\ py_of_sql (water_temp_c row) = read_back wt
    /\ py_of_sql (air_temp_c row) = read_back at_
    /\ py_of_sql (wind_mph row) = read_back wind_.
Proof.
  intros Hdb Hge Hgh Hwt Hat Hwind Hconv.
  destruct (measure_stored gh Hgh) as (c2 & B2 & P2).
  destruct (measure_stored wt Hwt) as (c3 & B3 & P3).
  destruct (measure_stored at_ Hat) as (c4 & B4 & P4).
  destruct (measure_stored wind_ Hwind) as (c5 & B5 & P5).
  unfold bind at 1. rewrite store_row_run, Hdb.
  unfold new_row. rewrite B2, B3, B4, B5.
  cbn [bind_param rbind text_affinity app next_id max_id].
  unfold write_table.
  rewrite load_last_24h_run. cbn [db clock]. cbn zeta.
  match goal with |- context [select_since ?c [?r]] =>
    assert (Hsel : select_since c [r] = [r])
      by (unfold select_since; cbn [filter]; unfold ts_ge; cbn [ts_utc];
          rewrite Hge; reflexivity);
    rewrite Hsel
  end.
  cbn [map ts_utc]. rewrite Hconv.
  eexists. eexists. split; [reflexivity|].
  cbn [db id ts_utc gage_height_ft water_temp_c air_temp_c wind_mph].
  auto 10.
Qed.

(** C6, amended.  On an empty table, take a reading whose timestamp is the
    UTC ISO-8601 text, as [isoformat] writes it, of a datetime that is not
    before now minus 24 hours, and whose measurements are floats or
    absent.  Storing it and then loading the last 24 hours returns exactly
    one record (when pandas converts the timestamp): it has id 1, the
    timestamp text of the reading and its four measurements, an absent
    measurement being null and a zero of either sign being [0.0]. *)
Theorem append_then_query
    (w : World) (i : Clock.datetime) (gh wt at_ wind_ : pyval)
    (column : list Timestamp) :
  db w = Some [] ->
  datetime_min <= Clock.minus_hours (clock w) 24 ->
  Clock.minus_hours (clock w) 24 <= i <= datetime_max ->
  is_measure gh -> is_measure wt -> is_measure at_ -> is_measure wind_ ->
  to_datetime [Some (Clock.isoformat i)] = Some column ->
  exists row w',
    (store_row (PStr (Clock.isoformat i)) gh wt at_ wind_ ;; load_last_24h) w
    = (Ok {| df_rows := [row]; df_ts_utc := Some column |}, w')
    /\ db w' = Some [row]
    /\ id row = 1
    /\ ts_utc row = Some (Clock.isoformat i)
    /\ py_of_sql (gage_height_ft row) = read_back gh
    /\ py_of_sql (water_temp_c row) = read_back wt
    /\ py_of_sql (air_temp_c row) = read_back at_
    /\ py_of_sql (wind_mph row) = read_back wind_.
Proof.
  intros Hdb Hmin [Hsince Hmax] Hgh Hwt Hat Hwind Hconv.
  apply store_then_load; try assumption.
  apply isoformat_increasing; assumption.
Qed.

(** C9.  A row stored with an absent timestamp has a NULL [ts_utc], and no
    query returns it: it is in no selection, for any cutoff and any table,
    and in no frame that [load_last_24h] returns, in any world. *)
Theorem null_timestamp_never_returned
    (w w' : World) (gh wt at_ wind_ : pyval) :
  store_row PNone gh wt at_ wind_ w = (Ok tt, w') ->
  exists rows row,
    db w = Some rows
    /\ db w' = Some (rows ++ [row])
    /\ ts_utc row = None
    /\ (forall cutoff table, ~ In row (select_since cutoff table))
    /\ (forall w1 df w2, load_last_24h w1 = (Ok df, w2) -> ~ In row (df_rows df)).
Proof.
  rewrite store_row_run. destruct (db w) as [rows|]; [|discriminate].
  destruct (new_row rows PNone gh wt at_ wind_) as [row|e] eqn:Hrow; [|discriminate].
  intros H. injection H as <-.
  assert (Hnull : ts_utc row = None).
  { unfold new_row in Hrow. cbn [bind_param rbind] in Hrow.
    destruct (bind_param gh); cbn [rbind] in Hrow; [|discriminate].
    destruct (bind_param wt); cbn [rbind] in Hrow; [|discriminate].
    destruct (bind_param at_); cbn [rbind] in Hrow; [|discriminate].
    destruct (bind_param wind_); cbn [rbind] in Hrow; [|discriminate].
    destruct (next_id rows); cbn [rbind] in Hrow; [|discriminate].
    injection Hrow as <-. reflexivity. }
  exists rows, row. repeat split; try assumption.
  - intros cutoff table Hin. now apply select_since_not_null in Hin.
  - intros w1 df w2 Hload Hin.
    apply load_last_24h_rows in Hload as (table & _ & Heq).
    rewrite Heq in Hin. now apply select_since_not_null in Hin.
Qed.

End Window.

(** *** Examples at 2026-11-03T09:41:00 UTC *)

#[local] Existing Instance Example.runtime.

Example helpers_on_examples :
  mps_to_mph (PFloat 1.0) = Ok (PFloat 2.23694)
  /\ fmt PNone 2 = Ok "N/A"%string
  /\ fmt (PFloat 3.14159) 2 = Ok "3.14"%string.
Proof. repeat split; vm_compute; reflexivity. Qed.

(** A run in which both services answer and the button is pressed: the
    table is created, the snapshot is stored and charted. *)
Example script_stores_snapshot :
  let run := script (Example.world Example.gage_ok Example.weather_ok Example.now
                       true None) in
  fst run = Ok tt
  /\ requests (snd run) = [usgs_request; weather_request]
  /\ db (snd run)
     = Some [ {| id := 1; ts_utc := Some "2026-11-03T02:30:00.000-07:00"%string;
                 gage_height_ft := SReal 512.3; water_temp_c := SReal 18.5;
                 air_temp_c := SReal 30.0; wind_mph := SReal 8.94776 |} ]
  /\ page (snd run)
     = [ PageConfig; Html "style"; Html "title"; Html "subtitle";
         Html "section: Current Conditions";
         Card "River Level" "512.30" "ft"; Card "Water Temp" "65.3" "F";
         Card "Air Temp" "86.0" "F"; Card "Wind" "8.9" "mph";
         Caption (PStr "2026-11-03T02:30:00.000-07:00"); SuccessBox;
         Html "section: Last 24 Hours"; Chart "River Level (ft)";
         Chart "Water Temp (C)"; Chart "Air Temp (C)"; Chart "Wind (mph)";
         RawData ]%string.
Proof. cbn zeta. repeat split; vm_compute; reflexivity. Qed.

Example last_24h_of_three_rows :
  fst (@load_last_24h Example.runtime
         (Example.world Example.gage_ok Example.weather_ok Example.now false
            (Some Example.three_rows)))
  = Ok {| df_rows := [ Example.row_at 3 "2026-11-02T22:00:00+00:00" 512.1;
                       Example.row_at 2 "2026-11-03T08:00:00+00:00" 512.3 ];
          df_ts_utc := Some [ Some 1793656800000000; Some 1793692800000000 ] |}.
Proof. vm_compute. reflexivity. Qed.

Lemma last_24h_rows_witness :
  let w := Example.world Example.gage_ok Example.weather_ok Example.now false
             (Some Example.three_rows) in
  let cutoff := Clock.isoformat (Clock.minus_hours (clock w) 24) in
  let sel := select_since cutoff Example.three_rows in
  Permutation sel (filter (ts_ge cutoff) Example.three_rows)
  /\ (forall r, In r sel
                <-> In r Example.three_rows
                    /\ exists t, ts_utc r = Some t /\ String.leb cutoff t = true)
  /\ StronglySorted (fun a b => ts_le a b = true) sel
  /\ (sel = [] ->
      @load_last_24h Example.runtime w
      = (Ok {| df_rows := []; df_ts_utc := None |}, w))
  /\ (forall column,
        sel <> [] -> @to_datetime Example.runtime (map ts_utc sel) = Some column ->
        @load_last_24h Example.runtime w
        = (Ok {| df_rows := sel; df_ts_utc := Some column |}, w))
  /\ (sel <> [] -> @to_datetime Example.runtime (map ts_utc sel) = None ->
      @load_last_24h Example.runtime w = (Raise DateParseError, w)).
Proof.
  exact (@last_24h_rows Example.runtime
           (Example.world Example.gage_ok Example.weather_ok Example.now false
              (Some Example.three_rows))
           Example.three_rows eq_refl).
Defined.

(** C3: the code leaves out a row of the last 24 hours.  The run of
    2026-11-03T09:41 UTC stores the snapshot it fetched under the gage
    timestamp, 02:30 at UTC-7, which is 09:30 UTC.  Eighteen hours later
    the row is 18 hours and 11 minutes old, but the column [ts_utc] holds
    the text with its local offset, that text sorts below the cutoff text
    [2026-11-03T03:41:00+00:00], and [load_last_24h] returns an empty
    frame. *)
Lemma last_24h_misses_recent_snapshot :
  let w0 := Example.world Example.gage_ok Example.weather_ok Example.now true None in
  let w1 := snd (@script Example.runtime w0) in
  let row := {| id := 1; ts_utc := Some "2026-11-03T02:30:00.000-07:00"%string;
                gage_height_ft := SReal 512.3; water_temp_c := SReal 18.5;
                air_temp_c := SReal 30.0; wind_mph := SReal 8.94776 |} in
  let later := Example.world Example.gage_ok Example.weather_ok
                 (Example.now + 18 * 3600 * 1000000) false (db w1) in
  fst (@script Example.runtime w0) = Ok tt
  /\ db w1 = Some [row]
  /\ Clock.parse_iso "2026-11-03T02:30:00.000-07:00"
     = Some (Example.now - 11 * 60 * 1000000)
  /\ Clock.isoformat (clock later) = "2026-11-04T03:41:00+00:00"%string
  /\ Clock.isoformat (Clock.minus_hours (clock later) 24)
     = "2026-11-03T03:41:00+00:00"%string
  /\ in_last_24h (clock later) row = true
  /\ fst (@load_last_24h Example.runtime later)
     = Ok {| df_rows := []; df_ts_utc := None |}.
Proof. cbn zeta. repeat split; vm_compute; reflexivity. Qed.

(** A reading taken eleven minutes ago, with no water temperature and a
    wind of negative zero. *)
Lemma append_then_query_witness :
  let w := Example.world Example.gage_ok Example.weather_ok Example.now true (Some []) in
  let t := "2026-11-03T09:30:00+00:00"%string in
  exists row w',
    (@store_row Example.runtime (PStr t) (PFloat 512.3) PNone (PFloat 30.0) (PFloat (-0)) ;;
     @load_last_24h Example.runtime) w
    = (Ok {| df_rows := [row]; df_ts_utc := Some [Some 1793698200000000] |}, w')
    /\ db w' = Some [row]
    /\ id row = 1
    /\ ts_utc row = Some t
    /\ py_of_sql (gage_height_ft row) = PFloat 512.3
    /\ py_of_sql (water_temp_c row) = PNone
    /\ py_of_sql (air_temp_c row) = PFloat 30.0
    /\ py_of_sql (wind_mph row) = PFloat 0.
Proof.
  cbn zeta.
  apply (@append_then_query Example.runtime _ 1793698200000000).
  - reflexivity.
  - vm_compute. discriminate.
  - split; vm_compute; discriminate.
  - right. eexists. split; [reflexivity | vm_compute; reflexivity].
  - left. reflexivity.
  - right. eexists. split; [reflexivity | vm_compute; reflexivity].
  - right. eexists. split; [reflexivity | vm_compute; reflexivity].
  - vm_compute. reflexivity.
Defined.

(** C6 as worded fails: a reading without timestamp, stored in an empty
    table, is in the table but the query that follows returns no record. *)
Lemma append_then_query_counterexample :
  let w := Example.world Example.gage_ok Example.weather_ok Example.now true (Some []) in
  let run := (@store_row Example.runtime PNone (PFloat 512.3) (PFloat 18.5)
                (PFloat 30.0) (PFloat 8.94776) ;;
              @load_last_24h Example.runtime) w in
  fst run = Ok {| df_rows := []; df_ts_utc := None |}
  /\ db (snd run)
     = Some [ {| id := 1; ts_utc := None; gage_height_ft := SReal 512.3;
                 water_temp_c := SReal 18.5; air_temp_c := SReal 30.0;
                 wind_mph := SReal 8.94776 |} ].
Proof. cbn zeta. split; vm_compute; reflexivity. Qed.

(** A reading without timestamp stored after the three rows. *)
Lemma null_timestamp_never_returned_witness :
  let w := Example.world Example.gage_ok Example.weather_ok Example.now true
             (Some Example.three_rows) in
  let w' := snd (@store_row Example.runtime PNone (PFloat 512.3) PNone PNone PNone w) in
  exists rows row,
    db w = Some rows
    /\ db w' = Some (rows ++ [row])
    /\ ts_utc row = None
    /\ (forall cutoff table, ~ In row (select_since cutoff table))
    /\ (forall w1 df w2,
          @load_last_24h Example.runtime w1 = (Ok df, w2) -> ~ In row (df_rows df)).
Proof.
  cbn zeta.
  apply (@null_timestamp_never_returned Example.runtime _ _ (PFloat 512.3) PNone PNone PNone).
  vm_compute. reflexivity.
Defined.

(** * Further properties of the code *)

(** ** The table: [init_db] and [store_row] *)

Section Table.
Context {rt : Runtime}.

(** X1.  [init_db] is idempotent and never loses data: it succeeds in every
    world, the table exists afterwards with exactly the rows it held (none
    when it did not exist), nothing else changes, and a second call changes
    nothing. *)
Theorem init_db_idempotent (w : World) :
  fst (init_db w) = Ok tt
  /\ db (snd (init_db w)) = Some (stored_rows w)
  /\ stored_rows (snd (init_db w)) = stored_rows w
  /\ requests (snd (init_db w)) = requests w
  /\ page (snd (init_db w)) = page w
  /\ init_db (snd (init_db w)) = (Ok tt, snd (init_db w))
  /\ (init_db ;; init_db) w = init_db w.
Proof.
  unfold bind, init_db, stored_rows, write_table.
  destruct (db w) as [rows|] eqn:Hdb; cbn; rewrite ?Hdb; repeat split.
Qed.

Lemma max_id_spec (rows : list Row) (m : Z) :
  max_id rows = Some m ->
  (exists r, In r rows /\ id r = m) /\ forall r, In r rows -> id r <= m.
Proof.
  destruct rows as [|x rows]; [discriminate|]. cbn [max_id]. intros [= <-].
  induction rows as [|y rows [(r & Hr & Hm) IH]]; cbn [fold_right].
  - split; [exists x; split; [left|]; reflexivity|].
    intros r [<-|[]]. lia.
  - split.
    + destruct (Z.max_spec (id y) (fold_right (fun x0 m => Z.max (id x0) m) (id x) rows))
        as [[_ ->]|[_ ->]].
      * exists r. split; [|exact Hm]. destruct Hr as [<-|Hr]; [left; reflexivity|].
        right. right. exact Hr.
      * exists y. split; [right; left; reflexivity | reflexivity].
    + intros r' [<-|[<-|Hr']].
      * specialize (IH x (or_introl eq_refl)). lia.
      * lia.
      * specialize (IH r' (or_intror Hr')). lia.
Qed.

Lemma used_id_spec (rows : list Row) (c : Z) :
  used_id rows c = true <-> In c (map id rows).
Proof.
  unfold used_id. rewrite existsb_exists, in_map_iff.
  split; intros (r & H1 & H2).
  - exists r. split; [apply Z.eqb_eq; exact H2 | exact H1].
  - exists r. split; [exact H2 | apply Z.eqb_eq; exact H1].
Qed.

(** The id of a new row: not in use; 1 in an empty table; one more than
    the largest id when that is below [MAX_ROWID]. *)
Lemma next_id_spec (rows : list Row) (i : Z) :
  next_id rows = Ok i ->
  ~ In i (map id rows)
  /\ (rows = [] -> i = 1)
  /\ (forall m, max_id rows = Some m -> m < MAX_ROWID -> i = m + 1).
Proof.
  unfold next_id. destruct (max_id rows) as [m|] eqn:Hmax.
  - destruct (max_id_spec rows m Hmax) as [_ Hle].
    destruct (m <? MAX_ROWID) eqn:Hlt.
    + intros [= <-]. split; [|split].
      * intros Hin. apply in_map_iff in Hin as (r & Heq & Hr).
        specialize (Hle r Hr). lia.
      * intros ->. discriminate Hmax.
      * intros m' [= <-] _. reflexivity.
    + destruct (sqlite_random_rowid (map id rows)) as [c|]; [|discriminate].
      destruct ((1 <=? c) && (c <=? 2 ^ 62)); cbn [andb]; [|discriminate].
      destruct (used_id rows c) eqn:Hused; cbn [negb]; [discriminate|].
      intros [= <-]. split; [|split].
      * intros Hin. apply used_id_spec in Hin. congruence.
      * intros ->. discriminate Hmax.
      * intros m' [= <-] Hm. apply Z.ltb_ge in Hlt. lia.
  - destruct rows; [|discriminate Hmax]. intros [= <-].
    split; [intros []|]. split; [reflexivity | discriminate].
Qed.

Lemma next_id_raise (rows : list Row) (e : exn) :
  next_id rows = Raise e ->
  e = OperationalError /\ exists m, max_id rows = Some m /\ MAX_ROWID <= m.
Proof.
  unfold next_id. destruct (max_id rows) as [m|]; [|discriminate].
  destruct (m <? MAX_ROWID) eqn:Hlt; [discriminate|]. apply Z.ltb_ge in Hlt.
  intros H. split; [|exists m; split; [reflexivity | exact Hlt]].
  destruct (sqlite_random_rowid _); [|congruence].
  destruct (_ && _); congruence.
Qed.

Lemma new_row_id (rows : list Row) (ts gh wt at_ wind_ : pyval) (row : Row) :
  new_row rows ts gh wt at_ wind_ = Ok row -> next_id rows = Ok (id row).
Proof.
  unfold new_row. intros Hrow.
  destruct (bind_param ts); cbn [rbind] in Hrow; [|discriminate].
  destruct (bind_param gh); cbn [rbind] in Hrow; [|discriminate].
  destruct (bind_param wt); cbn [rbind] in Hrow; [|discriminate].
  destruct (bind_param at_); cbn [rbind] in Hrow; [|discriminate].
  destruct (bind_param wind_); cbn [rbind] in Hrow; [|discriminate].
  destruct (next_id rows); cbn [rbind] in Hrow; [|discriminate].
  injection Hrow as <-. reflexivity.
Qed.

Lemma store_row_ok_inv
    (w w' : World) (ts gh wt at_ wind_ : pyval) :
  store_row ts gh wt at_ wind_ w = (Ok tt, w') ->
  exists rows row,
    db w = Some rows
    /\ db w' = Some (rows ++ [row])
    /\ new_row rows ts gh wt at_ wind_ = Ok row
    /\ ~ In (id row) (map id rows)
    /\ (rows = [] -> id row = 1)
    /\ (forall m, max_id rows = Some m -> m < MAX_ROWID -> id row = m + 1)
    /\ (NoDup (map id rows) -> NoDup (map id (rows ++ [row])))
    /\ net w' = net w /\ clock w' = clock w /\ button w' = button w
    /\ requests w' = requests w /\ page w' = page w.
Proof.
  rewrite store_row_run. destruct (db w) as [rows|]; [|discriminate].
  destruct (new_row rows ts gh wt at_ wind_) as [row|e] eqn:Hrow; [|discriminate].
  unfold write_table. intros [= <-].
  destruct (next_id_spec rows (id row) (new_row_id _ _ _ _ _ _ _ Hrow))
    as (Hfresh & Hone & Hnext).
  exists rows, row. cbn [db net clock button requests page].
  repeat split; try reflexivity; try assumption.
  intros Hnd. rewrite map_app. cbn [map].
  apply NoDup_app; [exact Hnd | repeat constructor; intros [] |].
  intros i Hi [<-|[]]. exact (Hfresh Hi).
Qed.

(** X2.  A successful [store_row] appends exactly one row at the end of the
    table and leaves every earlier row as it was.  The id of the new row is
    not among the ids of the table, so distinct ids stay distinct: it is 1
    in an empty table, and one more than the largest id of the table when
    that is below 2^63 - 1.  Nothing but the table changes in the world. *)
Theorem store_row_appends_fresh_row
    (w w' : World) (ts gh wt at_ wind_ : pyval) :
  store_row ts gh wt at_ wind_ w = (Ok tt, w') ->
  exists rows row,
    db w = Some rows
    /\ db w' = Some (rows ++ [row])
    /\ new_row rows ts gh wt at_ wind_ = Ok row
    /\ ~ In (id row) (map id rows)
    /\ (rows = [] -> id row = 1)
    /\ (forall largest,
          In largest rows -> (forall r, In r rows -> id r <= id largest) ->
          id largest < 2 ^ 63 - 1 -> id row = id largest + 1)
    /\ (NoDup (map id rows) -> NoDup (map id (rows ++ [row])))
    /\ net w' = net w /\ clock w' = clock w /\ button w' = button w
    /\ requests w' = requests w /\ page w' = page w.
Proof.
  intros Hstore.
  destruct (store_row_ok_inv _ _ _ _ _ _ _ Hstore)
    as (rows & row & Hdb & Hdb' & Hrow & Hfresh & Hone & Hnext & Hrest).
  exists rows, row.
  split; [exact Hdb|]. split; [exact Hdb'|]. split; [exact Hrow|].
  split; [exact Hfresh|]. split; [exact Hone|]. split; [|exact Hrest].
  intros largest Hin Hmax Hlt.
  destruct (max_id rows) as [m|] eqn:Hm.
  - destruct (max_id_spec rows m Hm) as [(r & Hr & Heq) Hle].
    assert (Hml : m = id largest)
      by (specialize (Hle largest Hin); specialize (Hmax r Hr); lia).
    rewrite <- Hml. apply (Hnext m eq_refl). unfold MAX_ROWID. lia.
  - destruct rows; [destruct Hin | discriminate Hm].
Qed.

Lemma bind_param_raise (v : pyval) (e : exn) :
  bind_param v = Raise e -> e = ProgrammingError \/ e = OverflowError.
Proof.
  destruct v; cbn; try discriminate; try (intros [= <-]; auto).
  destruct (_ && _); [discriminate | intros [= <-]; auto].
Qed.

Lemma new_row_raise (rows : list Row) (ts gh wt at_ wind_ : pyval) (e : exn) :
  new_row rows ts gh wt at_ wind_ = Raise e ->
  (exists v, In v [ts; gh; wt; at_; wind_] /\ bind_param v = Raise e)
  \/ (e = OperationalError /\ exists m, max_id rows = Some m /\ MAX_ROWID <= m).
Proof.
  unfold new_row. intros Hrow.
  destruct (bind_param ts) eqn:B1; cbn [rbind] in Hrow;
    [|injection Hrow as <-; left; exists ts; cbn; auto 10].
  destruct (bind_param gh) eqn:B2; cbn [rbind] in Hrow;
    [|injection Hrow as <-; left; exists gh; cbn; auto 10].
  destruct (bind_param wt) eqn:B3; cbn [rbind] in Hrow;
    [|injection Hrow as <-; left; exists wt; cbn; auto 10].
  destruct (bind_param at_) eqn:B4; cbn [rbind] in Hrow;
    [|injection Hrow as <-; left; exists at_; cbn; auto 10].
  destruct (bind_param wind_) eqn:B5; cbn [rbind] in Hrow;
    [|injection Hrow as <-; left; exists wind_; cbn; auto 10].
  destruct (next_id rows) eqn:Hid; cbn [rbind] in Hrow; [discriminate|].
  injection Hrow as <-. right. now apply next_id_raise.
Qed.

Lemma store_row_raise_inv
    (w w' : World) (ts gh wt at_ wind_ : pyval) (e : exn) :
  store_row ts gh wt at_ wind_ w = (Raise e, w') ->
  w' = w
  /\ (db w = None -> e = OperationalError)
  /\ (e = OperationalError \/ e = ProgrammingError \/ e = OverflowError)
  /\ (e <> OperationalError ->
      exists v, In v [ts; gh; wt; at_; wind_] /\ bind_param v = Raise e)
  /\ (e = OperationalError ->
      db w = None
      \/ exists rows largest,
           db w = Some rows /\ In largest rows /\ 2 ^ 63 - 1 <= id largest).
Proof.
  rewrite store_row_run. destruct (db w) as [rows|].
  - destruct (new_row rows ts gh wt at_ wind_) as [row|e'] eqn:Hrow; [discriminate|].
    intros [= <- <-]. split; [reflexivity|]. split; [discriminate|].
    destruct (new_row_raise _ _ _ _ _ _ _ Hrow) as [(v & Hv & Hb)|[-> (m & Hm & Hle)]].
    + pose proof (bind_param_raise v e' Hb) as He.
      split; [tauto|]. split; [intros _; exists v; auto|].
      intros ->. destruct He; discriminate.
    + split; [auto|]. split; [congruence|]. intros _. right.
      destruct (max_id_spec rows m Hm) as [(r & Hr & Heq) _].
      exists rows, r. subst m. auto.
  - intros [= <- <-]. split; [reflexivity|]. split; [reflexivity|].
    split; [auto|]. split; [congruence | auto].
Qed.

(** X3.  A failing [store_row] writes nothing: the world is unchanged.  It
    fails with sqlite3's [OperationalError] when the table does not exist,
    and otherwise only because a parameter cannot be bound, a list or an
    object ([ProgrammingError]; before Python 3.11 the class is
    InterfaceError) or an int outside 64 bits ([OverflowError]), or, with
    [OperationalError] again, because the table holds the id 2^63 - 1 and
    no unused id was found. *)
Theorem store_row_failure_is_atomic
    (w w' : World) (ts gh wt at_ wind_ : pyval) (e : exn) :
  store_row ts gh wt at_ wind_ w = (Raise e, w') ->
  w' = w
  /\ (db w = None -> e = OperationalError)
  /\ (e = OperationalError \/ e = ProgrammingError \/ e = OverflowError)
  /\ (e <> OperationalError ->
      exists v, In v [ts; gh; wt; at_; wind_] /\ bind_param v = Raise e)
  /\ (e = OperationalError ->
      db w = None
      \/ exists rows largest,
           db w = Some rows /\ In largest rows /\ 2 ^ 63 - 1 <= id largest).
Proof.
  intros Hstore.
  destruct (store_row_raise_inv _ _ _ _ _ _ _ _ Hstore)
    as (Hworld & Htable & Hkind & Hbind & Hfull).
  split; [exact Hworld|]. split; [exact Htable|]. split; [exact Hkind|].
  split; [exact Hbind | exact Hfull].
Qed.

Lemma ids_from_one_next (rows : list Row) (i : Z) :
  ids_from_one rows -> next_id rows = Ok i -> i = Z.of_nat (S (List.length rows)).
Proof.
  unfold ids_from_one. intros Hids Hnext.
  pose proof (next_id_spec rows i Hnext) as (Hfresh & Hone & Hmax).
  destruct (max_id rows) as [m|] eqn:Hm.
  - destruct (max_id_spec rows m Hm) as [(r & Hr & Heq) Hle].
    assert (Hin : forall k, In (Z.of_nat k) (map id rows)
                            <-> (1 <= k <= List.length rows)%nat).
    { intros k. rewrite Hids, in_map_iff. split.
      - intros (k' & Hk & Hseq). apply Nat2Z.inj in Hk. subst k'.
        apply in_seq in Hseq. lia.
      - intros Hk. exists k. split; [reflexivity | apply in_seq; lia]. }
    assert (Hlen : m = Z.of_nat (List.length rows)).
    { assert (Hm1 : In m (map id rows))
        by (apply in_map_iff; exists r; auto).
      assert (Hpos : 0 <= m).
      { rewrite Hids in Hm1. apply in_map_iff in Hm1 as (k & <- & _). lia. }
      rewrite <- (Z2Nat.id m Hpos) in Hm1. apply Hin in Hm1.
      assert (Hn : In (Z.of_nat (List.length rows)) (map id rows)).
      { apply Hin. destruct rows; [destruct Hr | cbn; lia]. }
      apply in_map_iff in Hn as (r' & Heq' & Hr'). specialize (Hle r' Hr'). lia. }
    destruct (Z.ltb_spec m MAX_ROWID) as [Hlt|Hge].
    + rewrite (Hmax m eq_refl Hlt). lia.
    + exfalso. unfold next_id in Hnext. rewrite Hm in Hnext.
      apply Z.ltb_ge in Hge. rewrite Hge in Hnext. apply Z.ltb_ge in Hge.
      destruct (sqlite_random_rowid _) as [c|]; [|discriminate].
      destruct ((1 <=? c) && (c <=? 2 ^ 62)) eqn:Hrange; cbn [andb] in Hnext;
        [|discriminate].
      destruct (used_id rows c) eqn:Hused; cbn [negb] in Hnext; [discriminate|].
      apply andb_true_iff in Hrange as [H1 H2].
      apply Z.leb_le in H1, H2.
      assert (Hc : In c (map id rows)).
      { rewrite <- (Z2Nat.id c) by lia. apply Hin. unfold MAX_ROWID in Hge. lia. }
      apply used_id_spec in Hc. congruence.
  - destruct rows; [|discriminate Hm]. rewrite (Hone eq_refl). reflexivity.
Qed.

(** X4.  Ids count the inserts: when the ids of the table are 1, 2, ..., n
    in order (as in the empty table), a successful [store_row] gives the new
    row the id n + 1, and the ids are again 1, 2, ..., n + 1. *)
Theorem store_row_numbers_rows
    (w w' : World) (ts gh wt at_ wind_ : pyval) :
  ids_from_one (stored_rows w) ->
  store_row ts gh wt at_ wind_ w = (Ok tt, w') ->
  ids_from_one (stored_rows w')
  /\ List.length (stored_rows w') = S (List.length (stored_rows w))
  /\ exists row, In row (stored_rows w')
                 /\ id row = Z.of_nat (S (List.length (stored_rows w))).
Proof.
  intros Hids Hstore.
  destruct (store_row_ok_inv _ _ _ _ _ _ _ Hstore)
    as (rows & row & Hdb & Hdb' & Hrow & _).
  unfold stored_rows in *. rewrite Hdb in Hids. rewrite Hdb, Hdb'.
  assert (Hid : id row = Z.of_nat (S (List.length rows)))
    by exact (ids_from_one_next rows (id row) Hids (new_row_id _ _ _ _ _ _ _ Hrow)).
  split; [|split].
  - unfold ids_from_one in *. rewrite length_app, map_app, Hids. cbn [List.length map].
    rewrite Nat.add_1_r, seq_S, map_app. cbn [map]. rewrite Hid. reflexivity.
  - rewrite length_app. cbn. lia.
  - exists row. split; [apply in_or_app; right; left; reflexivity | exact Hid].
Qed.

End Table.

(** Storing a snapshot after the three example rows: it gets the id 4. *)
Lemma store_row_appends_fresh_row_witness :
  let w := Example.world Example.gage_ok Example.weather_ok Example.now true
             (Some Example.three_rows) in
  let w' := snd (@store_row Example.runtime (PStr "2026-11-03T02:30:00.000-07:00")
                   (PFloat 512.3) (PFloat 18.5) (PFloat 30.0) (PFloat 8.94776) w) in
  exists rows row,
    db w = Some rows
    /\ db w' = Some (rows ++ [row])
    /\ @new_row Example.runtime rows (PStr "2026-11-03T02:30:00.000-07:00")
         (PFloat 512.3) (PFloat 18.5) (PFloat 30.0) (PFloat 8.94776) = Ok row
    /\ ~ In (id row) (map id rows)
    /\ (rows = [] -> id row = 1)
    /\ (forall largest,
          In largest rows -> (forall r, In r rows -> id r <= id largest) ->
          id largest < 2 ^ 63 - 1 -> id row = id largest + 1)
    /\ (NoDup (map id rows) -> NoDup (map id (rows ++ [row])))
    /\ net w' = net w /\ clock w' = clock w /\ button w' = button w
    /\ requests w' = requests w /\ page w' = page w.
Proof.
  cbn zeta. apply (@store_row_appends_fresh_row Example.runtime).
  vm_compute. reflexivity.
Defined.

(** A timestamp that is a JSON array cannot be bound. *)
Lemma store_row_failure_is_atomic_witness :
  let w := Example.world Example.gage_ok Example.weather_ok Example.now true
             (Some Example.three_rows) in
  let ts := PList [] in
  fst (@store_row Example.runtime ts (PFloat 512.3) PNone PNone PNone w)
  = Raise ProgrammingError
  /\ w = w
  /\ (db w = None -> ProgrammingError = OperationalError)
  /\ (ProgrammingError = OperationalError \/ ProgrammingError = ProgrammingError
      \/ ProgrammingError = OverflowError)
  /\ (ProgrammingError <> OperationalError ->
      exists v, In v [ts; PFloat 512.3; PNone; PNone; PNone]
                /\ bind_param v = Raise ProgrammingError)
  /\ (ProgrammingError = OperationalError ->
      db w = None
      \/ exists rows largest,
           db w = Some rows /\ In largest rows /\ 2 ^ 63 - 1 <= id largest).
Proof.
  cbn zeta. split; [vm_compute; reflexivity|].
  apply (@store_row_failure_is_atomic Example.runtime _ _
           (PList []) (PFloat 512.3) PNone PNone PNone).
  vm_compute. reflexivity.
Defined.

(** The first snapshot stored in the empty table gets the id 1. *)
Lemma store_row_numbers_rows_witness :
  let w := Example.world Example.gage_ok Example.weather_ok Example.now true (Some []) in
  let w' := snd (@store_row Example.runtime (PStr "2026-11-03T02:30:00.000-07:00")
                   (PFloat 512.3) PNone PNone PNone w) in
  ids_from_one (stored_rows w')
  /\ List.length (stored_rows w') = S (List.length (stored_rows w))
  /\ exists row, In row (stored_rows w')
                 /\ id row = Z.of_nat (S (List.length (stored_rows w))).
Proof.
  cbn zeta.
  apply (@store_row_numbers_rows Example.runtime _ _
           (PStr "2026-11-03T02:30:00.000-07:00") (PFloat 512.3) PNone PNone PNone).
  - reflexivity.
  - vm_compute. reflexivity.
Defined.

(** ** The converters on values that are not numbers *)

Lemma int_truediv_raise (a b : Z) (e : exn) :
  b <> 0 -> int_truediv a b = Raise e -> e = OverflowError.
Proof.
  intros Hb. unfold int_truediv. apply Z.eqb_neq in Hb. rewrite Hb.
  destruct (PrimFloat.is_infinity _); [intros [= <-]; reflexivity | discriminate].
Qed.

Lemma mps_to_mph_outcome (v : pyval) :
  match mps_to_mph v with
  | Ok r => float_or_none r /\ (r = PNone <-> v = PNone)
  | Raise e => e = TypeError \/ e = OverflowError
  end.
Proof.
  unfold float_or_none.
  destruct v as [|b|z|f|s|l|d]; cbn; try (right; reflexivity) || (left; reflexivity).
  - split; [left; reflexivity | tauto].
  - destruct b; cbn; (split; [right; eauto | split; discriminate]).
  - unfold mps_to_mph, py_mul. cbn [is_none as_number to_float].
    destruct (float_of_int z) as [fz|e] eqn:Hz; cbn [rbind].
    + split; [right; eauto | split; discriminate].
    + right. now apply float_of_int_raise in Hz.
  - split; [right; eauto | split; discriminate].
Qed.

Lemma c_to_f_outcome (v : pyval) :
  match c_to_f v with
  | Ok r => float_or_none r /\ (r = PNone <-> v = PNone)
  | Raise e => e = TypeError \/ e = OverflowError
  end.
Proof.
  unfold float_or_none.
  destruct v as [|b|z|f|s|l|d]; try (cbn; left; reflexivity).
  - cbn. split; [left; reflexivity | tauto].
  - destruct b; vm_compute; (split; [right; eauto | split; discriminate]).
  - rewrite c_to_f_int.
    destruct (int_truediv (z * 9) 5) as [q|e] eqn:Hq; cbn [rbind].
    + split; [right; eauto | split; discriminate].
    + right. eapply int_truediv_raise; [|exact Hq]. discriminate.
  - rewrite c_to_f_float. split; [right; eauto | split; discriminate].
Qed.

(** X5.  The two converters validate nothing but their arithmetic: whatever
    the argument, each either returns a float, or [None] exactly for
    [None], or raises [TypeError] or [OverflowError]; on a string, a list or
    an object both raise [TypeError]. *)
Theorem converters_return_floats_or_raise (v : pyval) :
  (forall r, mps_to_mph v = Ok r -> float_or_none r /\ (r = PNone <-> v = PNone))
  /\ (forall r, c_to_f v = Ok r -> float_or_none r /\ (r = PNone <-> v = PNone))
  /\ (forall e, mps_to_mph v = Raise e -> e = TypeError \/ e = OverflowError)
  /\ (forall e, c_to_f v = Raise e -> e = TypeError \/ e = OverflowError)
  /\ (as_number v = None -> v <> PNone ->
      mps_to_mph v = Raise TypeError /\ c_to_f v = Raise TypeError).
Proof.
  pose proof (mps_to_mph_outcome v) as Hm. pose proof (c_to_f_outcome v) as Hc.
  repeat split.
  - rewrite H in Hm. apply Hm.
  - rewrite H in Hm. apply Hm.
  - rewrite H in Hm. apply Hm.
  - rewrite H in Hc. apply Hc.
  - rewrite H in Hc. apply Hc.
  - rewrite H in Hc. apply Hc.
  - intros e He. rewrite He in Hm. exact Hm.
  - intros e He. rewrite He in Hc. exact Hc.
  - destruct v; cbn in *; congruence.
  - destruct v; cbn in *; congruence.
Qed.

(** ** The fetches: requests, values and failures *)

Section Fetches.
Context {rt : Runtime}.

(** X7.  A fetch sends exactly one GET, with the parameters of the script,
    and touches nothing else in the world, whether it returns or raises:
    there is no retry and no write.  An error status wins over the body:
    with a 4xx/5xx status the fetch raises [HTTPError] even when the body
    is a complete response. *)
Theorem each_fetch_sends_one_request (w : World) :
  snd (fetch_usgs w) = logged usgs_request w
  /\ snd (fetch_weather w) = logged weather_request w
  /\ (forall status body,
        net w USGS_IV_URL = Response status body -> 400 <= status < 600 ->
        fst (fetch_usgs w) = Raise (HTTPError status))
  /\ (forall status body,
        net w OPEN_METEO_URL = Response status body -> 400 <= status < 600 ->
        fst (fetch_weather w) = Raise (HTTPError status))
  /\ (net w USGS_IV_URL = NoResponse -> fst (fetch_usgs w) = Raise ConnectionError)
  /\ (net w OPEN_METEO_URL = NoResponse -> fst (fetch_weather w) = Raise ConnectionError).
Proof.
  rewrite fetch_usgs_run, fetch_weather_run. cbn [fst snd].
  assert (Herr : forall status, 400 <= status < 600 -> http_error status = true).
  { intros status [Hlo Hhi]. apply andb_true_iff.
    split; [apply Z.leb_le | apply Z.ltb_lt]; assumption. }
  repeat split.
  - intros status body -> Hs. cbn. rewrite (Herr status Hs). reflexivity.
  - intros status body -> Hs. cbn. rewrite (Herr status Hs). reflexivity.
  - intros ->. reflexivity.
  - intros ->. reflexivity.
Qed.

Lemma value_path_eq (s : pyval) :
  get_path s value_path = let? val := get_path s sample_path in getitem val "value".
Proof.
  unfold value_path. rewrite get_path_app.
  destruct (get_path s sample_path) as [val|e]; cbn; [|reflexivity].
  destruct (getitem val "value"); reflexivity.
Qed.

(** What one pass of the loop body does to [gh] and [wt]. *)
Lemma usgs_series_values (ts0 gh0 wt0 ts1 gh1 wt1 s : pyval) :
  usgs_series (ts0, gh0, wt0) s = Ok (ts1, gh1, wt1) ->
  (if has_code PARAM_GAGE_HEIGHT s
   then exists x f, get_path s value_path = Ok x /\ py_float x = Ok f /\ gh1 = PFloat f
   else gh1 = gh0)
  /\ (if has_code PARAM_WATER_TEMP s
      then exists x f, get_path s value_path = Ok x /\ py_float x = Ok f /\ wt1 = PFloat f
      else wt1 = wt0).
Proof.
  rewrite value_path_eq. unfold usgs_series, has_code.
  destruct (get_path s code_path) as [code|]; cbn [rbind]; [|discriminate].
  destruct (get_path s sample_path) as [val|]; cbn [rbind]; [|discriminate].
  destruct (getitem val "dateTime") as [ts|]; cbn [rbind]; [|discriminate].
  destruct (eq_str code PARAM_GAGE_HEIGHT), (eq_str code PARAM_WATER_TEMP);
    destruct (getitem val "value") as [x|]; cbn [rbind]; try discriminate;
    try (destruct (py_float x) as [f|] eqn:Hf; cbn [rbind]; try discriminate);
    intros [= <- <- <-]; split; eauto.
Qed.

Lemma usgs_loop_values (l : list pyval) :
  forall ts0 gh0 wt0 ts gh wt,
    for_each usgs_series l (ts0, gh0, wt0) = Ok (ts, gh, wt) ->
    match last_with_code PARAM_GAGE_HEIGHT l with
    | None => gh = gh0
    | Some s => exists x f, get_path s value_path = Ok x /\ py_float x = Ok f
                            /\ gh = PFloat f
    end
    /\ match last_with_code PARAM_WATER_TEMP l with
       | None => wt = wt0
       | Some s => exists x f, get_path s value_path = Ok x /\ py_float x = Ok f
                               /\ wt = PFloat f
       end.
Proof.
  induction l as [|s l IH]; intros ts0 gh0 wt0 ts gh wt; cbn [for_each last_with_code].
  - intros [= <- <- <-]. split; reflexivity.
  - destruct (usgs_series (ts0, gh0, wt0) s) as [[[ts1 gh1] wt1]|] eqn:Hs;
      cbn [rbind]; [|discriminate].
    intros Hl. apply IH in Hl as [Hgh Hwt].
    apply usgs_series_values in Hs as [Hgh1 Hwt1].
    split.
    + destruct (last_with_code PARAM_GAGE_HEIGHT l); [exact Hgh|].
      destruct (has_code PARAM_GAGE_HEIGHT s); [|congruence].
      destruct Hgh1 as (x & f & Hx & Hf & ->). eauto.
    + destruct (last_with_code PARAM_WATER_TEMP l); [exact Hwt|].
      destruct (has_code PARAM_WATER_TEMP s); [|congruence].
      destruct Hwt1 as (x & f & Hx & Hf & ->). eauto.
Qed.

(** X8.  Last match wins: the gage height [fetch_usgs] returns is the float
    of the latest sample of the last series, in iteration order, whose code
    is the gage-height code, and it is absent when there is none; likewise
    the water temperature.  An earlier series with the same code is
    overwritten. *)
Theorem gage_values_are_last_match
    (w : World) (status : Z) (js : pyval) (l : list pyval) (ts gh wt : pyval) :
  http_error status = false ->
  net w USGS_IV_URL = Response status (Some js) ->
  get_path js [K "value"; K "timeSeries"]%string = Ok (PList l) ->
  fst (fetch_usgs w) = Ok (ts, gh, wt) ->
  match last_with_code PARAM_GAGE_HEIGHT l with
  | None => gh = PNone
  | Some s => exists x f, get_path s value_path = Ok x /\ py_float x = Ok f
                          /\ gh = PFloat f
  end
  /\ match last_with_code PARAM_WATER_TEMP l with
     | None => wt = PNone
     | Some s => exists x f, get_path s value_path = Ok x /\ py_float x = Ok f
                             /\ wt = PFloat f
     end.
Proof.
  intros Hs Hnet Hpath. rewrite (fetch_usgs_on w status js Hs Hnet).
  unfold usgs_extract. rewrite Hpath. cbn [rbind py_iter].
  apply usgs_loop_values.
Qed.

Lemma usgs_series_ok_any (acc acc' : pyval * pyval * pyval) (s : pyval) :
  is_ok (usgs_series acc s) = is_ok (usgs_series acc' s).
Proof.
  destruct (is_ok (usgs_series acc s)) eqn:H1.
  - destruct (usgs_series_timestamp acc acc' s H1) as (ts & gh & wt & -> & _).
    reflexivity.
  - destruct (is_ok (usgs_series acc' s)) eqn:H2; [|reflexivity].
    destruct (usgs_series_timestamp acc' acc s H2) as (ts & gh & wt & Heq & _).
    rewrite Heq in H1. discriminate.
Qed.

Lemma usgs_loop_all_or_nothing (l : list pyval) :
  forall acc,
    is_ok (for_each usgs_series l acc)
    = forallb (fun s => is_ok (usgs_series (PNone, PNone, PNone) s)) l.
Proof.
  induction l as [|s l IH]; intros acc; cbn [for_each forallb]; [reflexivity|].
  rewrite (usgs_series_ok_any (PNone, PNone, PNone) acc s).
  destruct (usgs_series acc s) as [acc'|e]; cbn [rbind is_ok andb]; [apply IH | reflexivity].
Qed.

(** X9.  All or nothing: [fetch_usgs] returns exactly when every series of
    the response passes the loop body, and a single series whose latest
    sample cannot be read makes the whole fetch raise, whatever its variable
    code and wherever it stands; no partial result comes back. *)
Theorem gage_fetch_is_all_or_nothing
    (w : World) (status : Z) (js : pyval) (l : list pyval) :
  http_error status = false ->
  net w USGS_IV_URL = Response status (Some js) ->
  get_path js [K "value"; K "timeSeries"]%string = Ok (PList l) ->
  is_ok (fst (fetch_usgs w))
  = forallb (fun s => is_ok (usgs_series (PNone, PNone, PNone) s)) l
  /\ (forall s, In s l -> is_ok (get_path s sample_path) = false ->
      is_ok (fst (fetch_usgs w)) = false).
Proof.
  intros Hs Hnet Hpath. rewrite (fetch_usgs_on w status js Hs Hnet).
  unfold usgs_extract. rewrite Hpath. cbn [rbind py_iter].
  rewrite usgs_loop_all_or_nothing. split; [reflexivity|].
  intros s Hin Hbad.
  destruct (forallb _ l) eqn:Hall; [|reflexivity].
  rewrite forallb_forall in Hall. specialize (Hall s Hin).
  unfold usgs_series in Hall.
  destruct (get_path s code_path); cbn [rbind is_ok] in Hall; [|discriminate].
  destruct (get_path s sample_path); cbn [rbind is_ok] in *; discriminate.
Qed.

Lemma usgs_loop_floats (l : list pyval) :
  forall ts0 gh0 wt0 ts gh wt,
    for_each usgs_series l (ts0, gh0, wt0) = Ok (ts, gh, wt) ->
    float_or_none gh0 -> float_or_none wt0 ->
    float_or_none gh /\ float_or_none wt.
Proof.
  induction l as [|s l IH]; intros ts0 gh0 wt0 ts gh wt; cbn [for_each].
  - intros [= <- <- <-]. auto.
  - destruct (usgs_series (ts0, gh0, wt0) s) as [[[ts1 gh1] wt1]|] eqn:Hs;
      cbn [rbind]; [|discriminate].
    intros Hl Hgh0 Hwt0. apply usgs_series_values in Hs as [Hgh1 Hwt1].
    eapply IH; [exact Hl | |].
    + destruct (has_code PARAM_GAGE_HEIGHT s); [|congruence].
      destruct Hgh1 as (x & f & _ & _ & ->). right. eauto.
    + destruct (has_code PARAM_WATER_TEMP s); [|congruence].
      destruct Hwt1 as (x & f & _ & _ & ->). right. eauto.
Qed.

Lemma usgs_extract_floats (js ts gh wt : pyval) :
  usgs_extract js = Ok (ts, gh, wt) -> float_or_none gh /\ float_or_none wt.
Proof.
  unfold usgs_extract. intros H.
  apply rbind_ok in H as (series & _ & H). apply rbind_ok in H as (l & _ & H).
  eapply usgs_loop_floats; [exact H | left; reflexivity | left; reflexivity].
Qed.

Lemma weather_extract_floats (js t temp wind_ : pyval) :
  weather_extract js = Ok (t, temp, wind_) -> float_or_none wind_.
Proof.
  unfold weather_extract. intros H.
  apply rbind_ok in H as (cur & _ & H). apply rbind_ok in H as (t' & _ & H).
  apply rbind_ok in H as (temp' & _ & H). apply rbind_ok in H as (speed & _ & H).
  apply rbind_ok in H as (x & Hx & H). injection H as _ _ <-.
  pose proof (mps_to_mph_outcome speed) as Hm. rewrite Hx in Hm. apply Hm.
Qed.

Lemma endpoint_ok {A} (extract : pyval -> result A) (r : reply) (a : A) :
  endpoint extract r = Ok a -> exists status js,
    r = Response status (Some js) /\ http_error status = false /\ extract js = Ok a.
Proof.
  destruct r as [|status body]; cbn; [discriminate|].
  destruct (http_error status) eqn:Hs; [discriminate|].
  destruct body as [js|]; [|discriminate]. eauto.
Qed.

Lemma fetch_current_floats (w w' : World) (r : Reading) :
  fetch_current w = (Ok r, w') ->
  float_or_none (gage_height r) /\ float_or_none (water_temp r)
  /\ float_or_none (wind r).
Proof.
  rewrite fetch_current_run.
  destruct (endpoint usgs_extract _) as [[[ts_r gh] wt]|] eqn:Hu; [|discriminate].
  destruct (endpoint weather_extract _) as [[[ts_w at_] wind_]|] eqn:Hw; [|discriminate].
  intros [= <- _]. cbn [gage_height water_temp wind].
  apply endpoint_ok in Hu as (s1 & js1 & _ & _ & Hu).
  apply endpoint_ok in Hw as (s2 & js2 & _ & _ & Hw).
  apply usgs_extract_floats in Hu as [Hgh Hwt].
  apply weather_extract_floats in Hw. auto.
Qed.

(** X10.  Whatever the two services answer, a reading that the fetch step
    returns has a gage height, a water temperature and a wind that are each
    a float or absent: strings and ints never reach these three fields.
    (The air temperature is whatever JSON value the weather service sent.) *)
Theorem fetched_measurements_are_floats (w w' : World) (r : Reading) :
  fetch_current w = (Ok r, w') ->
  float_or_none (gage_height r) /\ float_or_none (water_temp r)
  /\ float_or_none (wind r).
Proof.
  intros Hfetch.
  destruct (fetch_current_floats _ _ _ Hfetch) as (Hgh & Hwt & Hwind).
  split; [exact Hgh|]. split; [exact Hwt | exact Hwind].
Qed.

(** X11.  When the three fields of [current] are there, [fetch_weather]
    hands back the time and the temperature as they are, whatever JSON
    values they are, and the wind speed through [mps_to_mph]: a null wind
    speed comes back absent, and a wind speed that [mps_to_mph] rejects makes
    the fetch raise. *)
Theorem weather_fields_pass_through
    (w : World) (status : Z) (js time temperature speed : pyval) :
  http_error status = false ->
  net w OPEN_METEO_URL = Response status (Some js) ->
  get_path js [K "current"; K "time"]%string = Ok time ->
  get_path js [K "current"; K "temperature_2m"]%string = Ok temperature ->
  get_path js [K "current"; K "wind_speed_10m"]%string = Ok speed ->
  fst (fetch_weather w)
  = (let? wind_ := mps_to_mph speed in Ok (time, temperature, wind_))
  /\ (speed = PNone -> fst (fetch_weather w) = Ok (time, temperature, PNone))
  /\ (forall s, speed = PStr s -> fst (fetch_weather w) = Raise TypeError).
Proof.
  intros Hs Hnet Ht Htemp Hspeed.
  rewrite fetch_weather_run, Hnet. cbn [fst endpoint]. rewrite Hs.
  unfold weather_extract. cbn [get_path] in Ht, Htemp, Hspeed.
  destruct (getitem js "current") as [cur|]; cbn [rbind] in *; [|discriminate].
  destruct (getitem cur "time") as [x|]; cbn [rbind] in *; [|discriminate].
  injection Ht as ->.
  destruct (getitem cur "temperature_2m") as [x|]; cbn [rbind] in *; [|discriminate].
  injection Htemp as ->.
  destruct (getitem cur "wind_speed_10m") as [x|]; cbn [rbind] in *; [|discriminate].
  injection Hspeed as ->.
  split; [reflexivity|]. split; [intros ->; reflexivity | intros s ->; reflexivity].
Qed.

(** X17.  Fallback of the timestamp: when the gage service answers with an
    empty collection of series and the weather fetch returns, the merged
    reading carries the weather time, no gage height and no water
    temperature. *)
Theorem empty_gage_response_uses_weather_time
    (w : World) (status : Z) (js : pyval) (ts_w at_ wind_ : pyval) :
  http_error status = false ->
  net w USGS_IV_URL = Response status (Some js) ->
  get_path js [K "value"; K "timeSeries"]%string = Ok (PList []) ->
  fst (fetch_weather w) = Ok (ts_w, at_, wind_) ->
  fst (fetch_current w)
  = Ok {| timestamp := ts_w; gage_height := PNone; water_temp := PNone;
          air_temp := at_; wind := wind_ |}.
Proof.
  intros Hs Hnet Hpath Hw. rewrite fetch_weather_run in Hw. cbn [fst] in Hw.
  rewrite fetch_current_run, Hw, Hnet. cbn [endpoint]. rewrite Hs.
  unfold usgs_extract. rewrite Hpath. reflexivity.
Qed.

End Fetches.

(** ** A run of the script *)

Create HintDb display.

Lemma display_only_ret {A} (a : A) : display_only (ret a).
Proof. intros w. repeat split. Qed.

Lemma display_only_raise {A} (e : exn) : display_only (@raise A e).
Proof. intros w. repeat split. Qed.

Lemma display_only_lift {A} (r : result A) : display_only (lift r).
Proof. intros w. repeat split. Qed.

Lemma display_only_show (x : widget) : display_only (show x).
Proof. intros w. repeat split. Qed.

Lemma display_only_now_utc : display_only now_utc.
Proof. intros w. repeat split. Qed.

Lemma display_only_read_table : display_only read_table.
Proof.
  intros w. unfold read_table.
  destruct (db w) eqn:Hdb; cbn [snd]; repeat split; exact Hdb.
Qed.

Lemma display_only_bind {A B} (m : M A) (k : A -> M B) :
  display_only m -> (forall a, display_only (k a)) -> display_only (bind m k).
Proof.
  intros Hm Hk w. unfold bind.
  destruct (Hm w) as (H1 & H2 & H3 & H4 & H5).
  destruct (m w) as [[a|e] w']; cbn [snd] in *.
  - destruct (Hk a w') as (K1 & K2 & K3 & K4 & K5). repeat split; congruence.
  - repeat split; assumption.
Qed.

#[local] Hint Resolve display_only_ret display_only_raise display_only_lift
  display_only_show display_only_now_utc display_only_read_table
  display_only_bind : display.

Section Run.
Context {rt : Runtime}.

Lemma display_only_load_last_24h : display_only load_last_24h.
Proof.
  unfold load_last_24h. apply display_only_bind; [auto with display|]. intros now.
  apply display_only_bind; [auto with display|]. intros rows.
  destruct (negb _); [|auto with display].
  destruct (to_datetime _); auto with display.
Qed.

Lemma display_only_card label value units : display_only (card label value units).
Proof. unfold card. auto with display. Qed.

Lemma display_only_plot {T} (df : DataFrame T) col label :
  display_only (plot df col label).
Proof. unfold plot. destruct (existsb _ _); auto with display. Qed.

Hint Resolve display_only_load_last_24h display_only_card display_only_plot : display.

Lemma display_only_current_conditions r : display_only (current_conditions r).
Proof. unfold current_conditions. auto 10 with display. Qed.

Lemma display_only_last_24_hours : display_only last_24_hours.
Proof.
  unfold last_24_hours. apply display_only_bind; [auto with display|]. intros _.
  apply display_only_bind; [auto with display|]. intros df.
  destruct (df_empty df); auto 10 with display.
Qed.

(** The fetch step in the world the header leaves: the same result, and a
    world that has the table and the button of the start. *)
Lemma fetch_current_before_fetch (w : World) :
  fst (fetch_current (before_fetch w)) = fst (fetch_current w)
  /\ db (snd (fetch_current (before_fetch w))) = Some (stored_rows w)
  /\ button (snd (fetch_current (before_fetch w))) = button w
  /\ clock (snd (fetch_current (before_fetch w))) = clock w.
Proof.
  rewrite !fetch_current_run. cbn [net before_fetch].
  destruct (endpoint usgs_extract _) as [[[ts_r gh] wt]|]; [|repeat split].
  destruct (endpoint weather_extract _) as [[[ts_w at_] wind_]|]; repeat split.
Qed.

(** X13.  Every failure of the fetch step, a response that is not JSON or
    lacks a key as much as a transport failure, is caught: the run shows the
    error under the header and stops with [st.stop()]; it draws no
    conditions, stores nothing even when the button was pressed, and the
    table keeps its rows. *)
Theorem any_fetch_failure_stops_the_run (w : World) (e : exn) :
  fst (fetch_current w) = Raise e ->
  fst (script w) = Raise StopException
  /\ db (snd (script w)) = Some (stored_rows w)
  /\ page (snd (script w))
     = page w ++ [PageConfig; Html "style"; Html "title"; Html "subtitle";
                  ErrorBox e]%string.
Proof.
  intros He. rewrite script_run.
  destruct (fetch_current_before_fetch w) as (Hfst & Hdb & _).
  rewrite He in Hfst.
  assert (Hpage : page (snd (fetch_current (before_fetch w))) = page (before_fetch w)).
  { rewrite fetch_current_run.
    destruct (endpoint usgs_extract _) as [[[ts_r gh] wt]|]; [|reflexivity].
    destruct (endpoint weather_extract _) as [[[ts_w at_] wind_]|]; reflexivity. }
  destruct (fetch_current (before_fetch w)) as [[r|e'] w1]; cbn [fst snd] in *;
    [discriminate|].
  injection Hfst as ->. cbn [drawn db page]. rewrite Hdb, Hpage.
  cbn [before_fetch page]. rewrite <- app_assoc. repeat split.
Qed.

Lemma store_snapshot_button_run (r : Reading) (w : World) :
  store_snapshot_button r w =
  if button w then
    match store_row (timestamp r) (gage_height r) (water_temp r) (air_temp r) (wind r) w with
    | (Ok _, w') => (Ok tt, drawn SuccessBox w')
    | (Raise e, w') => (Raise e, w')
    end
  else (Ok tt, w).
Proof.
  unfold store_snapshot_button, bind, st_button.
  destruct (button w); [|reflexivity].
  destruct (store_row _ _ _ _ _ w) as [[[]|e] w']; reflexivity.
Qed.

(** X12.  A run is append-only: whatever the services answer and whatever
    fails on the way, the table afterwards holds the rows it held before,
    unchanged and in the same order, followed by at most one new row; a new
    row appears only when the button was pressed, and its id is none of the
    earlier ids. *)
Theorem run_is_append_only (w : World) :
  db (snd (script w)) = Some (stored_rows w)
  \/ (button w = true
      /\ exists row, db (snd (script w)) = Some (stored_rows w ++ [row])
                     /\ ~ In (id row) (map id (stored_rows w))).
Proof.
  enough (H : forall wf, snd (script w) = wf ->
            db wf = Some (stored_rows w)
            \/ (button w = true
                /\ exists row, db wf = Some (stored_rows w ++ [row])
                               /\ ~ In (id row) (map id (stored_rows w))))
    by (apply H; reflexivity).
  rewrite script_run.
  destruct (fetch_current_before_fetch w) as (_ & Hdb & Hbutton & _).
  destruct (fetch_current (before_fetch w)) as [[r|e] w1]; cbn [fst snd] in *;
    [|intros wf <-; left; exact Hdb].
  unfold bind at 1.
  destruct (display_only_current_conditions r w1) as (_ & _ & Hb2 & _ & Hd2).
  destruct (current_conditions r w1) as [[[]|e] w2]; cbn [snd] in *;
    [|intros wf <-; left; congruence].
  unfold bind at 1. rewrite store_snapshot_button_run.
  destruct (button w2) eqn:Hpressed.
  - destruct (store_row _ _ _ _ _ w2) as [[[]|e] w3] eqn:Hstore.
    + apply store_row_ok_inv in Hstore
        as (rows & row & Hrows & Hrows' & _ & Hfresh & _).
      destruct (display_only_last_24_hours (drawn SuccessBox w3))
        as (_ & _ & _ & _ & Hd4).
      intros wf <-. right. split; [congruence|]. exists row. rewrite Hd4.
      cbn [db drawn].
      assert (rows = stored_rows w) as -> by congruence.
      split; [exact Hrows' | exact Hfresh].
    + apply store_row_raise_inv in Hstore as (-> & _).
      intros wf <-. left. cbn [snd]. congruence.
  - destruct (display_only_last_24_hours w2) as (_ & _ & _ & _ & Hd4).
    intros wf <-. left. congruence.
Qed.

End Run.

Section Rendering.
Context {rt : Runtime}.

Lemma current_conditions_run (r : Reading) (w : World) :
  current_conditions r w =
  let sec := Html "section: Current Conditions" in
  match fmt (gage_height r) 2 with
  | Raise e => (Raise e, drawn_all [sec] w)
  | Ok c1 =>
      let card1 := Card "River Level" c1 "ft" in
      match fahrenheit_text (water_temp r) with
      | Raise e => (Raise e, drawn_all [sec; card1] w)
      | Ok c2 =>
          let card2 := Card "Water Temp" c2 "F" in
          match fahrenheit_text (air_temp r) with
          | Raise e => (Raise e, drawn_all [sec; card1; card2] w)
          | Ok c3 =>
              let card3 := Card "Air Temp" c3 "F" in
              match fmt (wind r) 1 with
              | Raise e => (Raise e, drawn_all [sec; card1; card2; card3] w)
              | Ok c4 =>
                  (Ok tt, drawn_all [sec; card1; card2; card3;
                                     Card "Wind" c4 "mph"; Caption (timestamp r)] w)
              end
          end
      end
  end.
Proof.
  unfold current_conditions, card, bind, show, lift, fahrenheit_text, drawn_all.
  cbn zeta.
  destruct (fmt (gage_height r) 2) as [c1|]; cbn; [|reflexivity].
  destruct (rbind (c_to_f (water_temp r)) _) as [c2|]; cbn;
    [|rewrite <- !app_assoc; reflexivity].
  destruct (rbind (c_to_f (air_temp r)) _) as [c3|]; cbn;
    [|rewrite <- !app_assoc; reflexivity].
  destruct (fmt (wind r) 1) as [c4|]; cbn; rewrite <- !app_assoc; reflexivity.
Qed.

Lemma fmt_float_or_none (v : pyval) (d : nat) :
  float_or_none v ->
  exists c, fmt v d = Ok c
            /\ (v = PNone -> c = "N/A"%string)
            /\ (forall f, v = PFloat f -> c = format_fixed f d).
Proof.
  intros [->|(f & ->)]; cbn; eexists; split; try reflexivity.
  - split; [reflexivity | discriminate].
  - split; [discriminate | intros f' [= <-]; reflexivity].
Qed.

Lemma fahrenheit_float_or_none (v : pyval) :
  float_or_none v ->
  exists c, fahrenheit_text v = Ok c
            /\ (v = PNone -> c = "N/A"%string)
            /\ (forall f, v = PFloat f -> c = format_fixed (f * 9 / 5 + 32)%float 1).
Proof.
  unfold fahrenheit_text. intros [->|(f & ->)].
  - cbn. eexists. split; [reflexivity|]. split; [reflexivity | discriminate].
  - rewrite c_to_f_float. cbn. eexists. split; [reflexivity|].
    split; [discriminate | intros f' [= <-]; reflexivity].
Qed.

(** X15.  The current conditions always render for a reading whose four
    measurements are floats or absent: no card raises, the section draws its
    heading, the four cards and the caption with the merged timestamp, an
    absent measurement shows as N/A, and the two temperatures are shown in
    Fahrenheit with one decimal while the reading itself stays in Celsius. *)
Theorem conditions_render_for_floats (r : Reading) (w : World) :
  float_or_none (gage_height r) -> float_or_none (water_temp r) ->
  float_or_none (air_temp r) -> float_or_none (wind r) ->
  exists c1 c2 c3 c4,
    current_conditions r w
    = (Ok tt, drawn_all [ Html "section: Current Conditions";
                          Card "River Level" c1 "ft"; Card "Water Temp" c2 "F";
                          Card "Air Temp" c3 "F"; Card "Wind" c4 "mph";
                          Caption (timestamp r) ] w)
    /\ (gage_height r = PNone -> c1 = "N/A"%string)
    /\ (water_temp r = PNone -> c2 = "N/A"%string)
    /\ (air_temp r = PNone -> c3 = "N/A"%string)
    /\ (wind r = PNone -> c4 = "N/A"%string)
    /\ (forall f, gage_height r = PFloat f -> c1 = format_fixed f 2)
    /\ (forall f, water_temp r = PFloat f -> c2 = format_fixed (f * 9 / 5 + 32)%float 1)
    /\ (forall f, air_temp r = PFloat f -> c3 = format_fixed (f * 9 / 5 + 32)%float 1)
    /\ (forall f, wind r = PFloat f -> c4 = format_fixed f 1).
Proof.
  intros Hgh Hwt Hat Hwind.
  destruct (fmt_float_or_none _ 2 Hgh) as (c1 & E1 & N1 & F1).
  destruct (fahrenheit_float_or_none _ Hwt) as (c2 & E2 & N2 & F2).
  destruct (fahrenheit_float_or_none _ Hat) as (c3 & E3 & N3 & F3).
  destruct (fmt_float_or_none _ 1 Hwind) as (c4 & E4 & N4 & F4).
  exists c1, c2, c3, c4.
  rewrite current_conditions_run, E1, E2, E3, E4. cbn zeta. auto 10.
Qed.

Lemma fetch_current_same_reading (w : World) (r : Reading) :
  fst (fetch_current w) = Ok r ->
  exists w1,
    fetch_current (before_fetch w) = (Ok r, w1)
    /\ db w1 = Some (stored_rows w) /\ button w1 = button w /\ clock w1 = clock w.
Proof.
  intros Hr. destruct (fetch_current_before_fetch w) as (Hfst & Hdb & Hb & Hc).
  rewrite Hr in Hfst.
  destruct (fetch_current (before_fetch w)) as [res w1]; cbn [fst snd] in *.
  subst res. eauto.
Qed.

(** X16.  Rendering comes before storing: when the fetch step returns a
    reading whose air temperature cannot be shown (a JSON string, say, on
    which [c_to_f] raises [TypeError]), the run ends with that exception
    after the first two cards, and nothing is stored even when the button
    was pressed. *)
Theorem unrenderable_air_temperature_blocks_store
    (w : World) (r : Reading) (e : exn) :
  fst (fetch_current w) = Ok r ->
  fahrenheit_text (air_temp r) = Raise e ->
  fst (script w) = Raise e
  /\ db (snd (script w)) = Some (stored_rows w).
Proof.
  intros Hr He.
  destruct (fetch_current_same_reading w r Hr) as (w1 & Hf & Hdb & _).
  destruct (fetch_current_floats _ _ _ Hf) as (Hgh & Hwt & _).
  destruct (fmt_float_or_none _ 2 Hgh) as (c1 & E1 & _).
  destruct (fahrenheit_float_or_none _ Hwt) as (c2 & E2 & _).
  assert (Hs : exists w2, script w = (Raise e, w2) /\ db w2 = db w1).
  { rewrite script_run, Hf. unfold bind.
    rewrite current_conditions_run, E1, E2, He. cbn zeta.
    eexists. split; reflexivity. }
  destruct Hs as (w2 & -> & Hw2). cbn [fst snd].
  split; [reflexivity | congruence].
Qed.

Lemma last_24_hours_outcome (w : World) (rows : list Row) :
  db w = Some rows ->
  fst (last_24_hours w) = Ok tt \/ fst (last_24_hours w) = Raise DateParseError.
Proof.
  intros Hdb.
  enough (H : forall res, fst (last_24_hours w) = res ->
                          res = Ok tt \/ res = Raise DateParseError)
    by (apply H; reflexivity).
  unfold last_24_hours. unfold bind at 1. cbn [show].
  unfold bind at 1. rewrite load_last_24h_run. cbn [db]. rewrite Hdb. cbn zeta.
  destruct (select_since _ rows) as [|x sel]; [intros res <-; left; reflexivity|].
  destruct (to_datetime _) as [column|]; [|intros res <-; right; reflexivity].
  unfold df_empty. cbn [df_rows]. unfold plot, bind, show, ret. cbn [df_rows].
  repeat (destruct (existsb _ _); cbn [fst snd]); intros res <-; left; reflexivity.
Qed.

(** X14.  Persisting is verbatim: in a run where the fetch step returns a
    reading, its air temperature can be shown and the button was pressed,
    the insert is that of the five fields of that same reading (the
    timestamp as merged, the temperatures as fetched, in Celsius) into the
    rows the table held.  When the insert makes a row, that row is appended
    and the run ends normally unless pandas rejects a selected timestamp;
    when it fails (a merged timestamp that is a JSON array cannot be
    bound), the run ends with its exception and the table keeps its
    rows. *)
Theorem pressed_button_stores_the_reading
    (w : World) (r : Reading) (c3 : string) :
  fst (fetch_current w) = Ok r ->
  button w = true ->
  fahrenheit_text (air_temp r) = Ok c3 ->
  match new_row (stored_rows w) (timestamp r) (gage_height r) (water_temp r)
          (air_temp r) (wind r) with
  | Ok row =>
      db (snd (script w)) = Some (stored_rows w ++ [row])
      /\ (fst (script w) = Ok tt \/ fst (script w) = Raise DateParseError)
  | Raise e =>
      fst (script w) = Raise e
      /\ db (snd (script w)) = Some (stored_rows w)
  end.
Proof.
  intros Hr Hpressed Hat.
  destruct (fetch_current_same_reading w r Hr) as (w1 & Hf & Hdb & Hb & _).
  destruct (fetch_current_floats _ _ _ Hf) as (Hgh & Hwt & Hwind).
  destruct (fmt_float_or_none _ 2 Hgh) as (c1 & E1 & _).
  destruct (fahrenheit_float_or_none _ Hwt) as (c2 & E2 & _).
  destruct (fmt_float_or_none _ 1 Hwind) as (c4 & E4 & _).
  destruct (new_row _ _ _ _ _ _) as [row|e] eqn:Hrow.
  - assert (Hs : exists w3, script w = last_24_hours w3
                            /\ db w3 = Some (stored_rows w ++ [row])).
    { rewrite script_run, Hf. unfold bind.
      rewrite current_conditions_run, E1, E2, Hat, E4. cbv beta iota zeta.
      rewrite store_snapshot_button_run.
      cbn [button drawn_all]. rewrite Hb, Hpressed.
      rewrite store_row_run. cbn [db drawn_all]. rewrite Hdb, Hrow. unfold write_table.
      eexists. split; reflexivity. }
    destruct Hs as (w3 & -> & Hw3).
    destruct (display_only_last_24_hours w3) as (_ & _ & _ & _ & Hd).
    split; [congruence | exact (last_24_hours_outcome w3 _ Hw3)].
  - assert (Hs : exists w3, script w = (Raise e, w3)
                            /\ db w3 = Some (stored_rows w)).
    { rewrite script_run, Hf. unfold bind.
      rewrite current_conditions_run, E1, E2, Hat, E4. cbv beta iota zeta.
      rewrite store_snapshot_button_run.
      cbn [button drawn_all]. rewrite Hb, Hpressed.
      rewrite store_row_run. cbn [db drawn_all]. rewrite Hdb, Hrow.
      eexists. split; [reflexivity|]. cbn [db drawn_all]. exact Hdb. }
    destruct Hs as (w3 & -> & Hw3). split; [reflexivity | exact Hw3].
Qed.

Lemma string_leb_refl (t : string) : String.leb t t = true.
Proof. destruct (String.leb_total t t); assumption. Qed.

(** X18.  Timestamps need not be unique: storing the same reading twice in
    an empty table keeps two rows, with ids 1 and 2 and the same timestamp
    and measurements, and [load_last_24h] returns both of them (when the
    timestamp is in the window and pandas converts it). *)
Theorem same_reading_twice_gives_two_rows
    (w : World) (t : string) (gh wt at_ wind_ : pyval) (column : list Timestamp) :
  db w = Some [] ->
  String.leb (Clock.isoformat (Clock.minus_hours (clock w) 24)) t = true ->
  is_measure gh -> is_measure wt -> is_measure at_ -> is_measure wind_ ->
  to_datetime [Some t; Some t] = Some column ->
  exists row1 row2 df w',
    (store_row (PStr t) gh wt at_ wind_ ;;
     store_row (PStr t) gh wt at_ wind_ ;;
     load_last_24h) w = (Ok df, w')
    /\ db w' = Some [row1; row2]
    /\ Permutation (df_rows df) [row1; row2]
    /\ df_ts_utc df = Some column
    /\ id row1 = 1 /\ id row2 = 2
    /\ ts_utc row1 = Some t /\ ts_utc row2 = Some t
    /\ gage_height_ft row1 = gage_height_ft row2
    /\ water_temp_c row1 = water_temp_c row2
    /\ air_temp_c row1 = air_temp_c row2
    /\ wind_mph row1 = wind_mph row2.
Proof.
  intros Hdb Hge Hgh Hwt Hat Hwind Hconv.
  assert (Hbind : forall v, is_measure v -> exists c, bind_param v = Ok c).
  { intros v [->|(f & -> & Hnan)]; cbn; eauto. }
  destruct (Hbind gh Hgh) as (c2 & B2).
  destruct (Hbind wt Hwt) as (c3 & B3).
  destruct (Hbind at_ Hat) as (c4 & B4).
  destruct (Hbind wind_ Hwind) as (c5 & B5).
  assert (Hnew : forall rows i,
            next_id rows = Ok i ->
            new_row rows (PStr t) gh wt at_ wind_
            = Ok {| id := i; ts_utc := Some t;
                    gage_height_ft := real_affinity c2;
                    water_temp_c := real_affinity c3;
                    air_temp_c := real_affinity c4;
                    wind_mph := real_affinity c5 |}).
  { intros rows i Hi. unfold new_row. rewrite B2, B3, B4, B5, Hi. reflexivity. }
  unfold bind at 1. rewrite store_row_run, Hdb, (Hnew [] 1 eq_refl).
  unfold write_table.
  unfold bind at 1. rewrite store_row_run. cbn [db].
  match goal with |- context [new_row ?rows _ _ _ _ _] =>
    rewrite (Hnew rows 2 eq_refl)
  end.
  unfold write_table. cbn [app].
  rewrite load_last_24h_run. cbn [db clock]. cbn zeta.
  match goal with |- context [select_since ?c [?r1; ?r2]] =>
    assert (Hsel : select_since c [r1; r2] = [r1; r2])
      by (unfold select_since; cbn [filter]; unfold ts_ge; cbn [ts_utc];
          rewrite Hge; cbn [order_by_ts fold_right insert_row];
          unfold ts_le; cbn [ts_utc]; rewrite string_leb_refl; reflexivity);
    rewrite Hsel
  end.
  cbn [map ts_utc]. rewrite Hconv.
  do 4 eexists. split; [reflexivity|]. cbn. repeat split; reflexivity.
Qed.

End Rendering.

(** *** The further properties on examples *)

(** Two gage-height series, 511.0 then 512.3, and one water temperature. *)
Lemma gage_values_are_last_match_witness :
  let l := [ Upstream.series PARAM_GAGE_HEIGHT (PStr "511.0")
               (PStr "2026-11-03T02:00:00.000-07:00");
             Upstream.series PARAM_WATER_TEMP (PStr "18.5")
               (PStr "2026-11-03T02:15:00.000-07:00");
             Upstream.series PARAM_GAGE_HEIGHT (PStr "512.3")
               (PStr "2026-11-03T02:30:00.000-07:00") ] in
  match last_with_code PARAM_GAGE_HEIGHT l with
  | None => PFloat 512.3 = PNone
  | Some s => exists x f, get_path s value_path = Ok x /\ py_float x = Ok f
                          /\ PFloat 512.3 = PFloat f
  end
  /\ match last_with_code PARAM_WATER_TEMP l with
     | None => PFloat 18.5 = PNone
     | Some s => exists x f, get_path s value_path = Ok x /\ py_float x = Ok f
                             /\ PFloat 18.5 = PFloat f
     end.
Proof.
  cbn zeta.
  eapply (@gage_values_are_last_match Example.runtime
            (Example.world (Response 200 (Some (Upstream.usgs_body _)))
               Example.weather_ok Example.now false None)
            200 _ _ (PStr "2026-11-03T02:30:00.000-07:00")).
  - reflexivity.
  - reflexivity.
  - reflexivity.
  - vm_compute. reflexivity.
Defined.

(** A discharge series without samples, between two good series. *)
Lemma gage_fetch_is_all_or_nothing_witness :
  let empty := PDict [ ("variable", PDict [ ("variableCode",
                                             PList [ PDict [ ("value", PStr "00060") ] ]) ]);
                       ("values", PList [ PDict [ ("value", PList []) ] ]) ]%string in
  let l := [ Upstream.series PARAM_GAGE_HEIGHT (PStr "512.3")
               (PStr "2026-11-03T02:15:00.000-07:00");
             empty;
             Upstream.series PARAM_WATER_TEMP (PStr "18.5")
               (PStr "2026-11-03T02:30:00.000-07:00") ] in
  let w := Example.world (Response 200 (Some (Upstream.usgs_body l)))
             Example.weather_ok Example.now false None in
  is_ok (fst (@fetch_usgs Example.runtime w))
  = forallb (fun s => is_ok (@usgs_series Example.runtime (PNone, PNone, PNone) s)) l
  /\ (forall s, In s l -> is_ok (get_path s sample_path) = false ->
      is_ok (fst (@fetch_usgs Example.runtime w)) = false).
Proof.
  cbn zeta.
  eapply (@gage_fetch_is_all_or_nothing Example.runtime _ 200); reflexivity.
Defined.

Lemma fetched_measurements_are_floats_witness :
  let r := {| timestamp := PStr "2026-11-03T02:30:00.000-07:00";
              gage_height := PFloat 512.3; water_temp := PFloat 18.5;
              air_temp := PFloat 30.0; wind := PFloat 8.94776 |} in
  float_or_none (gage_height r) /\ float_or_none (water_temp r)
  /\ float_or_none (wind r).
Proof.
  cbn zeta.
  eapply (@fetched_measurements_are_floats Example.runtime
            (Example.world Example.gage_ok Example.weather_ok Example.now false None)).
  vm_compute. reflexivity.
Defined.

(** The weather service answers 200 with a body that is not JSON. *)
Lemma any_fetch_failure_stops_the_run_witness :
  let w := Example.world Example.gage_ok (Response 200 None) Example.now true
             (Some Example.three_rows) in
  fst (@script Example.runtime w) = Raise StopException
  /\ db (snd (@script Example.runtime w)) = Some (stored_rows w)
  /\ page (snd (@script Example.runtime w))
     = page w ++ [PageConfig; Html "style"; Html "title"; Html "subtitle";
                  ErrorBox JSONDecodeError]%string.
Proof.
  cbn zeta. apply (@any_fetch_failure_stops_the_run Example.runtime).
  vm_compute. reflexivity.
Defined.

(** Both services answer and the button is pressed, after three rows. *)
Lemma pressed_button_stores_the_reading_witness :
  let w := Example.world Example.gage_ok Example.weather_ok Example.now true
             (Some Example.three_rows) in
  let r := {| timestamp := PStr "2026-11-03T02:30:00.000-07:00";
              gage_height := PFloat 512.3; water_temp := PFloat 18.5;
              air_temp := PFloat 30.0; wind := PFloat 8.94776 |} in
  @new_row Example.runtime (stored_rows w) (timestamp r) (gage_height r)
    (water_temp r) (air_temp r) (wind r)
  = Ok {| id := 4; ts_utc := Some "2026-11-03T02:30:00.000-07:00"%string;
          gage_height_ft := SReal 512.3; water_temp_c := SReal 18.5;
          air_temp_c := SReal 30.0; wind_mph := SReal 8.94776 |}
  /\ match @new_row Example.runtime (stored_rows w) (timestamp r) (gage_height r)
             (water_temp r) (air_temp r) (wind r) with
     | Ok row =>
         db (snd (@script Example.runtime w)) = Some (stored_rows w ++ [row])
         /\ (fst (@script Example.runtime w) = Ok tt
             \/ fst (@script Example.runtime w) = Raise DateParseError)
     | Raise e =>
         fst (@script Example.runtime w) = Raise e
         /\ db (snd (@script Example.runtime w)) = Some (stored_rows w)
     end.
Proof.
  cbn zeta. split; [vm_compute; reflexivity|].
  apply (@pressed_button_stores_the_reading Example.runtime _ _ "86.0"%string).
  - vm_compute. reflexivity.
  - reflexivity.
  - vm_compute. reflexivity.
Defined.

(** A reading without water temperature. *)
Lemma conditions_render_for_floats_witness :
  let r := {| timestamp := PStr "2026-11-03T02:30:00.000-07:00";
              gage_height := PFloat 512.3; water_temp := PNone;
              air_temp := PFloat 30.0; wind := PFloat 8.94776 |} in
  let w := Example.world Example.gage_ok Example.weather_ok Example.now false None in
  exists c1 c2 c3 c4,
    @current_conditions Example.runtime r w
    = (Ok tt, drawn_all [ Html "section: Current Conditions";
                          Card "River Level" c1 "ft"; Card "Water Temp" c2 "F";
                          Card "Air Temp" c3 "F"; Card "Wind" c4 "mph";
                          Caption (timestamp r) ] w)
    /\ (gage_height r = PNone -> c1 = "N/A"%string)
    /\ (water_temp r = PNone -> c2 = "N/A"%string)
    /\ (air_temp r = PNone -> c3 = "N/A"%string)
    /\ (wind r = PNone -> c4 = "N/A"%string)
    /\ (forall f, gage_height r = PFloat f -> c1 = @format_fixed Example.runtime f 2)
    /\ (forall f, water_temp r = PFloat f
                  -> c2 = @format_fixed Example.runtime (f * 9 / 5 + 32)%float 1)
    /\ (forall f, air_temp r = PFloat f
                  -> c3 = @format_fixed Example.runtime (f * 9 / 5 + 32)%float 1)
    /\ (forall f, wind r = PFloat f -> c4 = @format_fixed Example.runtime f 1).
Proof.
  cbn zeta. apply (@conditions_render_for_floats Example.runtime); cbn.
  - right. eauto.
  - left. reflexivity.
  - right. eauto.
  - right. eauto.
Defined.

(** The weather service sends the temperature as the string "30.0". *)
Lemma unrenderable_air_temperature_blocks_store_witness :
  let w := Example.world Example.gage_ok
             (Response 200 (Some (Upstream.weather_body (PStr "2026-11-03T09:30")
                                    (PStr "30.0") (PFloat 4.0))))
             Example.now true (Some Example.three_rows) in
  fst (@script Example.runtime w) = Raise TypeError
  /\ db (snd (@script Example.runtime w)) = Some (stored_rows w).
Proof.
  cbn zeta.
  eapply (@unrenderable_air_temperature_blocks_store Example.runtime _
            {| timestamp := PStr "2026-11-03T02:30:00.000-07:00";
               gage_height := PFloat 512.3; water_temp := PFloat 18.5;
               air_temp := PStr "30.0"; wind := PFloat 8.94776 |}).
  - vm_compute. reflexivity.
  - vm_compute. reflexivity.
Defined.

(** A weather response whose wind speed is null. *)
Lemma weather_fields_pass_through_witness :
  let w := Example.world Example.gage_ok
             (Response 200 (Some (Upstream.weather_body (PStr "2026-11-03T09:30")
                                    (PFloat 30.0) PNone)))
             Example.now false None in
  fst (fetch_weather w)
  = (let? wind_ := mps_to_mph PNone in
     Ok (PStr "2026-11-03T09:30", PFloat 30.0, wind_))
  /\ (PNone = PNone -> fst (fetch_weather w)
                       = Ok (PStr "2026-11-03T09:30", PFloat 30.0, PNone))
  /\ (forall s, PNone = PStr s -> fst (fetch_weather w) = Raise TypeError).
Proof.
  cbn zeta. eapply (weather_fields_pass_through _ 200); reflexivity.
Defined.

(** The gage service answers with no series. *)
Lemma empty_gage_response_uses_weather_time_witness :
  let w := Example.world (Response 200 (Some (Upstream.usgs_body [])))
             Example.weather_ok Example.now false None in
  fst (@fetch_current Example.runtime w)
  = Ok {| timestamp := PStr "2026-11-03T09:30"; gage_height := PNone;
          water_temp := PNone; air_temp := PFloat 30.0; wind := PFloat 8.94776 |}.
Proof.
  cbn zeta.
  eapply (@empty_gage_response_uses_weather_time Example.runtime _ 200).
  - reflexivity.
  - reflexivity.
  - reflexivity.
  - vm_compute. reflexivity.
Defined.

(** The same snapshot stored twice. *)
Lemma same_reading_twice_gives_two_rows_witness :
  let w := Example.world Example.gage_ok Example.weather_ok Example.now true (Some []) in
  let t := "2026-11-03T02:30:00.000-07:00"%string in
  exists row1 row2 df w',
    (@store_row Example.runtime (PStr t) (PFloat 512.3) PNone (PFloat 30.0) (PFloat 8.94776) ;;
     @store_row Example.runtime (PStr t) (PFloat 512.3) PNone (PFloat 30.0) (PFloat 8.94776) ;;
     @load_last_24h Example.runtime) w = (Ok df, w')
    /\ db w' = Some [row1; row2]
    /\ Permutation (df_rows df) [row1; row2]
    /\ df_ts_utc df = Some [Some 1793698200000000; Some 1793698200000000]
    /\ id row1 = 1 /\ id row2 = 2
    /\ ts_utc row1 = Some t /\ ts_utc row2 = Some t
    /\ gage_height_ft row1 = gage_height_ft row2
    /\ water_temp_c row1 = water_temp_c row2
    /\ air_temp_c row1 = air_temp_c row2
    /\ wind_mph row1 = wind_mph row2.
Proof.
  cbn zeta. apply (@same_reading_twice_gives_two_rows Example.runtime).
  - reflexivity.
  - vm_compute. reflexivity.
  - right. eexists. split; [reflexivity | vm_compute; reflexivity].
  - left. reflexivity.
  - right. eexists. split; [reflexivity | vm_compute; reflexivity].
  - right. eexists. split; [reflexivity | vm_compute; reflexivity].
  - vm_compute. reflexivity.
Defined.

Section Query.
Context {rt : Runtime}.

(** X6.  [load_last_24h] only reads: it leaves the world, the table
    included, exactly as it was, whether it returns or raises.  It raises
    [DatabaseError] exactly when the table does not exist; a frame it
    returns has no more rows than the table, and its timestamp column has
    been converted exactly when the frame is not empty. *)
Theorem load_last_24h_is_read_only (w : World) :
  snd (load_last_24h w) = w
  /\ (db w = None <-> fst (load_last_24h w) = Raise DatabaseError)
  /\ (forall df, fst (load_last_24h w) = Ok df ->
        (List.length (df_rows df) <= List.length (stored_rows w))%nat
        /\ (df_ts_utc df = None <-> df_rows df = [])).
Proof.
  rewrite load_last_24h_run. unfold stored_rows.
  destruct (db w) as [rows|].
  - cbn zeta.
    pose proof (select_since_perm
                  (Clock.isoformat (Clock.minus_hours (clock w) 24)) rows) as Hperm.
    apply Permutation_length in Hperm.
    pose proof (filter_length_le
                  (ts_ge (Clock.isoformat (Clock.minus_hours (clock w) 24))) rows) as Hle.
    destruct (select_since _ rows) as [|x sel].
    + split; [reflexivity|]. split; [split; discriminate|].
      intros df [= <-]. cbn. split; [lia | tauto].
    + destruct (to_datetime _) as [column|].
      * split; [reflexivity|]. split; [split; discriminate|].
        intros df [= <-]. cbn [df_rows df_ts_utc].
        split; [lia | split; discriminate].
      * split; [reflexivity|]. split; [split; discriminate|]. discriminate.
  - split; [reflexivity|]. split; [tauto | discriminate].
Qed.

End Query.
